(** * ray_scripts: the iterative beam-optimization control loop

    A shallow embedding of [library/OptimizationOperations.py]: the dose-grid
    schedule, the objective-history bookkeeping, the oracle wrapper
    [run_optimization], the constraint preparation that precedes the first
    oracle call, the warm-start loop with its modulation adjustment and the
    delivery-time reduction search with its rollback.

    Numbers.  The Python code computes on floats; the embedding uses exact
    rationals [Q], so every statement below is about the control flow and the
    exact arithmetic of the formulas, not about rounding.  Iteration counters
    are Python ints and are embedded as [Z]. *)

From Stdlib Require Import ZArith QArith Qabs Qround List String Ascii Bool Lia Lqa.
Import ListNotations.

Set Implicit Arguments.

(** ** Python idioms *)

Module Py.

(** [l[i]] for a non-negative literal index: [None] stands for the
    [IndexError] that Python raises out of range. *)
Definition index {A : Type} (l : list A) (i : nat) : option A := nth_error l i.

(** [l[-1]]: the last element, [None] for the [IndexError] on an empty
    sequence. *)
Fixpoint last_elem {A : Type} (l : list A) : option A :=
  match l with
  | [] => None
  | [x] => Some x
  | _ :: tl => last_elem tl
  end.

(** [range(0, n)] *)
Definition range (n : Z) : list Z := map Z.of_nat (seq 0 (Z.to_nat n)).

(** [int(a / b)] on non-negative-denominator ints: true division followed by
    truncation towards zero. *)
Definition int_div (a b : Z) : Z := Z.quot a b.

(** A list comprehension or append-loop whose body may raise. *)
Fixpoint mapM {A B : Type} (f : A -> option B) (l : list A) : option (list B) :=
  match l with
  | [] => Some []
  | x :: tl =>
      match f x with
      | None => None
      | Some y =>
          match mapM f tl with
          | None => None
          | Some ys => Some (y :: ys)
          end
      end
  end.

Definition Qltb (x y : Q) : bool := negb (Qle_bool y x).
Definition Qneqb (x y : Q) : bool := negb (Qeq_bool x y).

End Py.

(** ** GridScheduler: [make_variable_grid_list] *)

Module GridScheduler.
Import Py.

(** The dict [variable_dose_grid] with its two keys. *)
Record VariableDoseGrid : Type := {
  delta_grid : list Q;
  grid_adjustment_iteration : list Z
}.

(** One pass of the [for iteration in range(0, n_iterations)] body: the
    [if / elif] chain, read left to right, each subscript evaluated only
    when its test is reached. *)
Definition grid_entry (v : VariableDoseGrid) (iteration : Z) : option Q :=
  match index (grid_adjustment_iteration v) 0 with
  | None => None
  | Some a0 =>
      if iteration =? a0 then index (delta_grid v) 0 else
      match index (grid_adjustment_iteration v) 1 with
      | None => None
      | Some a1 =>
          if iteration =? a1 then index (delta_grid v) 1 else
          match index (grid_adjustment_iteration v) 2 with
          | None => None
          | Some a2 =>
              if iteration =? a2 then index (delta_grid v) 2 else
              match index (grid_adjustment_iteration v) 3 with
              | None => None
              | Some a3 =>
                  if iteration =? a3 then index (delta_grid v) 3
                  else Some 0%Q
              end
          end
      end
  end%Z.

(** [[delta_grid[i] for i in picks]], failing as a whole when one subscript
    is out of range. *)
Definition pick (v : VariableDoseGrid) (picks : list nat) : option (list Q) :=
  mapM (index (delta_grid v)) picks.

Definition make_variable_grid_list (n_iterations : Z) (v : VariableDoseGrid)
  : option (list Q) :=
  if (n_iterations =? 1)%Z then pick v [3%nat]
  else if (n_iterations =? 2)%Z then pick v [0%nat; 3%nat]
  else if (n_iterations =? 3)%Z then pick v [0%nat; 2%nat; 3%nat]
  else if (n_iterations =? 4)%Z then pick v [0%nat; 1%nat; 2%nat; 3%nat]
  else mapM (grid_entry v) (range n_iterations).

(** The dict that [optimize_plan] builds when [vary_grid] is set. *)
Definition variable_dose_grid (maximum_iteration : Z)
           (dose_dim1 dose_dim2 dose_dim3 dose_dim4 : Q) : VariableDoseGrid :=
  {| delta_grid := [dose_dim1; dose_dim2; dose_dim3; dose_dim4];
     grid_adjustment_iteration :=
       [0%Z;
        int_div maximum_iteration 2;
        int_div (3 * maximum_iteration) 4;
        (maximum_iteration - 1)%Z] |}.

(** The four checkpoints as the specification writes them, with floor
    division. *)
Definition checkpoints (n : Z) : list Z := [0; n / 2; 3 * n / 4; n - 1]%Z.

End GridScheduler.

(** ** The planning data model, as far as the control loop reads and writes it *)

Module Model.
Import Py.

(** Exceptions that leave the modelled functions. *)
Inductive PyExn : Type :=
| IndexError
| AttributeError
| NameError
| ZeroDivisionError
| SystemExit (message : string).

Inductive Outcome (A : Type) : Type :=
| Ret (a : A)
| Raise (e : PyExn).
Arguments Ret {A} a.
Arguments Raise {A} e.

Definition bind {A B : Type} (m : Outcome A) (k : A -> Outcome B) : Outcome B :=
  match m with
  | Ret a => k a
  | Raise e => Raise e
  end.

Definition of_option {A : Type} (e : PyExn) (o : option A) : Outcome A :=
  match o with
  | Some a => Ret a
  | None => Raise e
  end.

Declare Scope py_scope.
Delimit Scope py_scope with py.
Notation "x <- m ;; k" := (bind m (fun x => k))
  (at level 61, m at next level, right associativity) : py_scope.

(** The four treat margins of [SetTreatAndProtectMarginsForBeam]. *)
Record Margins : Type := {
  Y1 : Q; Y2 : Q; X1 : Q; X2 : Q
}.

(** One entry of [ts.BeamSettings] together with the beam it is [ForBeam]. *)
Record BeamSetting : Type := {
  Name : string;
  BeamMU : Q;
  TreatMargins : list (string * Margins);
  AllowBeamSplit : bool;
  BeamApertureLimit : option (list Q);
  FinalArcGantrySpacing : option Q;   (* [None]: no ArcConversionPropertiesPerBeam *)
  MaxDeliveryTime : option Q          (* [None]: no TomoPropertiesPerBeam *)
}.

Record SegmentConversion : Type := {
  MinSegmentArea : string;
  MinSegmentMUPerFraction : string;
  MinNumberOfOpenLeafPairs : string;
  MinLeafEndSeparation : string;
  MaxNumberOfSegments : Z             (* written as its decimal string *)
}.

(** One entry of [TreatmentSetupSettings]. *)
Record TreatmentSetup : Type := {
  DeliveryTechnique : string;
  MachineName : string;
  TreatRois : list string;            (* what [select_rois_for_treat] finds *)
  TreatOrProtect : list string;       (* ROIs selected for all beams *)
  Segments : SegmentConversion;
  BeamSettings : list BeamSetting
}.

(** [ProgressOfOptimization] *)
Record Progress : Type := {
  Iterations : option (list Z);
  ObjectiveValues : list Q
}.

(** What [patient.Save()] persists and [reload_patient] brings back. *)
Record PlanState : Type := {
  TreatmentSetupSettings : list TreatmentSetup;
  Beams : list string;                (* names of [beamset.Beams], in order *)
  ProgressOfOptimization : option Progress;
  FunctionValue : Q;
  mod_factor : Q;
  VoxelSize : option (Q * Q * Q);     (* [GetDoseGrid()], [None] when unset *)
  MaxNumberOfIterations : Z;
  IterationsInPreparationsPhase : Z
}.

(** An exception thrown by the host: [e.Message] when the attribute exists,
    and the text [format(e)] gives. *)
Record HostException : Type := {
  Message : option string;
  text : string
}.

(** What one [RunOptimization()] does: it either raises, or leaves fresh
    progress data, a function value and (helical plans) a modulation
    factor.  Beam settings are inputs of the optimizer and stay as they
    are. *)
Inductive OracleReply : Type :=
| Converged (p : Progress) (fv : Q) (mf : Q)
| Raised (e : HostException).

Inductive Event : Type :=
| EvRun                              (* RunOptimization() *)
| EvGrid (voxel : Q)                 (* SetDefaultDoseGrid *)
| EvDeliveryTime (beam : nat * nat) (t : Q)   (* modify_tomo_beam_properties *)
| EvSave
| EvReload.

(** The host: the live handles, the persisted copy, the number of oracle
    calls made so far and the calls made to the host, oldest first. *)
Record World : Type := {
  live : PlanState;
  saved : PlanState;
  calls : nat;
  events : list Event
}.

Definition set_live (w : World) (p : PlanState) : World :=
  {| live := p; saved := saved w; calls := calls w; events := events w |}.

Definition emit (w : World) (e : Event) : World :=
  {| live := live w; saved := saved w; calls := calls w;
     events := events w ++ [e] |}.

(** [patient.Save()] *)
Definition save (w : World) : World :=
  emit {| live := live w; saved := live w; calls := calls w;
          events := events w |} EvSave.

(** [reload_patient]: every handle is replaced by the persisted one. *)
Definition reload_patient (w : World) : World :=
  emit {| live := saved w; saved := saved w; calls := calls w;
          events := events w |} EvReload.

End Model.

(** ** Beam lookup by name and the delivery-time write *)

Module Beams.
Import Py Model.

(** A beam object is identified by where its settings sit: the index of the
    treatment setup and the index inside its [BeamSettings]. *)
Definition BeamRef : Type := (nat * nat)%type.

Fixpoint find_name (name : string) (bs : list BeamSetting) (j : nat) : option nat :=
  match bs with
  | [] => None
  | b :: tl => if String.eqb (Name b) name then Some j
               else find_name name tl (S j)
  end.

Fixpoint find_beam (name : string) (tss : list TreatmentSetup) (i : nat)
  : option BeamRef :=
  match tss with
  | [] => None
  | ts :: tl =>
      match find_name name (BeamSettings ts) 0 with
      | Some j => Some (i, j)
      | None => find_beam name tl (S i)
      end
  end.

Definition beam_at (tss : list TreatmentSetup) (r : BeamRef) : option BeamSetting :=
  match nth_error tss (fst r) with
  | Some ts => nth_error (BeamSettings ts) (snd r)
  | None => None
  end.

(** [get_beam_settings(plan, beamset, beam_name)]: the first beam setting of
    that name over all treatment setups, or Python's [None]. *)
Definition get_beam_settings (p : PlanState) (beam_name : string)
  : option (BeamRef * BeamSetting) :=
  match find_beam beam_name (TreatmentSetupSettings p) 0 with
  | Some r =>
      match beam_at (TreatmentSetupSettings p) r with
      | Some b => Some (r, b)
      | None => None
      end
  | None => None
  end.

Definition with_time (t : Q) (b : BeamSetting) : BeamSetting :=
  {| Name := Name b; BeamMU := BeamMU b; TreatMargins := TreatMargins b;
     AllowBeamSplit := AllowBeamSplit b;
     BeamApertureLimit := BeamApertureLimit b;
     FinalArcGantrySpacing := FinalArcGantrySpacing b;
     MaxDeliveryTime := Some t |}.

Fixpoint update_nth {A : Type} (f : A -> A) (l : list A) (n : nat) : list A :=
  match l, n with
  | [], _ => []
  | x :: tl, O => f x :: tl
  | x :: tl, S k => x :: update_nth f tl k
  end.

Definition with_beams (ts : TreatmentSetup) (bs : list BeamSetting) : TreatmentSetup :=
  {| DeliveryTechnique := DeliveryTechnique ts; MachineName := MachineName ts;
     TreatRois := TreatRois ts; TreatOrProtect := TreatOrProtect ts;
     Segments := Segments ts; BeamSettings := bs |}.

Definition update_beam (f : BeamSetting -> BeamSetting)
           (tss : list TreatmentSetup) (r : BeamRef) : list TreatmentSetup :=
  update_nth (fun ts => with_beams ts (update_nth f (BeamSettings ts) (snd r)))
             tss (fst r).

Definition with_setups (p : PlanState) (tss : list TreatmentSetup) : PlanState :=
  {| TreatmentSetupSettings := tss; Beams := Beams p;
     ProgressOfOptimization := ProgressOfOptimization p;
     FunctionValue := FunctionValue p; mod_factor := mod_factor p;
     VoxelSize := VoxelSize p;
     MaxNumberOfIterations := MaxNumberOfIterations p;
     IterationsInPreparationsPhase := IterationsInPreparationsPhase p |}.

(** Modelled from the spec: [BeamOperations.modify_tomo_beam_properties] is
    not part of the sources at hand; the specification describes the
    delivery-time budget as a per-beam value the procedures write, and the
    driver reads it back from [TomoPropertiesPerBeam.MaxDeliveryTime].  The
    call with [settings = {'max_delivery_time': t}] sets that value on the
    given beam and touches nothing else. *)
Definition modify_tomo_beam_properties (max_delivery_time : Q) (beam : BeamRef)
           (w : World) : World :=
  emit (set_live w (with_setups (live w)
                      (update_beam (with_time max_delivery_time)
                                   (TreatmentSetupSettings (live w)) beam)))
       (EvDeliveryTime beam max_delivery_time).

End Beams.

(** ** ObjectiveTracker *)

Module ObjectiveTracker.
Import Py Model.
Local Open Scope py_scope.

(** The cold-start value [1e10]. *)
Definition sentinel : Q := 10000000000 # 1.

(** [parse_culmulative_objective_value(plan, beamset, prior_history)];
    [prior_history] is Python's [None] before the first record. *)
Definition parse_culmulative_objective_value (p : PlanState)
           (prior_history : option (list Q)) : Outcome (list Q) :=
  pr <- of_option AttributeError (ProgressOfOptimization p) ;;
  match prior_history with
  | Some h => Ret (h ++ ObjectiveValues pr)
  | None => Ret (ObjectiveValues pr)
  end.

(** The history as a sequence: [None] holds no value yet. *)
Definition history (prior_history : option (list Q)) : list Q :=
  match prior_history with
  | Some h => h
  | None => []
  end.

(** The "objective value update" that opens every pass of the warm-start
    loop: the value it leaves in [previous_objective_function] and the new
    [prior_history]. *)
Definition record_previous (p : PlanState) (prior_history : option (list Q))
  : Outcome (Q * option (list Q)) :=
  match ProgressOfOptimization p with
  | Some pr =>
      match Iterations pr with
      | Some _ =>
          h <- parse_culmulative_objective_value p prior_history ;;
          v <- of_option IndexError (last_elem h) ;;
          Ret (v, Some h)
      | None => Ret (sentinel, prior_history)
      end
  | None => Ret (sentinel, prior_history)
  end.

(** The update that closes a pass, after the oracle has run:
    [current_objective_function] keeps its value when there are no
    iterations to read. *)
Definition record_current (p : PlanState) (prior_history : option (list Q))
           (current_objective_function : Q) : Outcome (Q * option (list Q)) :=
  pr <- of_option AttributeError (ProgressOfOptimization p) ;;
  match Iterations pr with
  | Some _ =>
      h <- parse_culmulative_objective_value p prior_history ;;
      v <- of_option IndexError (last_elem h) ;;
      Ret (v, Some h)
  | None => Ret (current_objective_function, prior_history)
  end.

(** [get_current_objective_value] *)
Definition get_current_objective_value (p : PlanState) : Q := FunctionValue p.

End ObjectiveTracker.

(** ** The optimization oracle and [run_optimization] *)

Module Oracle.
Import Py Model.
Local Open Scope string_scope.

(** Python's [needle in hay] on strings. *)
Fixpoint contains (needle hay : string) : bool :=
  if String.prefix needle hay then true
  else match hay with
       | EmptyString => false
       | String _ tl => contains needle tl
       end.

(** The environment of one run of the script: what the [k]-th call of
    [RunOptimization()] does, and the reading of the [k]-th
    [datetime.datetime.now()] inside [run_optimization], and what the
    host's [ResetOptimization()] makes of a plan. *)
Record Env : Type := {
  oracle : nat -> OracleReply;
  now : nat -> Z;
  ResetOptimization : PlanState -> PlanState
}.

Definition gantry_period : string := "There is no feasible gantry period".

(** The message of the [except] branch.  [e.Message] missing makes the inner
    [try] fail and the bare [except] format the exception itself. *)
Definition failure_message (e : HostException) : string :=
  match Message e with
  | Some error_message =>
      if contains gantry_period error_message
      then "No feasible gantry period found. Full message: " ++ error_message
      else "Exception occurred during optimization: " ++ error_message
  | None => "Exception occurred during optimization: " ++ text e
  end.

Definition RunResult : Type := (option Z * option Z * bool * string)%type.

Definition success (r : RunResult) : bool := snd (fst r).
Definition message (r : RunResult) : string := snd r.

(** The effect of [RunOptimization()] on the host. *)
Definition RunOptimization (reply : OracleReply) (w : World) : World :=
  let w1 := emit w EvRun in
  let p := live w1 in
  match reply with
  | Converged pr fv mf =>
      {| live := {| TreatmentSetupSettings := TreatmentSetupSettings p;
                    Beams := Beams p;
                    ProgressOfOptimization := Some pr;
                    FunctionValue := fv;
                    mod_factor := mf;
                    VoxelSize := VoxelSize p;
                    MaxNumberOfIterations := MaxNumberOfIterations p;
                    IterationsInPreparationsPhase :=
                      IterationsInPreparationsPhase p |};
         saved := saved w1; calls := S (calls w1); events := events w1 |}
  | Raised _ =>
      {| live := p; saved := saved w1; calls := S (calls w1);
         events := events w1 |}
  end.

(** [run_optimization(plan_optimization)] *)
Definition run_optimization (env : Env) (w : World) : RunResult * World :=
  let k := calls w in
  let time_0 := now env (2 * k) in
  let reply := oracle env k in
  let w' := RunOptimization reply w in
  match reply with
  | Converged _ _ _ =>
      let time_1 := now env (2 * k + 1) in
      ((Some time_0, Some time_1, true, "Optimization Success"), w')
  | Raised e => ((None, None, false, failure_message e), w')
  end.

End Oracle.

(** ** Delivery-time candidates and commits *)

Module DeliveryTime.
Import Py Model Beams ObjectiveTracker.
Local Open Scope py_scope.

Definition damping : Q := 9 # 10.
Definition floor_seconds : Q := 60 # 1.

(** [compute_delivery_time(beam_settings, previous, current, bypass)]; the
    last argument is the source's keyword that bypasses the check. *)
Definition compute_delivery_time (beam_settings : BeamSetting)
           (previous_objective_value current_objective_value : Q)
           (bypass : bool) : Outcome Q :=
  old_delivery_time <- of_option AttributeError (MaxDeliveryTime beam_settings) ;;
  if Qltb current_objective_value previous_objective_value
     && Qltb floor_seconds old_delivery_time
  then Ret (damping * old_delivery_time)%Q
  else if bypass then Ret (damping * old_delivery_time)%Q
  else Ret old_delivery_time.

(** Which of the four branches of [update_delivery_time] produced the
    message. *)
Inductive Branch : Type :=
| Bypassed
| Reduced
| ResetTime
| Unchanged.

Record Update : Type := {
  delivery_time : Q;
  branch : Branch;
  continue_reduction : bool
}.

(** [update_delivery_time(plan, beamset, previous_objective_value,
    old_delivery_time, bypass, reset_time)] *)
Definition update_delivery_time (w : World) (previous_objective_value : Q)
           (old_delivery_time : Q) (bypass reset_time : bool)
  : Outcome (Update * World) :=
  let current_objective_value := get_current_objective_value (live w) in
  beam_name <- of_option IndexError (index (Model.Beams (live w)) 0) ;;
  rb <- of_option AttributeError (get_beam_settings (live w) beam_name) ;;
  let '(for_beam, beam_settings) := rb in
  new_delivery_time <- compute_delivery_time beam_settings
                         previous_objective_value current_objective_value bypass ;;
  if bypass then
    Ret ({| delivery_time := new_delivery_time; branch := Bypassed;
            continue_reduction := true |},
         modify_tomo_beam_properties new_delivery_time for_beam w)
  else if Qltb new_delivery_time old_delivery_time then
    Ret ({| delivery_time := new_delivery_time; branch := Reduced;
            continue_reduction := true |},
         modify_tomo_beam_properties new_delivery_time for_beam w)
  else if reset_time then
    Ret ({| delivery_time := old_delivery_time; branch := ResetTime;
            continue_reduction := true |},
         modify_tomo_beam_properties old_delivery_time for_beam w)
  else
    Ret ({| delivery_time := old_delivery_time; branch := Unchanged;
            continue_reduction := false |}, w).

End DeliveryTime.

(** ** TimeReductionSearch: the [if reduce_time:] block of [optimize_plan] *)

Module TimeReductionSearch.
Import Py Model Beams ObjectiveTracker Oracle DeliveryTime.
Local Open Scope py_scope.

Definition max_reduce_time_iterations : Z := 6.

(** The local variables the [while] loop carries from pass to pass. *)
Record SearchState : Type := {
  world : World;
  previous_objective_function : Q;
  reduce_time_iteration : Z
}.

Definition with_iterations (p : PlanState) (max_it prep_it : Z) : PlanState :=
  {| TreatmentSetupSettings := TreatmentSetupSettings p; Beams := Model.Beams p;
     ProgressOfOptimization := ProgressOfOptimization p;
     FunctionValue := FunctionValue p; mod_factor := mod_factor p;
     VoxelSize := VoxelSize p;
     MaxNumberOfIterations := max_it;
     IterationsInPreparationsPhase := prep_it |}.

(** One pass of the body of [while reduce_time_iteration <=
    max_reduce_time_iterations]. *)
Definition search_step (env : Env) (beam_name : string) (s : SearchState)
  : Outcome SearchState :=
  let '(r, w1) := run_optimization env (world s) in
  if negb (success r) then Raise (SystemExit (message r)) else
  rb <- of_option AttributeError (get_beam_settings (live w1) beam_name) ;;
  old_delivery_time <- of_option AttributeError (MaxDeliveryTime (snd rb)) ;;
  uw <- update_delivery_time w1 (previous_objective_function s)
          old_delivery_time false false ;;
  let '(u, w2) := uw in
  if continue_reduction u then
    let w3 := save w2 in
    Ret {| world := w3;
           previous_objective_function := get_current_objective_value (live w3);
           reduce_time_iteration := reduce_time_iteration s + 1 |}
  else
    let w3 := reload_patient w2 in
    let previous := get_current_objective_value (live w3) in
    uw' <- update_delivery_time w3 previous old_delivery_time false true ;;
    Ret {| world := snd uw';
           previous_objective_function := previous;
           reduce_time_iteration := max_reduce_time_iterations + 1 |}.

(** The [while] loop; [None] when the fuel runs out with the loop condition
    still true. *)
Fixpoint reduce_time_loop (fuel : nat) (env : Env) (beam_name : string)
         (s : SearchState) : option (Outcome SearchState) :=
  if (reduce_time_iteration s <=? max_reduce_time_iterations)%Z then
    match fuel with
    | O => None
    | S fuel' =>
        match search_step env beam_name s with
        | Ret s' => reduce_time_loop fuel' env beam_name s'
        | Raise e => Some (Raise e)
        end
    end
  else Some (Ret s).

(** What precedes the loop: save, tighten the oracle's iteration budget,
    read the first beam's delivery time and commit the first reduction with
    the check bypassed. *)
Definition reduce_time_init (w : World) : Outcome (string * SearchState) :=
  let w1 := save w in
  let w2 := set_live w1 (with_iterations (live w1) 30 5) in
  beam_name <- of_option IndexError (index (Model.Beams (live w2)) 0) ;;
  rb <- of_option AttributeError (get_beam_settings (live w2) beam_name) ;;
  let previous := get_current_objective_value (live w2) in
  initial_time <- of_option AttributeError (MaxDeliveryTime (snd rb)) ;;
  uw <- update_delivery_time w2 previous initial_time true false ;;
  Ret (beam_name,
       {| world := snd uw;
          previous_objective_function := previous;
          reduce_time_iteration := 0 |}).

Definition reduce_time_phase (fuel : nat) (env : Env) (w : World)
  : option (Outcome World) :=
  match reduce_time_init w with
  | Raise e => Some (Raise e)
  | Ret (beam_name, s) =>
      match reduce_time_loop fuel env beam_name s with
      | None => None
      | Some (Raise e) => Some (Raise e)
      | Some (Ret s') => Some (Ret (world s'))
      end
  end.

(** The number of oracle calls among the host calls, one per pass of a loop
    body. *)
Definition is_run (e : Event) : bool :=
  match e with EvRun => true | _ => false end.

Definition runs (l : list Event) : nat := List.length (filter is_run l).

End TimeReductionSearch.

(** ** ConstraintPreparer: the [for ts in treatment_setup_settings:] block *)

Module ConstraintPreparer.
Import Py Model Beams Oracle.
Local Open Scope string_scope.

(** [BeamOperations.check_beam_limits(name, plan, beamset, limit, change=True)]
    is not part of the sources at hand.  The preparation is written against
    any function of this shape: it reports success and may have changed the
    beam's settings. *)
Definition CheckBeamLimits : Type := list Q -> BeamSetting -> bool * BeamSetting.

(** Modelled from the spec: [check_beam_limits] is missing from the sources;
    the specification says the jaw limit "cannot be safely retrofitted" onto
    a beam that already has delivered MU, and is applied otherwise. *)
Definition check_beam_limits_spec : CheckBeamLimits :=
  fun limit b =>
    if Qltb 0 (BeamMU b) then (false, b)
    else (true,
          {| Name := Name b; BeamMU := BeamMU b; TreatMargins := TreatMargins b;
             AllowBeamSplit := AllowBeamSplit b;
             BeamApertureLimit := Some limit;
             FinalArcGantrySpacing := FinalArcGantrySpacing b;
             MaxDeliveryTime := MaxDeliveryTime b |}).

Definition small_field_names : list string :=
  ["_SRS_"; "_SBR_"; "_FSR_"; "_LLL_"; "_LUL_"; "_RLL_"; "_RML_"; "_RUL_"].

Definition large_field_names : list string :=
  ["TBI__FFS"; "TBI__HFS"; "HFS__TBI"; "FFS__TBI";
   "TBI_FFS"; "TBI_HFS"; "HFS_TBI"; "FFS_TBI"; "TBI__VMA"].

(** [any(a in label for a in names)] *)
Definition any_in (names : list string) (label : string) : bool :=
  existsb (fun a => contains a label) names.

(** The part of [optimization_inputs] the preparation reads. *)
Record PrepConfig : Type := {
  DicomPlanLabel : string;
  use_treat_settings : bool;
  treat_margin : option Q
}.

Definition uniform (m : Q) : Margins := {| Y1 := m; Y2 := m; X1 := m; X2 := m |}.

(** [margins], defined by the source only under [use_treat_settings]. *)
Definition margins (c : PrepConfig) : Margins :=
  match treat_margin c with
  | Some m =>
      if Qeq_bool m 0 then
        if any_in small_field_names (DicomPlanLabel c)
        then uniform (15 # 100) else uniform (8 # 10)
      else uniform m
  | None =>
      if any_in small_field_names (DicomPlanLabel c)
      then uniform (15 # 100) else uniform (8 # 10)
  end.

Definition jaw_limit : list Q := [-(20 # 1); 20 # 1; -(108 # 10); 108 # 10]%Q.

Definition with_margins (rois : list string) (m : Margins) (b : BeamSetting)
  : BeamSetting :=
  {| Name := Name b; BeamMU := BeamMU b;
     TreatMargins := TreatMargins b ++ map (fun r => (r, m)) rois;
     AllowBeamSplit := AllowBeamSplit b;
     BeamApertureLimit := BeamApertureLimit b;
     FinalArcGantrySpacing := FinalArcGantrySpacing b;
     MaxDeliveryTime := MaxDeliveryTime b |}.

Definition with_split (allow : bool) (b : BeamSetting) : BeamSetting :=
  {| Name := Name b; BeamMU := BeamMU b; TreatMargins := TreatMargins b;
     AllowBeamSplit := allow;
     BeamApertureLimit := BeamApertureLimit b;
     FinalArcGantrySpacing := FinalArcGantrySpacing b;
     MaxDeliveryTime := MaxDeliveryTime b |}.

Definition with_spacing (s : Q) (b : BeamSetting) : BeamSetting :=
  {| Name := Name b; BeamMU := BeamMU b; TreatMargins := TreatMargins b;
     AllowBeamSplit := AllowBeamSplit b;
     BeamApertureLimit := BeamApertureLimit b;
     FinalArcGantrySpacing := Some s;
     MaxDeliveryTime := MaxDeliveryTime b |}.

(** "Execute treatment margin settings": one pass over the beams.  Each beam
    without MU has [select_rois_for_treat] select the target ROIs for the
    whole treatment setup and [set_treat_margins] write the margins on the
    beam.  The result is the beams and the ROIs selected on the way. *)
Fixpoint treat_margin_pass (rois : list string) (m : Margins)
         (bs : list BeamSetting) : list BeamSetting * list string :=
  match bs with
  | [] => ([], [])
  | b :: tl =>
      let '(tl', sel) := treat_margin_pass rois m tl in
      if Qltb 0 (BeamMU b) then (b :: tl', sel)
      else (with_margins rois m b :: tl', (rois ++ sel)%list)
  end.

(** "Set beam splitting preferences" *)
Definition beam_split_pass (allow_beam_split : bool) (bs : list BeamSetting)
  : list BeamSetting :=
  map (fun b => if Qltb 0 (BeamMU b) then b else with_split allow_beam_split b) bs.

(** "Check the control point spacing on arcs": the flag is the early
    [return False, 'Restart Required ...']; the beams behind the one that
    triggers it are not visited. *)
Fixpoint gantry_spacing_pass (bs : list BeamSetting) : list BeamSetting * bool :=
  match bs with
  | [] => ([], false)
  | b :: tl =>
      match FinalArcGantrySpacing b with
      | Some spacing =>
          if Qltb (2 # 1) spacing then
            if Qltb 0 (BeamMU b) then (b :: tl, true)
            else let '(tl', restart) := gantry_spacing_pass tl in
                 (with_spacing (2 # 1) b :: tl', restart)
          else let '(tl', restart) := gantry_spacing_pass tl in
               (b :: tl', restart)
      | None => let '(tl', restart) := gantry_spacing_pass tl in
                (b :: tl', restart)
      end
  end.

(** "Set TrueBeamSTx jaw limits": the first beam whose check fails returns
    from [optimize_plan]. *)
Fixpoint jaw_limit_pass (check : CheckBeamLimits) (bs : list BeamSetting)
  : list BeamSetting * bool :=
  match bs with
  | [] => ([], false)
  | b :: tl =>
      let '(ok, b') := check jaw_limit b in
      if ok then
        let '(tl', restart) := jaw_limit_pass check tl in (b' :: tl', restart)
      else (b' :: tl, true)
  end.

Definition sum_mu (bs : list BeamSetting) : Q :=
  fold_left (fun mu b => (mu + BeamMU b)%Q) bs 0%Q.

Definition with_prepared (ts : TreatmentSetup) (sel : list string)
           (seg : SegmentConversion) (bs : list BeamSetting) : TreatmentSetup :=
  {| DeliveryTechnique := DeliveryTechnique ts; MachineName := MachineName ts;
     TreatRois := TreatRois ts;
     TreatOrProtect := (TreatOrProtect ts ++ sel)%list;
     Segments := seg; BeamSettings := bs |}.

Definition maximum_segments_per_beam : Z := 10.

(** The segment-conversion minimums, scaled by the number of beams; a
    ['_PRD_'] plan label raises the minimum area and MU. *)
Definition sns_properties (c : PrepConfig) (num_beams : nat) : SegmentConversion :=
  let prdr := contains "_PRD_" (DicomPlanLabel c) in
  {| MinSegmentArea := if prdr then "4" else "2";
     MinSegmentMUPerFraction := if prdr then "6" else "2";
     MinNumberOfOpenLeafPairs := "2";
     MinLeafEndSeparation := "0.5";
     MaxNumberOfSegments := (Z.of_nat num_beams * maximum_segments_per_beam)%Z |}.

(** The body of the [for ts in treatment_setup_settings:] loop.  The flag is
    the early return with the restart-required message. *)
Definition prepare_setup (check : CheckBeamLimits) (c : PrepConfig)
           (ts : TreatmentSetup) : TreatmentSetup * bool :=
  if String.eqb (DeliveryTechnique ts) "TomoHelical" then (ts, false)
  else if String.eqb (DeliveryTechnique ts) "SMLC" then
    let '(bs1, sel) :=
      if use_treat_settings c
      then treat_margin_pass (TreatRois ts) (margins c) (BeamSettings ts)
      else (BeamSettings ts, []) in
    let bs2 := beam_split_pass false bs1 in
    let seg := if Qltb 0 (sum_mu bs2) then Segments ts
               else sns_properties c (List.length bs2) in
    if use_treat_settings c && String.eqb (MachineName ts) "TrueBeamSTx" then
      let '(bs3, restart) := jaw_limit_pass check bs2 in
      (with_prepared ts sel seg bs3, restart)
    else (with_prepared ts sel seg bs2, false)
  else if String.eqb (DeliveryTechnique ts) "DynamicArc" then
    let '(bs1, sel) :=
      if use_treat_settings c
      then treat_margin_pass (TreatRois ts) (margins c) (BeamSettings ts)
      else (BeamSettings ts, []) in
    let '(bs2, restart) := gantry_spacing_pass bs1 in
    if restart then (with_prepared ts sel (Segments ts) bs2, true)
    else if String.eqb (MachineName ts) "TrueBeamSTx" && use_treat_settings c then
      let '(bs3, restart') := jaw_limit_pass check bs2 in
      (with_prepared ts sel (Segments ts) bs3, restart')
    else (with_prepared ts sel (Segments ts) bs2, false)
  else (ts, false).

(** The whole loop over the treatment setups, left to right, stopping at
    the first restart. *)
Fixpoint prepare_constraints (check : CheckBeamLimits) (c : PrepConfig)
         (tss : list TreatmentSetup) : list TreatmentSetup * bool :=
  match tss with
  | [] => ([], false)
  | ts :: tl =>
      let '(ts', restart) := prepare_setup check c ts in
      if restart then (ts' :: tl, true)
      else let '(tl', restart') := prepare_constraints check c tl in
           (ts' :: tl', restart')
  end.

Definition restart_required : string :=
  "Restart Required: Select reset beams on next run of script.".

End ConstraintPreparer.

(** ** IterationDriver: the warm-start loop of [optimize_plan] *)

Module IterationDriver.
Import Py Model Beams ObjectiveTracker Oracle DeliveryTime GridScheduler.
Local Open Scope py_scope.

(** The part of [optimization_inputs] the loop reads. *)
Record LoopConfig : Type := {
  vary_grid : bool;
  change_dose_grid : list Q;
  reduce_mod : bool;
  mod_target : Q;
  second_maximum_iteration : Z;
  second_intermediate_iteration : Z
}.

(** The local variables the [while] loop carries from pass to pass. *)
Record LoopState : Type := {
  world : World;
  optimization_iteration : Z;
  maximum_iteration : Z;
  prior_history : option (list Q);
  previous_objective_function : Q;
  current_objective_function : Q
}.

Definition with_voxel (p : PlanState) (v : Q) : PlanState :=
  {| TreatmentSetupSettings := TreatmentSetupSettings p; Beams := Model.Beams p;
     ProgressOfOptimization := ProgressOfOptimization p;
     FunctionValue := FunctionValue p; mod_factor := mod_factor p;
     VoxelSize := Some (v, v, v);
     MaxNumberOfIterations := MaxNumberOfIterations p;
     IterationsInPreparationsPhase := IterationsInPreparationsPhase p |}.

(** [beamset.SetDefaultDoseGrid(VoxelSize={'x': d, 'y': d, 'z': d})] *)
Definition SetDefaultDoseGrid (d : Q) (w : World) : World :=
  emit (set_live w (with_voxel (live w) d)) (EvGrid d).

(** "Update dose grid" *)
Definition grid_adjust (c : LoopConfig) (w : World) (optimization_iteration : Z)
  : Outcome World :=
  if vary_grid c then
    g <- of_option IndexError
           (index (change_dose_grid c) (Z.to_nat optimization_iteration)) ;;
    if Qneqb g 0 then Ret (SetDefaultDoseGrid g w) else Ret w
  else Ret w.

(** The [for b in ts.BeamSettings:] loop of the modulation reduction, over
    the positions of the beams of [ts]: the world and [maximum_iteration]
    after it. *)
Fixpoint shrink_pass (optimization_iteration : Z) (old_delivery_time mod_ratio : Q)
         (ts_index : nat) (beams : list nat) (w : World) (maximum_iteration : Z)
  : World * Z :=
  match beams with
  | [] => (w, maximum_iteration)
  | j :: tl =>
      if Qltb mod_ratio 1 then
        let new_delivery_time := (old_delivery_time * mod_ratio * damping)%Q in
        let w' := modify_tomo_beam_properties new_delivery_time (ts_index, j) w in
        let maximum_iteration' :=
          if (optimization_iteration =? maximum_iteration - 1)%Z
          then (maximum_iteration + 1)%Z else maximum_iteration in
        shrink_pass optimization_iteration old_delivery_time mod_ratio
                    ts_index tl w' maximum_iteration'
      else
        shrink_pass optimization_iteration old_delivery_time mod_ratio
                    ts_index tl w maximum_iteration
  end.

(** "Reduce tomo modulation".  [ts] is the variable the preparation loop
    left behind: the last treatment setup.  The modulation factor is read
    once, before the loop over the beams, and the ratio is computed in every
    turn of that loop: a factor of zero raises in the first turn. *)
Definition modulation_adjust (c : LoopConfig) (w : World)
           (optimization_iteration maximum_iteration : Z) : Outcome (World * Z) :=
  if reduce_mod c then
    beam_name <- of_option IndexError (index (Model.Beams (live w)) 0) ;;
    rb <- of_option AttributeError (get_beam_settings (live w) beam_name) ;;
    old_delivery_time <- of_option AttributeError (MaxDeliveryTime (snd rb)) ;;
    if (0 <? optimization_iteration)%Z then
      let tss := TreatmentSetupSettings (live w) in
      let ts_index := Nat.pred (List.length tss) in
      ts <- of_option NameError (nth_error tss ts_index) ;;
      if String.eqb (DeliveryTechnique ts) "TomoHelical" then
        let mod_ratio := (mod_target c / mod_factor (live w))%Q in
        let division_by_zero :=
          match BeamSettings ts with
          | [] => false
          | _ :: _ => Qeq_bool (mod_factor (live w)) 0
          end in
        if division_by_zero then Raise ZeroDivisionError
        else Ret (shrink_pass optimization_iteration old_delivery_time mod_ratio
                    ts_index (seq 0 (List.length (BeamSettings ts))) w
                    maximum_iteration)
      else Ret (w, maximum_iteration)
    else Ret (w, maximum_iteration)
  else Ret (w, maximum_iteration).

(** One pass of the body of [while optimization_iteration !=
    maximum_iteration]. *)
Definition driver_step (env : Env) (c : LoopConfig) (s : LoopState)
  : Outcome LoopState :=
  ph <- record_previous (live (world s)) (prior_history s) ;;
  let '(previous, history1) := ph in
  w1 <- grid_adjust c (world s) (optimization_iteration s) ;;
  wm <- modulation_adjust c w1 (optimization_iteration s) (maximum_iteration s) ;;
  let '(w2, maximum_iteration') := wm in
  let '(r, w3) := run_optimization env w2 in
  if negb (success r) then Raise (SystemExit (message r)) else
  let w4 := set_live w3 (TimeReductionSearch.with_iterations (live w3)
                           (second_maximum_iteration c)
                           (second_intermediate_iteration c)) in
  ch <- record_current (live w4) history1 (current_objective_function s) ;;
  let '(current, history2) := ch in
  Ret {| world := w4;
         optimization_iteration := optimization_iteration s + 1;
         maximum_iteration := maximum_iteration';
         prior_history := history2;
         previous_objective_function := current;
         current_objective_function := current |}.

(** The [while] loop; [None] when the fuel runs out with the loop condition
    still true. *)
Fixpoint iteration_driver (fuel : nat) (env : Env) (c : LoopConfig)
         (s : LoopState) : option (Outcome LoopState) :=
  if (optimization_iteration s =? maximum_iteration s)%Z then Some (Ret s)
  else
    match fuel with
    | O => None
    | S fuel' =>
        match driver_step env c s with
        | Ret s' => iteration_driver fuel' env c s'
        | Raise e => Some (Raise e)
        end
    end.

End IterationDriver.

(** ** [optimize_plan], up to the end of the time-reduction block

    The segment-weight and reduce-OAR refinements and the report that follow
    are outside this development. *)

Module Driver.
Import Py Model Beams ObjectiveTracker Oracle GridScheduler ConstraintPreparer.
Local Open Scope py_scope.
Local Open Scope string_scope.

Record Config : Type := {
  prep : PrepConfig;
  PatientID : string;
  patients : nat;                    (* [len(patients)] of the database query *)
  initial_maximum_iteration : Z;
  initial_intermediate_iteration : Z;
  second_maximum_iteration : Z;
  second_intermediate_iteration : Z;
  vary_grid : bool;
  dose_dim1 : Q; dose_dim2 : Q; dose_dim3 : Q; dose_dim4 : Q;
  n_iterations : Z;
  fluence_only : bool;
  reset_beams : bool;
  reduce_mod : bool;
  mod_target : Q;
  reduce_time : bool
}.

(** What [optimize_plan] returns: [(True, report)] or [(False, message)]. *)
Inductive Return : Type :=
| Completed
| Failed (message : string).

(** [np.isclose(a, b)] with numpy's default tolerances. *)
Definition isclose (a b : Q) : bool :=
  Qle_bool (Qabs (a - b)) ((1 # 100000000) + (1 # 100000) * Qabs b).

(** [approximate_lte(x, y)] on a voxel size [x] and a uniform [y]. *)
Definition approximate_lte (x : Q * Q * Q) (y : Q) : bool :=
  let '(a, b, c) := x in
  (Qle_bool a y && Qle_bool b y && Qle_bool c y)
  || (isclose a y && isclose b y && isclose c y).

Definition dose_dim_initial (c : Config) : Q :=
  if vary_grid c then dose_dim1 c
  else if any_in large_field_names (DicomPlanLabel (prep c)) then 4 # 10
  else if any_in small_field_names (DicomPlanLabel (prep c)) then 15 # 100
  else 2 # 10.

(** "If not set yet, the dose grid needs setting." *)
Definition initialize_dose_grid (c : Config) (w : World) : World :=
  match VoxelSize (live w) with
  | Some current_voxelsize =>
      if approximate_lte current_voxelsize (dose_dim_initial c) then w
      else IterationDriver.SetDefaultDoseGrid (dose_dim_initial c) w
  | None => save (IterationDriver.SetDefaultDoseGrid (dose_dim_initial c) w)
  end.

(** The schedule of grid changes; [[]] stands for the unbound
    [change_dose_grid] when [vary_grid] is off. *)
Definition schedule (c : Config) : Outcome (list Q) :=
  if vary_grid c then
    of_option IndexError
      (make_variable_grid_list (n_iterations c)
         (variable_dose_grid (n_iterations c) (dose_dim1 c) (dose_dim2 c)
                             (dose_dim3 c) (dose_dim4 c)))
  else Ret [].

Definition loop_config (c : Config) (grid : list Q) : IterationDriver.LoopConfig :=
  {| IterationDriver.vary_grid := vary_grid c;
     IterationDriver.change_dose_grid := grid;
     IterationDriver.reduce_mod := reduce_mod c;
     IterationDriver.mod_target := mod_target c;
     IterationDriver.second_maximum_iteration := second_maximum_iteration c;
     IterationDriver.second_intermediate_iteration :=
       second_intermediate_iteration c |}.

(** The state in which the technique dispatch finds the plan: saved,
    the first grid set, the oracle's budget set, the optimization reset on
    request. *)
Definition before_preparation (env : Env) (c : Config) (w : World) : World :=
  let w1 := save w in
  let w2 := if negb (fluence_only c) && vary_grid c
            then IterationDriver.SetDefaultDoseGrid (dose_dim1 c) w1 else w1 in
  let w3 := set_live w2 (TimeReductionSearch.with_iterations (live w2)
                           (initial_maximum_iteration c)
                           (initial_intermediate_iteration c)) in
  let w4 := initialize_dose_grid c w3 in
  if reset_beams c then set_live w4 (ResetOptimization env (live w4)) else w4.

(** The objective value read before the first oracle call. *)
Definition initial_objective (p : PlanState) : Outcome (Q * option (list Q)) :=
  match ProgressOfOptimization p with
  | Some _ =>
      h <- parse_culmulative_objective_value p None ;;
      v <- of_option IndexError (last_elem h) ;;
      Ret (v, Some h)
  | None => Ret (0%Q, None)
  end.

Definition optimize_plan (check : CheckBeamLimits) (env : Env) (c : Config)
           (fuel : nat) (w : World) : option (Outcome (Return * World)) :=
  if reduce_time c && negb (Nat.eqb (patients c) 1) then
    Some (Raise (SystemExit
                   ("Patient " ++ PatientID c ++ " is non-unique! Script abort")))
  else
  match (if fluence_only c then Ret [] else schedule c) with
  | Raise e => Some (Raise e)
  | Ret grid =>
  let w0 := before_preparation env c w in
  match initial_objective (live w0) with
  | Raise e => Some (Raise e)
  | Ret (current, history0) =>
  if fluence_only c then
    let w1 := set_live w0 (TimeReductionSearch.with_iterations (live w0) 500 500) in
    let reply := oracle env (calls w1) in
    let w2 := RunOptimization reply w1 in
    match reply with
    | Raised e =>
        Some (Ret (Failed ("Exception occurred during optimization: " ++ text e), w2))
    | Converged _ _ _ =>
        match (h <- parse_culmulative_objective_value (live w2) history0 ;;
               of_option IndexError (last_elem h)) with
        | Raise e => Some (Raise e)
        | Ret _ => Some (Ret (Completed, w2))
        end
    end
  else
    let '(tss, restart) :=
      prepare_constraints check (prep c) (TreatmentSetupSettings (live w0)) in
    let w1 := set_live w0 (with_setups (live w0) tss) in
    if restart then Some (Ret (Failed restart_required, w1))
    else
      match IterationDriver.iteration_driver fuel env (loop_config c grid)
              {| IterationDriver.world := w1;
                 IterationDriver.optimization_iteration := 0;
                 IterationDriver.maximum_iteration := n_iterations c;
                 IterationDriver.prior_history := history0;
                 IterationDriver.previous_objective_function := sentinel;
                 IterationDriver.current_objective_function := current |} with
      | None => None
      | Some (Raise e) => Some (Raise e)
      | Some (Ret s) =>
          if reduce_time c then
            match TimeReductionSearch.reduce_time_phase
                    fuel env (IterationDriver.world s) with
            | None => None
            | Some (Raise e) => Some (Raise e)
            | Some (Ret w') => Some (Ret (Completed, w'))
            end
          else Some (Ret (Completed, IterationDriver.world s))
      end
  end
  end.

End Driver.

(** ** Objective functions: [reduce_oar_dose] and [select_rois_for_treat] *)

Module Objectives.
Import Py Model Oracle.
Local Open Scope string_scope.

(** What [objective.OfDoseDistribution] says of a beamset: no [ForBeamSet]
    attribute at all, an attribute that holds no beamset, or the beamset's
    [DicomPlanLabel]. *)
Inductive BeamSetRef : Type :=
| NoAttribute
| NullBeamSet
| ForBeamSet (label : string).

(** One entry of [plan_optimization.Objective.ConstituentFunctions]. *)
Record ConstituentFunction : Type := {
  RoiName : string;
  OrganType : string;
  FunctionType : option string;     (* [None]: no DoseFunctionParameters *)
  OfDoseDistribution : BeamSetRef
}.

(** [hasattr(objective.OfDoseDistribution, 'ForBeamSet')] *)
Definition has_beamset (o : ConstituentFunction) : bool :=
  match OfDoseDistribution o with
  | NoAttribute => false
  | _ => true
  end.

(** [x in l] on a list of strings. *)
Definition mem (x : string) (l : list string) : bool := existsb (String.eqb x) l.

(** [if x not in l: l.append(x)] *)
Definition append_unique (l : list string) (x : string) : list string :=
  if mem x l then l else (l ++ [x])%list.

(** The indices [composite_objectives] collects. *)
Fixpoint composite_objectives (objs : list ConstituentFunction) (index : nat)
  : list nat :=
  match objs with
  | [] => []
  | o :: tl =>
      if has_beamset o then index :: composite_objectives tl (S index)
      else composite_objectives tl (S index)
  end.

(** The loop that sorts the objectives into [targets] and [oars]. *)
Definition sort_objectives (objs : list ConstituentFunction)
  : list string * list string :=
  fold_left
    (fun acc o =>
       let '(targets, oars) := acc in
       if String.eqb (OrganType o) "Target"
       then (append_unique targets (RoiName o), oars)
       else (targets, append_unique oars (RoiName o)))
    objs ([], []).

(** The keyword arguments of [RunReduceOARDoseOptimization] that vary. *)
Record ReduceOarCall : Type := {
  OrgansAtRiskToImprove : list string;
  TargetsToMaintain : list string;
  OrgansAtRiskToMaintain : list string
}.

(** [reduce_oar_dose(plan_optimization)]: the value returned and the call
    made to the host, if any.  [raises] tells whether the host call raises,
    which the bare [except] turns into [False]. *)
Definition reduce_oar_dose (objs : list ConstituentFunction)
           (raises : ReduceOarCall -> bool) : bool * option ReduceOarCall :=
  match composite_objectives objs 0 with
  | _ :: _ => (false, None)
  | [] =>
      let '(targets, oars) := sort_objectives objs in
      let call := {| OrgansAtRiskToImprove := oars;
                     TargetsToMaintain := targets;
                     OrgansAtRiskToMaintain := oars |} in
      (negb (raises call), Some call)
  end.

(** Why [select_rois_for_treat] does not return. *)
Inductive Failure : Type :=
| Exit (message : string)           (* [sys.exit] *)
| MissingAttribute                  (* an [AttributeError] nobody catches *)
| Host (e : HostException).         (* a host exception nobody catches *)

Definition target_objectives : list string := ["MinDose"; "UniformDose"; "TargetEud"].

(** The body of the loop over the objectives when no ROI list is given. *)
Definition collect_roi (cooptimization : bool) (beamset_label : string)
           (roi_list : list string) (o : ConstituentFunction) : list string :=
  let objective_beamset_name :=
    if cooptimization then
      match OfDoseDistribution o with
      | ForBeamSet label => Some label
      | _ => None
      end
    else None in
  let roi_in_scope :=
    negb cooptimization
    || match objective_beamset_name with
       | Some label => String.eqb label beamset_label
       | None => false
       end in
  let is_target :=
    match FunctionType o with
    | Some ft => mem ft target_objectives
    | None => false
    end in
  if is_target && roi_in_scope && negb (mem (RoiName o) roi_list)
  then (roi_list ++ [RoiName o])%list else roi_list.

(** [for r in roi_list: beamset.SelectToUseROIasTreatOrProtectForAllBeams(r)]
    without any [try]: the ROIs selected before the first failure. *)
Fixpoint select_all (select : string -> option HostException) (rois : list string)
  : list string * option HostException :=
  match rois with
  | [] => ([], None)
  | r :: tl =>
      match select r with
      | Some e => ([], Some e)
      | None => let '(done, e) := select_all select tl in (r :: done, e)
      end
  end.

(** The loop over a given ROI list.  A host exception whose message holds
    'No ROI named' is logged and the ROI is kept; any other leaves through
    [sys.exit] with its message; one without a message makes the handler
    itself fail. *)
Fixpoint select_given (select : string -> option HostException)
         (rois : list string) (roi_list : list string)
  : list string + Failure :=
  match rois with
  | [] => inl roi_list
  | r :: tl =>
      match select r with
      | None => select_given select tl (append_unique roi_list r)
      | Some e =>
          match Message e with
          | Some m =>
              if contains "No ROI named" m
              then select_given select tl (append_unique roi_list r)
              else inr (Exit m)
          | None => inr MissingAttribute
          end
      end
  end.

(** [select_rois_for_treat(plan, beamset, rois)]; [n_setups] is the number of
    treatment setup settings of the plan optimization. *)
Definition select_rois_for_treat (n_setups : nat) (beamset_label : string)
           (objs : list ConstituentFunction)
           (select : string -> option HostException)
           (rois : option (list string)) : list string + Failure :=
  match rois with
  | None =>
      let cooptimization := Nat.ltb 1 n_setups in
      let roi_list := fold_left (collect_roi cooptimization beamset_label) objs [] in
      match snd (select_all select roi_list) with
      | Some e => inr (Host e)
      | None => inl roi_list
      end
  | Some given => select_given select given []
  end.

End Objectives.

(** ** Reading an optimization configuration from XML *)

Module Protocol.
Import Py.
Local Open Scope string_scope.

(** An [xml.etree.ElementTree.Element]: tag, text (Python's [None] when there
    is none), attributes and children. *)
#[warnings="-register-all"]
Inductive Element : Type :=
| Elem (tag : string) (text : option string) (attrib : list (string * string))
       (children : list Element).

Definition tag (e : Element) : string := let '(Elem t _ _ _) := e in t.
Definition text (e : Element) : option string := let '(Elem _ t _ _) := e in t.
Definition attrib (e : Element) : list (string * string) :=
  let '(Elem _ _ a _) := e in a.
Definition children (e : Element) : list Element := let '(Elem _ _ _ c) := e in c.

(** [node.find(name)] for a plain tag name: the first child with that tag. *)
Definition find (node : Element) (name : string) : option Element :=
  List.find (fun c => String.eqb (tag c) name) (children node).

(** [d[key]] on the attribute dict. *)
Fixpoint lookup (key : string) (d : list (string * string)) : option string :=
  match d with
  | [] => None
  | (k, v) :: tl => if String.eqb k key then Some v else lookup key tl
  end.

(** [etree.iter(name)]: the element itself and all its descendants, in
    document order, that carry the tag. *)
Fixpoint iter (name : string) (e : Element) : list Element :=
  match e with
  | Elem t _ _ cs =>
      ((if String.eqb t name then [e] else []) ++ flat_map (iter name) cs)%list
  end.

(** [str.lower()] on ASCII text. *)
Definition lower_ascii (c : ascii) : ascii :=
  let n := nat_of_ascii c in
  if (65 <=? n)%nat && (n <=? 90)%nat then ascii_of_nat (n + 32) else c.

Fixpoint lower (s : string) : string :=
  match s with
  | EmptyString => EmptyString
  | String c tl => String (lower_ascii c) (lower tl)
  end.

(** Exceptions the helpers let through. *)
Inductive Error : Type :=
| AttributeError      (* attribute access on [None] *)
| ValueError.         (* [int(...)] or [float(...)] on text that is no number *)

Inductive Result (A : Type) : Type :=
| Ok (a : A)
| Fail (e : Error).
Arguments Ok {A} a.
Arguments Fail {A} e.

Definition bind {A B : Type} (m : Result A) (k : A -> Result B) : Result B :=
  match m with
  | Ok a => k a
  | Fail e => Fail e
  end.

Declare Scope xml_scope.
Notation "x <-- m ;; k" := (bind m (fun x => k))
  (at level 61, m at next level, right associativity) : xml_scope.
Local Open Scope xml_scope.

(** [get_node_text(node, name, default)]: only the missing child is caught;
    a child without text gives Python's [None]. *)
Definition get_node_text (node : Element) (name : string) (default : string)
  : option string :=
  match find node name with
  | Some c => text c
  | None => Some default
  end.

(** [get_node_attrib(node, name, attrib_name, r_type, default=None)]: only the
    missing attribute is caught. *)
Definition get_node_attrib {A : Type} (node : Element) (name attrib_name : string)
           (r_type : string -> option A) : Result (option A) :=
  match find node name with
  | None => Fail AttributeError
  | Some c =>
      match lookup attrib_name (attrib c) with
      | None => Ok None
      | Some v =>
          match r_type v with
          | Some a => Ok (Some a)
          | None => Fail ValueError
          end
      end
  end.

(** [str(default)] for a bool. *)
Definition str_bool (b : bool) : string := if b then "True" else "False".

(** [get_boolean_text(node, name, default)] *)
Definition get_boolean_text (node : Element) (name : string) (default : bool)
  : Result bool :=
  match get_node_text node name (str_bool default) with
  | Some t => Ok (String.eqb (lower t) "true")
  | None => Fail AttributeError
  end.

(** The dict [o_c] built for one [optimization_config] element. *)
Record OptimizationConfig : Type := {
  name : option string;
  description : option string;
  initial : option string;
  initial_max_it : option Z;
  initial_int_it : option Z;
  warmstart : option string;
  warmstart_max_it : option Z;
  warmstart_int_it : option Z;
  warmstart_n : option Z;
  vary_grid : bool;
  dose_dim1 : option Q;
  dose_dim2 : option Q;
  dose_dim3 : option Q;
  dose_dim4 : option Q;
  fluence_only : bool;
  reset_beams : bool;
  reduce_mod : bool;
  mod_target : option Q;
  reduce_time : bool;
  reduce_oar : bool;
  segment_weight : bool;
  rescale_after_warmstart : bool;
  use_treat_settings : bool;
  block_prompt : bool;
  robust : bool;
  robust_sup : option Q;
  robust_inf : option Q;
  robust_ant : option Q;
  robust_post : option Q;
  robust_right : option Q;
  robust_left : option Q;
  position_uncertainty : option string
}.

Section Parsers.

(** Python's [int] and [float] on a string; [None] stands for the
    [ValueError]. *)
Variable int : string -> option Z.
Variable float : string -> option Q.

Definition when {A : Type} (flag : bool) (m : Result (option A))
  : Result (option A) :=
  if flag then m else Ok None.

(** The body of the loop of [iter_optimization_config_etree]. *)
Definition read_config (o : Element) : Result OptimizationConfig :=
  let name_ := get_node_text o "name" "" in
  let description_ := get_node_text o "description" "" in
  let initial_ := get_node_text o "initial" "" in
  initial_max_it_ <-- get_node_attrib o "initial" "max_it" int ;;
  initial_int_it_ <-- get_node_attrib o "initial" "int_it" int ;;
  let warmstart_ := get_node_text o "warmstart" "" in
  warmstart_max_it_ <-- get_node_attrib o "warmstart" "max_it" int ;;
  warmstart_int_it_ <-- get_node_attrib o "warmstart" "int_it" int ;;
  warmstart_n_ <-- get_node_attrib o "warmstart" "n" int ;;
  vary_grid_ <-- get_boolean_text o "vary_grid" false ;;
  dose_dim1_ <-- when vary_grid_ (get_node_attrib o "vary_grid" "dose_dim1" float) ;;
  dose_dim2_ <-- when vary_grid_ (get_node_attrib o "vary_grid" "dose_dim2" float) ;;
  dose_dim3_ <-- when vary_grid_ (get_node_attrib o "vary_grid" "dose_dim3" float) ;;
  dose_dim4_ <-- when vary_grid_ (get_node_attrib o "vary_grid" "dose_dim4" float) ;;
  fluence_only_ <-- get_boolean_text o "fluence_only" false ;;
  reset_beams_ <-- get_boolean_text o "reset_beams" false ;;
  reduce_mod_ <-- get_boolean_text o "reduce_mod" false ;;
  mod_target_ <-- when reduce_mod_ (get_node_attrib o "reduce_mod" "mod_target" float) ;;
  reduce_time_ <-- get_boolean_text o "reduce_time" false ;;
  reduce_oar_ <-- get_boolean_text o "reduce_oar" false ;;
  segment_weight_ <-- get_boolean_text o "segment_weight" false ;;
  rescale_ <-- get_boolean_text o "rescale_after_warmstart" false ;;
  use_treat_settings_ <-- get_boolean_text o "use_treat_settings" true ;;
  block_prompt_ <-- get_boolean_text o "block_prompt" false ;;
  robust_ <-- get_boolean_text o "robust" false ;;
  robust_sup_ <-- when robust_ (get_node_attrib o "robust" "sup" float) ;;
  robust_inf_ <-- when robust_ (get_node_attrib o "robust" "inf" float) ;;
  robust_ant_ <-- when robust_ (get_node_attrib o "robust" "ant" float) ;;
  robust_post_ <-- when robust_ (get_node_attrib o "robust" "post" float) ;;
  robust_right_ <-- when robust_ (get_node_attrib o "robust" "right" float) ;;
  robust_left_ <-- when robust_ (get_node_attrib o "robust" "left" float) ;;
  position_uncertainty_ <--
    when robust_ (get_node_attrib o "robust" "position_uncertainty"
                                  (fun v => Some v)) ;;
  Ok {| name := name_; description := description_; initial := initial_;
        initial_max_it := initial_max_it_; initial_int_it := initial_int_it_;
        warmstart := warmstart_; warmstart_max_it := warmstart_max_it_;
        warmstart_int_it := warmstart_int_it_; warmstart_n := warmstart_n_;
        vary_grid := vary_grid_;
        dose_dim1 := dose_dim1_; dose_dim2 := dose_dim2_;
        dose_dim3 := dose_dim3_; dose_dim4 := dose_dim4_;
        fluence_only := fluence_only_; reset_beams := reset_beams_;
        reduce_mod := reduce_mod_; mod_target := mod_target_;
        reduce_time := reduce_time_; reduce_oar := reduce_oar_;
        segment_weight := segment_weight_; rescale_after_warmstart := rescale_;
        use_treat_settings := use_treat_settings_; block_prompt := block_prompt_;
        robust := robust_;
        robust_sup := robust_sup_; robust_inf := robust_inf_;
        robust_ant := robust_ant_; robust_post := robust_post_;
        robust_right := robust_right_; robust_left := robust_left_;
        position_uncertainty := position_uncertainty_ |}.

(** The loop: one dict per element, the first failure ends it. *)
Fixpoint read_configs (os : list Element) : Result (list OptimizationConfig) :=
  match os with
  | [] => Ok []
  | o :: tl =>
      o_c <-- read_config o ;;
      rest <-- read_configs tl ;;
      Ok (o_c :: rest)
  end.

(** [iter_optimization_config_etree(etree)]: the list under the key
    ['optimization_config']. *)
Definition iter_optimization_config_etree (etree : Element)
  : Result (list OptimizationConfig) :=
  read_configs (iter "optimization_config" etree).

End Parsers.

End Protocol.

(** ** [check_min_jaws]

    Jaw positions and [min_dim] are the code's floats, read here as exact
    rationals: a position [widen] computes, and a comparison of two values
    that are equal or one rounding apart, can come out differently in the
    code. *)

Module JawCheck.
Import Py.
Local Open Scope string_scope.

(** [s.JawPositions]: X1, X2, Y1, Y2. *)
Definition Jaw : Type := (Q * Q * Q * Q)%type.

(** What the function reads of a beam. *)
Record JawBeam : Type := {
  BeamName : string;
  Technique : string;
  Segments : list Jaw;
  HasValidSegments : bool
}.

Inductive JawError : Type :=
| UnboundLocal        (* a variable read before any assignment *)
| ZeroDivision.

Inductive Outcome (A : Type) : Type :=
| Done (a : A)
| Raised (e : JawError).
Arguments Done {A} a.
Arguments Raised {A} e.

(** The locals that outlive a beam: [min_x1, min_x2], [min_y1, min_y2] and the
    loop variable [s]. *)
Record Locals : Type := {
  min_x : option (Q * Q);
  min_y : option (Q * Q);
  last_s : option Jaw
}.

Definition unbound : Locals := {| min_x := None; min_y := None; last_s := None |}.

Definition epsilon : Q := 1 # 10.

(** The body of [for s in b.ForBeam.Segments:], on the running minima. *)
Definition narrow (st : Q * Q * Locals) (s : Jaw) : Q * Q * Locals :=
  let '(min_x_aperture, min_y_aperture, loc) := st in
  let '(x1, x2, y1, y2) := s in
  let '(mx, min_x_aperture') :=
    if Qle_bool (x2 - x1) min_x_aperture then (Some (x1, x2), x2 - x1)
    else (min_x loc, min_x_aperture) in
  let '(my, min_y_aperture') :=
    if Qle_bool (y2 - y1) min_y_aperture then (Some (y1, y2), y2 - y1)
    else (min_y loc, min_y_aperture) in
  (min_x_aperture', min_y_aperture',
   {| min_x := mx; min_y := my; last_s := Some s |}).

(** The pair of jaws scaled to an opening of [min_dim] and rounded outwards
    to the millimetre. *)
Definition widen (min_dim : Q) (jaws : option (Q * Q)) : Outcome (Q * Q) :=
  match jaws with
  | None => Raised UnboundLocal
  | Some (lo, hi) =>
      if Qeq_bool (hi - lo) 0 then Raised ZeroDivision
      else
        let hi' := (min_dim / (hi - lo)) * hi in
        let lo' := (min_dim / (hi - lo)) * lo in
        Done (inject_Z (Qfloor ((10 # 1) * lo')) / (10 # 1),
              inject_Z (Qceiling ((10 # 1) * hi')) / (10 # 1))
  end.

(** [plan_is_optimized] *)
Definition plan_is_optimized (b : JawBeam) : bool :=
  if String.eqb (Technique b) "SMLC" then
    match Segments b with [] => false | _ => true end
  else if String.eqb (Technique b) "DynamicArc" then HasValidSegments b
  else false.

(** The body of the loop over the beams: the locals it leaves and the jaw
    limits it asks [EditBeamOptimizationSettings] for, if any. *)
Definition check_beam (min_dim : Q) (loc : Locals) (b : JawBeam)
  : Outcome (Locals * option Jaw) :=
  if plan_is_optimized b then
    let '(min_x_aperture, min_y_aperture, loc') :=
      fold_left narrow (Segments b) (40 # 1, 40 # 1, loc) in
    let x :=
      if Qle_bool min_x_aperture (min_dim * (1 + epsilon))
      then widen min_dim (min_x loc')
      else match last_s loc' with
           | Some (x1, x2, _, _) => Done (x1, x2)
           | None => Raised UnboundLocal
           end in
    match x with
    | Raised e => Raised e
    | Done (x1, x2) =>
        let y :=
          if Qle_bool min_y_aperture (min_dim * (1 + epsilon))
          then widen min_dim (min_y loc')
          else match last_s loc' with
               | Some (_, _, y1, y2) => Done (y1, y2)
               | None => Raised UnboundLocal
               end in
        match y with
        | Raised e => Raised e
        | Done (y1, y2) =>
            if Qle_bool min_x_aperture min_dim || Qle_bool min_y_aperture min_dim
            then Done (loc', Some (x1, x2, y1, y2))
            else Done (loc', None)
        end
    end
  else Done (loc, None).

(** The two loops, over the treatment setups and their beams. *)
Fixpoint check_beams (min_dim : Q) (loc : Locals) (beams : list JawBeam)
  : Outcome (list (string * Jaw)) :=
  match beams with
  | [] => Done []
  | b :: tl =>
      match check_beam min_dim loc b with
      | Raised e => Raised e
      | Done (loc', edit) =>
          match check_beams min_dim loc' tl with
          | Raised e => Raised e
          | Done edits =>
              match edit with
              | Some j => Done ((BeamName b, j) :: edits)
              | None => Done edits
              end
          end
      end
  end.

(** [check_min_jaws(plan_opt, min_dim)]: the flag it returns, which is also
    whether it has called [ResetOptimization], and the jaw limits it asked
    for, beam by beam. *)
Definition check_min_jaws (setups : list (list JawBeam)) (min_dim : Q)
  : Outcome (bool * list (string * Jaw)) :=
  match check_beams min_dim unbound (List.concat setups) with
  | Raised e => Raised e
  | Done edits => Done (match edits with [] => false | _ => true end, edits)
  end.

End JawCheck.

(** ** Sample plans and oracles, used to run the model *)

Module Samples.
Import Py Model Beams Oracle ConstraintPreparer.
Local Open Scope string_scope.

Definition no_segments : SegmentConversion :=
  {| MinSegmentArea := ""; MinSegmentMUPerFraction := "";
     MinNumberOfOpenLeafPairs := ""; MinLeafEndSeparation := "";
     MaxNumberOfSegments := 0 |}.

(** A helical beam with a delivery-time budget of [t] seconds. *)
Definition tomo_beam (t : Q) : BeamSetting :=
  {| Name := "Tomo1"; BeamMU := 0; TreatMargins := []; AllowBeamSplit := false;
     BeamApertureLimit := None; FinalArcGantrySpacing := None;
     MaxDeliveryTime := Some t |}.

Definition tomo_setup (t : Q) : TreatmentSetup :=
  {| DeliveryTechnique := "TomoHelical"; MachineName := "HDA0477";
     TreatRois := ["PTV"]; TreatOrProtect := []; Segments := no_segments;
     BeamSettings := [tomo_beam t] |}.

(** An arc that has been optimized before: [mu] monitor units, final gantry
    spacing [spacing] degrees. *)
Definition arc_beam (name : string) (mu spacing : Q) : BeamSetting :=
  {| Name := name; BeamMU := mu; TreatMargins := []; AllowBeamSplit := true;
     BeamApertureLimit := None; FinalArcGantrySpacing := Some spacing;
     MaxDeliveryTime := None |}.

Definition arc_setup (machine : string) (bs : list BeamSetting) : TreatmentSetup :=
  {| DeliveryTechnique := "DynamicArc"; MachineName := machine;
     TreatRois := ["PTV"]; TreatOrProtect := []; Segments := no_segments;
     BeamSettings := bs |}.

Definition smlc_setup (machine : string) (bs : list BeamSetting) : TreatmentSetup :=
  {| DeliveryTechnique := "SMLC"; MachineName := machine;
     TreatRois := ["PTV"]; TreatOrProtect := []; Segments := no_segments;
     BeamSettings := bs |}.

Definition plan_of (tss : list TreatmentSetup) (beams : list string)
           (progress : option Progress) (fv : Q) : PlanState :=
  {| TreatmentSetupSettings := tss; Model.Beams := beams;
     ProgressOfOptimization := progress; FunctionValue := fv;
     mod_factor := 2; VoxelSize := Some (2 # 10, 2 # 10, 2 # 10);
     MaxNumberOfIterations := 60; IterationsInPreparationsPhase := 10 |}.

Definition tomo_plan (t fv : Q) : PlanState :=
  plan_of [tomo_setup t] ["Tomo1"] None fv.

(** A host that has just persisted [p] and has made no call yet. *)
Definition world_of (p : PlanState) : World :=
  {| live := p; saved := p; calls := 0; events := [] |}.

Definition progress_of (values : list Q) : Progress :=
  {| Iterations := Some [1%Z]; ObjectiveValues := values |}.

(** An oracle that improves the objective by one at every call, starting
    from [100], and reports the modulation factor [mf]. *)
Definition improving (mf : Q) : Env :=
  {| oracle := fun k => let v := (100 - inject_Z (Z.of_nat k))%Q in
                        Converged (progress_of [v]) v mf;
     now := fun k => Z.of_nat k;
     ResetOptimization := fun p => p |}.

(** An oracle that never changes the objective. *)
Definition stalled : Env :=
  {| oracle := fun _ => Converged (progress_of [100]) 100 2;
     now := fun k => Z.of_nat k;
     ResetOptimization := fun p => p |}.

(** An oracle that fails on its first call. *)
Definition failing (e : HostException) : Env :=
  {| oracle := fun _ => Raised e;
     now := fun k => Z.of_nat k;
     ResetOptimization := fun p => p |}.

Definition infeasible : HostException :=
  {| Message := Some "Error: There is no feasible gantry period for this plan";
     text := "RaySearch exception" |}.

Definition cancelled : HostException :=
  {| Message := Some "The optimization was cancelled";
     text := "RaySearch exception" |}.

(** The scenario of the specification: three warm starts on a varying
    grid, nothing else switched on. *)
Definition three_iterations : Driver.Config :=
  {| Driver.prep := {| DicomPlanLabel := "Pros_VMA_R0A0";
                       use_treat_settings := true; treat_margin := None |};
     Driver.PatientID := "ZZUWQA_001"; Driver.patients := 1;
     Driver.initial_maximum_iteration := 60;
     Driver.initial_intermediate_iteration := 10;
     Driver.second_maximum_iteration := 30;
     Driver.second_intermediate_iteration := 15;
     Driver.vary_grid := true;
     Driver.dose_dim1 := 5 # 10; Driver.dose_dim2 := 4 # 10;
     Driver.dose_dim3 := 3 # 10; Driver.dose_dim4 := 2 # 10;
     Driver.n_iterations := 3;
     Driver.fluence_only := false; Driver.reset_beams := false;
     Driver.reduce_mod := false; Driver.mod_target := 2;
     Driver.reduce_time := false |}.

(** Warm starts that chase a modulation factor of 1. *)
Definition reduce_modulation : IterationDriver.LoopConfig :=
  {| IterationDriver.vary_grid := false;
     IterationDriver.change_dose_grid := [];
     IterationDriver.reduce_mod := true;
     IterationDriver.mod_target := 1;
     IterationDriver.second_maximum_iteration := 30;
     IterationDriver.second_intermediate_iteration := 15 |}.

(** The scenario with only the fluence optimized. *)
Definition fluence_run : Driver.Config :=
  {| Driver.prep := Driver.prep three_iterations;
     Driver.PatientID := "ZZUWQA_001"; Driver.patients := 1;
     Driver.initial_maximum_iteration := 60;
     Driver.initial_intermediate_iteration := 10;
     Driver.second_maximum_iteration := 30;
     Driver.second_intermediate_iteration := 15;
     Driver.vary_grid := false;
     Driver.dose_dim1 := 5 # 10; Driver.dose_dim2 := 4 # 10;
     Driver.dose_dim3 := 3 # 10; Driver.dose_dim4 := 2 # 10;
     Driver.n_iterations := 3;
     Driver.fluence_only := true; Driver.reset_beams := false;
     Driver.reduce_mod := false; Driver.mod_target := 2;
     Driver.reduce_time := false |}.

(** A VMAT plan on a TrueBeamSTx whose second arc was optimized before, with
    120 MU and a final gantry spacing of 4 degrees. *)
Definition optimized_arc : BeamSetting := arc_beam "Arc2" 120 4.

Definition arc_plan : PlanState :=
  plan_of [arc_setup "TrueBeamSTx" [arc_beam "Arc1" 0 4; optimized_arc]]
          ["Arc1"; "Arc2"] None 0.

(** Five warm starts on a varying grid that chase a modulation factor of 1. *)
Definition varying_modulation : Driver.Config :=
  {| Driver.prep := Driver.prep three_iterations;
     Driver.PatientID := "ZZUWQA_001"; Driver.patients := 1;
     Driver.initial_maximum_iteration := 60;
     Driver.initial_intermediate_iteration := 10;
     Driver.second_maximum_iteration := 30;
     Driver.second_intermediate_iteration := 15;
     Driver.vary_grid := true;
     Driver.dose_dim1 := 5 # 10; Driver.dose_dim2 := 4 # 10;
     Driver.dose_dim3 := 3 # 10; Driver.dose_dim4 := 2 # 10;
     Driver.n_iterations := 5;
     Driver.fluence_only := false; Driver.reset_beams := false;
     Driver.reduce_mod := true; Driver.mod_target := 1;
     Driver.reduce_time := false |}.

(** The search loop at its first pass, on a helical plan with delivery time
    [t], objective value [fv] and remembered objective value [previous]. *)
Definition search_start (t fv previous : Q) : TimeReductionSearch.SearchState :=
  {| TimeReductionSearch.world := world_of (tomo_plan t fv);
     TimeReductionSearch.previous_objective_function := previous;
     TimeReductionSearch.reduce_time_iteration := 0 |}.

(** Objectives of a plan with two targets and one organ at risk that has
    two objectives. *)
Definition objective (roi organ ftype : string) : Objectives.ConstituentFunction :=
  {| Objectives.RoiName := roi; Objectives.OrganType := organ;
     Objectives.FunctionType := Some ftype;
     Objectives.OfDoseDistribution := Objectives.NoAttribute |}.

Definition plan_objectives : list Objectives.ConstituentFunction :=
  [objective "PTV_60" "Target" "MinDose";
   objective "Cord" "OrganAtRisk" "MaxDose";
   objective "PTV_54" "Target" "UniformDose";
   objective "Cord" "OrganAtRisk" "MaxEud";
   objective "PTV_60" "Target" "MaxDose"].

(** A host that knows every ROI but 'Bolus'. *)
Definition knows_all_but_bolus (r : string) : option HostException :=
  if String.eqb r "Bolus"
  then Some {| Message := Some "No ROI named Bolus"; text := "KeyError" |}
  else None.

(** A protocol file with one complete configuration and one that has no
    [initial] element. *)
Definition leaf (t : string) (txt : option string) (a : list (string * string))
  : Protocol.Element := Protocol.Elem t txt a [].

Definition complete_config : Protocol.Element :=
  Protocol.Elem "optimization_config" None []
    [leaf "name" (Some "VMAT standard") [];
     leaf "initial" None [("max_it", "60"); ("int_it", "10")];
     leaf "warmstart" None [("max_it", "30"); ("int_it", "15"); ("n", "4")];
     leaf "vary_grid" (Some "TRUE") [("dose_dim1", "0.5")];
     leaf "reduce_oar" (Some "True") []].

Definition incomplete_config : Protocol.Element :=
  Protocol.Elem "optimization_config" None []
    [leaf "name" (Some "Broken") [];
     leaf "warmstart" None [("max_it", "30"); ("int_it", "15"); ("n", "4")]].

Definition protocol : Protocol.Element :=
  Protocol.Elem "protocol" None []
    [leaf "name" (Some "Prostate") [];
     Protocol.Elem "order" None [] [complete_config];
     incomplete_config].

(** Stand-ins for [int] and [float] that read the numbers of the samples. *)
Definition sample_int (v : string) : option Z :=
  if String.eqb v "60" then Some 60%Z
  else if String.eqb v "10" then Some 10%Z
  else if String.eqb v "30" then Some 30%Z
  else if String.eqb v "15" then Some 15%Z
  else if String.eqb v "4" then Some 4%Z
  else None.

Definition sample_float (v : string) : option Q :=
  if String.eqb v "0.5" then Some (5 # 10) else None.

(** Beams as [check_min_jaws] reads them. *)
Definition narrow_beam : JawCheck.JawBeam :=
  {| JawCheck.BeamName := "narrow"; JawCheck.Technique := "SMLC";
     JawCheck.Segments := [(-(3 # 10), 8 # 10, -(5 # 1), 5 # 1)];
     JawCheck.HasValidSegments := true |}.

Definition wide_beam : JawCheck.JawBeam :=
  {| JawCheck.BeamName := "wide"; JawCheck.Technique := "DynamicArc";
     JawCheck.Segments := [(-(5 # 1), 5 # 1, -(4 # 1), 6 # 1)];
     JawCheck.HasValidSegments := true |}.

Definition unoptimized_beam : JawCheck.JawBeam :=
  {| JawCheck.BeamName := "empty"; JawCheck.Technique := "SMLC";
     JawCheck.Segments := []; JawCheck.HasValidSegments := false |}.

Definition helical_beam : JawCheck.JawBeam :=
  {| JawCheck.BeamName := "helix"; JawCheck.Technique := "TomoHelical";
     JawCheck.Segments := [(-(1 # 10), 1 # 10, -(1 # 10), 1 # 10)];
     JawCheck.HasValidSegments := true |}.

(** The warm-start loop as [optimize_plan] enters it for two iterations with
    a varying grid and modulation reduction: the schedule has two entries. *)
Definition varying_loop : IterationDriver.LoopConfig :=
  {| IterationDriver.vary_grid := true;
     IterationDriver.change_dose_grid := [5 # 10; 2 # 10];
     IterationDriver.reduce_mod := true;
     IterationDriver.mod_target := 1;
     IterationDriver.second_maximum_iteration := 30;
     IterationDriver.second_intermediate_iteration := 15 |}.

Definition varying_start : IterationDriver.LoopState :=
  {| IterationDriver.world := world_of (tomo_plan 500 3);
     IterationDriver.optimization_iteration := 0;
     IterationDriver.maximum_iteration := 2;
     IterationDriver.prior_history := None;
     IterationDriver.previous_objective_function := ObjectiveTracker.sentinel;
     IterationDriver.current_objective_function := 0 |}.

End Samples.

(** ** Predicates used in the statements *)

Import Py Model Beams ObjectiveTracker Oracle DeliveryTime GridScheduler
       ConstraintPreparer.

(** The entry the [if / elif] chain produces at iteration [i] under the
    driver's dict. *)
Definition scheduled (n : Z) (d1 d2 d3 d4 : Q) (i : Z) : Q :=
  if (i =? 0)%Z then d1
  else if (i =? int_div n 2)%Z then d2
  else if (i =? int_div (3 * n) 4)%Z then d3
  else if (i =? n - 1)%Z then d4
  else 0.

(** The oracle has left values to read, or has not run yet. *)
Definition readable (p : PlanState) : Prop :=
  match ProgressOfOptimization p with
  | Some pr => ObjectiveValues pr <> []
  | None => True
  end.

(** What the search loop relies on from pass to pass: the first beam of the
    beamset resolves to the beam [r], live with the committed delivery time
    [t] and persisted with a time that is not smaller. *)
Definition search_inv (name : string) (r : BeamRef) (t : Q) (w : World) : Prop :=
  index (Model.Beams (live w)) 0 = Some name /\
  index (Model.Beams (saved w)) 0 = Some name /\
  (exists b, get_beam_settings (live w) name = Some (r, b) /\
             MaxDeliveryTime b = Some t) /\
  (exists b' t', get_beam_settings (saved w) name = Some (r, b') /\
                 MaxDeliveryTime b' = Some t' /\ t <= t').

(** The host calls of a search that starts with the committed time [t] and
    ends with [t_final]: commits of strictly smaller times, each persisted,
    closed by nothing (the cap) or by one rollback that restores the last
    committed time. *)
Inductive search_trace (r : BeamRef) : Q -> list Event -> Q -> Prop :=
| trace_end (t : Q) : search_trace r t [] t
| trace_commit (t t' t_final : Q) (tr : list Event) :
    t' = (9 # 10) * t -> t' < t ->
    search_trace r t' tr t_final ->
    search_trace r t (EvRun :: EvDeliveryTime r t' :: EvSave :: tr) t_final
| trace_rollback (t : Q) :
    search_trace r t [EvRun; EvReload; EvDeliveryTime r t] t.

(** A beam that cannot be re-constrained: it carries monitor units, and its
    treatment setup asks for a gantry-spacing cap it exceeds (dynamic arc) or
    for jaw limits (TrueBeamSTx with treat settings in use). *)
Definition offending (c : PrepConfig) (ts : TreatmentSetup) (b : BeamSetting) : Prop :=
  0 < BeamMU b /\
  ((DeliveryTechnique ts = "DynamicArc"%string /\
    exists spacing, FinalArcGantrySpacing b = Some spacing /\ (2 # 1) < spacing) \/
   (use_treat_settings c = true /\ MachineName ts = "TrueBeamSTx"%string /\
    (DeliveryTechnique ts = "SMLC"%string \/
     DeliveryTechnique ts = "DynamicArc"%string))).

(** What the specification says of the missing [check_beam_limits]: on a beam
    with monitor units it fails and leaves the beam as it is. *)
Definition refuses_delivered (check : CheckBeamLimits) : Prop :=
  forall limit b, 0 < BeamMU b -> check limit b = (false, b).

(** A beam whose final arc gantry spacing, when it has one, is at most 2
    degrees. *)
Definition capped (b : BeamSetting) : Prop :=
  match FinalArcGantrySpacing b with
  | Some spacing => spacing <= (2 # 1)
  | None => True
  end.

(** A [check_beam_limits] that leaves the gantry spacing of a beam alone. *)
Definition keeps_spacing (check : CheckBeamLimits) : Prop :=
  forall limit b,
    FinalArcGantrySpacing (snd (check limit b)) = FinalArcGantrySpacing b.

(** The test [collect_roi] applies to an objective, apart from the one for
    duplicates. *)
Definition scoped_target (cooptimization : bool) (beamset_label : string)
           (o : Objectives.ConstituentFunction) : bool :=
  match Objectives.FunctionType o with
  | Some ft => Objectives.mem ft Objectives.target_objectives
  | None => false
  end
  && (negb cooptimization
      || match (if cooptimization then
                  match Objectives.OfDoseDistribution o with
                  | Objectives.ForBeamSet label => Some label
                  | _ => None
                  end
                else None) with
         | Some label => String.eqb label beamset_label
         | None => false
         end).

(** The openings of a segment along X and along Y. *)
Definition x_opening (s : JawCheck.Jaw) : Q := let '(x1, x2, _, _) := s in x2 - x1.
Definition y_opening (s : JawCheck.Jaw) : Q := let '(_, _, y1, y2) := s in y2 - y1.

(** * Properties *)

(** ** Comparisons on rationals *)

Lemma Qltb_lt (x y : Q) : Qltb x y = true <-> x < y.
Proof.
  unfold Qltb. rewrite negb_true_iff. split; intro H.
  - apply Qnot_le_lt. intro Hle. apply Qle_bool_iff in Hle. congruence.
  - destruct (Qle_bool y x) eqn:E; [|reflexivity].
    apply Qle_bool_iff in E. exfalso. exact (Qle_not_lt _ _ E H).
Qed.

Lemma Qltb_ge (x y : Q) : Qltb x y = false <-> y <= x.
Proof.
  unfold Qltb. rewrite negb_false_iff. apply Qle_bool_iff.
Qed.

Lemma Qneqb_neq (x y : Q) : Qneqb x y = true <-> ~ x == y.
Proof.
  unfold Qneqb. rewrite negb_true_iff. split; intro H.
  - intro E. apply Qeq_bool_iff in E. congruence.
  - destruct (Qeq_bool x y) eqn:E; [|reflexivity].
    apply Qeq_bool_iff in E. contradiction.
Qed.

(** ** Beam references *)

Lemma update_nth_length {A : Type} (f : A -> A) (l : list A) (n : nat) :
  List.length (update_nth f l n) = List.length l.
Proof.
  revert n. induction l as [|x tl IH]; intros [|n]; simpl; auto.
Qed.

Lemma nth_error_update_nth_same {A : Type} (f : A -> A) (l : list A) (n : nat) :
  nth_error (update_nth f l n) n = option_map f (nth_error l n).
Proof.
  revert n. induction l as [|x tl IH]; intros [|n]; simpl; auto.
Qed.

Lemma nth_error_update_nth_other {A : Type} (f : A -> A) (l : list A) (n m : nat) :
  n <> m -> nth_error (update_nth f l n) m = nth_error l m.
Proof.
  revert n m. induction l as [|x tl IH]; intros [|n] [|m] H; simpl; auto;
    try congruence.
Qed.

Lemma find_name_update (f : BeamSetting -> BeamSetting) (name : string) :
  (forall b, Name (f b) = Name b) ->
  forall bs n j, find_name name (update_nth f bs n) j = find_name name bs j.
Proof.
  intros Hf. induction bs as [|b tl IH]; intros [|n] j; simpl; auto.
  - rewrite Hf. reflexivity.
  - rewrite IH. reflexivity.
Qed.

Lemma find_beam_update (f : BeamSetting -> BeamSetting) (name : string) (r : BeamRef) :
  (forall b, Name (f b) = Name b) ->
  forall tss i, find_beam name (update_beam f tss r) i = find_beam name tss i.
Proof.
  intros Hf. destruct r as [n m]. unfold update_beam. simpl.
  intros tss. revert n. induction tss as [|ts tl IH]; intros [|n] i; simpl; auto.
  - rewrite find_name_update by assumption. reflexivity.
  - rewrite IH. reflexivity.
Qed.

Lemma beam_at_update_same (f : BeamSetting -> BeamSetting) tss (r : BeamRef) :
  beam_at (update_beam f tss r) r = option_map f (beam_at tss r).
Proof.
  destruct r as [n m]. unfold beam_at, update_beam. simpl.
  rewrite nth_error_update_nth_same.
  destruct (nth_error tss n) as [ts|]; simpl; [|reflexivity].
  apply nth_error_update_nth_same.
Qed.

Lemma beam_at_update_other (f : BeamSetting -> BeamSetting) tss (r r' : BeamRef) :
  r <> r' -> beam_at (update_beam f tss r) r' = beam_at tss r'.
Proof.
  destruct r as [n m], r' as [n' m']. unfold beam_at, update_beam. simpl.
  intros H. destruct (Nat.eq_dec n n') as [->|Hn].
  - rewrite nth_error_update_nth_same.
    destruct (nth_error tss n') as [ts|]; simpl; [|reflexivity].
    apply nth_error_update_nth_other. congruence.
  - rewrite nth_error_update_nth_other by assumption. reflexivity.
Qed.

Lemma get_beam_settings_at p name r b :
  get_beam_settings p name = Some (r, b) ->
  find_beam name (TreatmentSetupSettings p) 0 = Some r /\
  beam_at (TreatmentSetupSettings p) r = Some b.
Proof.
  unfold get_beam_settings.
  destruct (find_beam name (TreatmentSetupSettings p) 0) as [r0|]; [|discriminate].
  destruct (beam_at (TreatmentSetupSettings p) r0) as [b0|] eqn:E; [|discriminate].
  intros H. inversion H; subst. auto.
Qed.

(** Writing a delivery time on the beam a name resolves to: the name still
    resolves to that beam, which now carries the time. *)
Lemma get_after_modify w name r b t :
  get_beam_settings (live w) name = Some (r, b) ->
  get_beam_settings (live (modify_tomo_beam_properties t r w)) name
  = Some (r, with_time t b).
Proof.
  intros H. apply get_beam_settings_at in H. destruct H as [Hf Hb].
  unfold get_beam_settings, modify_tomo_beam_properties. simpl.
  rewrite find_beam_update by reflexivity. rewrite Hf.
  rewrite beam_at_update_same, Hb. reflexivity.
Qed.

(** ** Delivery-time candidates *)

Lemma compute_bypassed b prev cur t :
  MaxDeliveryTime b = Some t ->
  compute_delivery_time b prev cur true = Ret ((9 # 10) * t).
Proof.
  intros H. unfold compute_delivery_time. rewrite H. simpl.
  destruct (Qltb cur prev && Qltb floor_seconds t); reflexivity.
Qed.

(** C6.  With the check not bypassed, [compute_delivery_time] returns 0.9
    times the current delivery time when the previous objective value is
    strictly greater than the current one and the current delivery time
    exceeds 60 seconds, and the current delivery time itself in every other
    case. *)
Theorem compute_delivery_time_checked b (prev cur t : Q) :
  MaxDeliveryTime b = Some t ->
  (cur < prev -> (60 # 1) < t ->
   compute_delivery_time b prev cur false = Ret ((9 # 10) * t)) /\
  (~ (cur < prev /\ (60 # 1) < t) ->
   compute_delivery_time b prev cur false = Ret t).
Proof.
  intros H. unfold compute_delivery_time. rewrite H. simpl. split.
  - intros H1 H2. apply Qltb_lt in H1. apply Qltb_lt in H2.
    unfold floor_seconds. rewrite H1, H2. reflexivity.
  - intros Hn.
    destruct (Qltb cur prev) eqn:E1; [|reflexivity].
    destruct (Qltb floor_seconds t) eqn:E2; [|reflexivity].
    exfalso. apply Hn. split; apply Qltb_lt; assumption.
Qed.

Lemma compute_delivery_time_checked_witness :
  compute_delivery_time (Samples.tomo_beam 100) 5 4 false = Ret ((9 # 10) * 100) /\
  compute_delivery_time (Samples.tomo_beam 50) 5 4 false = Ret 50.
Proof.
  split.
  - apply (proj1 (compute_delivery_time_checked (Samples.tomo_beam 100) 5 4
                    (t := 100) eq_refl)); reflexivity.
  - apply (proj2 (compute_delivery_time_checked (Samples.tomo_beam 50) 5 4
                    (t := 50) eq_refl)).
    intros [_ H]. revert H. vm_compute. discriminate.
Defined.

(** The four branches of [update_delivery_time], on a plan whose first beam
    resolves to settings with a delivery time. *)
Lemma update_bypassed w prev old reset_time name r b t :
  index (Model.Beams (live w)) 0 = Some name ->
  get_beam_settings (live w) name = Some (r, b) ->
  MaxDeliveryTime b = Some t ->
  update_delivery_time w prev old true reset_time
  = Ret ({| delivery_time := (9 # 10) * t; branch := Bypassed;
            continue_reduction := true |},
         modify_tomo_beam_properties ((9 # 10) * t) r w).
Proof.
  intros Hn Hg Ht. unfold update_delivery_time.
  rewrite Hn. cbn [of_option bind]. rewrite Hg. cbn [of_option bind].
  rewrite (compute_bypassed _ _ _ Ht). reflexivity.
Qed.

(** C10.  Whenever the time-reduction block runs on a plan whose first beam
    has a delivery time [t], the steps before the loop commit the delivery
    time [0.9 * t] on that beam, whatever the objective values are and
    whatever [t] is (also at or below 60 seconds), and they make no oracle
    call: the commit precedes the first pass of the search loop, which
    starts from the committed state. *)
Theorem bypass_commit_before_search (w : World) (name : string) (r : BeamRef)
        (b : BeamSetting) (t : Q) :
  index (Model.Beams (live w)) 0 = Some name ->
  get_beam_settings (live w) name = Some (r, b) ->
  MaxDeliveryTime b = Some t ->
  exists s,
    TimeReductionSearch.reduce_time_init w = Ret (name, s) /\
    events (TimeReductionSearch.world s)
    = (events w ++ [EvSave; EvDeliveryTime r ((9 # 10) * t)])%list /\
    calls (TimeReductionSearch.world s) = calls w /\
    get_beam_settings (live (TimeReductionSearch.world s)) name
    = Some (r, with_time ((9 # 10) * t) b) /\
    TimeReductionSearch.reduce_time_iteration s = 0%Z /\
    forall fuel env,
      TimeReductionSearch.reduce_time_phase fuel env w
      = match TimeReductionSearch.reduce_time_loop fuel env name s with
        | None => None
        | Some (Raise e) => Some (Raise e)
        | Some (Ret s') => Some (Ret (TimeReductionSearch.world s'))
        end.
Proof.
  intros Hn Hg Ht.
  unfold TimeReductionSearch.reduce_time_phase, TimeReductionSearch.reduce_time_init.
  set (w2 := set_live (save w) (TimeReductionSearch.with_iterations (live (save w)) 30 5)).
  assert (Hn2 : index (Model.Beams (live w2)) 0 = Some name) by exact Hn.
  assert (Hg2 : get_beam_settings (live w2) name = Some (r, b)) by exact Hg.
  rewrite Hn2. cbn [of_option bind]. rewrite Hg2. cbn [of_option bind snd].
  rewrite Ht. cbn [of_option bind].
  rewrite (update_bypassed w2 _ _ false Hn2 Hg2 Ht). cbn [bind snd].
  eexists. split; [reflexivity|]. cbn [TimeReductionSearch.world].
  split; [|split; [|split; [|split]]].
  - cbn. rewrite <- app_assoc. reflexivity.
  - reflexivity.
  - apply get_after_modify. exact Hg2.
  - reflexivity.
  - reflexivity.
Qed.

Lemma bypass_commit_before_search_witness :
  exists s,
    TimeReductionSearch.reduce_time_init
      (Samples.world_of (Samples.tomo_plan 50 7)) = Ret ("Tomo1"%string, s) /\
    events (TimeReductionSearch.world s)
    = [EvSave; EvDeliveryTime (0%nat, 0%nat) ((9 # 10) * 50)].
Proof.
  destruct (bypass_commit_before_search
              (Samples.world_of (Samples.tomo_plan 50 7))
              (name := "Tomo1"%string) (r := (0%nat, 0%nat))
              (b := Samples.tomo_beam 50) (t := 50)
              eq_refl eq_refl eq_refl) as [s [H1 [H2 _]]].
  exists s. split; assumption.
Defined.

(** ** Objective history *)

(** C3.  At the head of a warm-start pass: with no progress data (no
    [ProgressOfOptimization], or one whose [Iterations] is [None]) the
    previous objective is the sentinel [1e10] and the history is left as it
    is; with progress data the oracle's objective values are concatenated onto
    the history and the last element of the result is the value returned (an
    [IndexError] when there is no element at all). *)
Theorem record_previous_cases (p : PlanState) (prior : option (list Q)) :
  (ProgressOfOptimization p = None \/
   (exists pr, ProgressOfOptimization p = Some pr /\ Iterations pr = None) ->
   record_previous p prior = Ret (sentinel, prior)) /\
  (forall pr its,
     ProgressOfOptimization p = Some pr -> Iterations pr = Some its ->
     record_previous p prior
     = match last_elem (history prior ++ ObjectiveValues pr) with
       | Some v => Ret (v, Some (history prior ++ ObjectiveValues pr)%list)
       | None => Raise IndexError
       end) /\
  sentinel == 10000000000 # 1.
Proof.
  unfold record_previous. split; [|split].
  - intros [H | [pr [H1 H2]]].
    + rewrite H. reflexivity.
    + rewrite H1, H2. reflexivity.
  - intros pr its H1 H2. rewrite H1, H2.
    unfold parse_culmulative_objective_value. rewrite H1. cbn [of_option bind].
    destruct prior as [h|]; cbn [bind history app];
      match goal with
      | |- context [last_elem ?l] => destruct (last_elem l)
      end; reflexivity.
  - reflexivity.
Qed.

Lemma record_previous_cases_witness :
  record_previous (Samples.tomo_plan 50 7) (Some [9 # 1])
  = Ret (sentinel, Some [9 # 1]) /\
  record_previous
    (Samples.plan_of [] [] (Some (Samples.progress_of [8 # 1; 6 # 1])) 6)
    (Some [9 # 1])
  = Ret (6 # 1, Some [9 # 1; 8 # 1; 6 # 1]).
Proof.
  split.
  - apply (proj1 (record_previous_cases (Samples.tomo_plan 50 7) (Some [9 # 1]))).
    left. reflexivity.
  - apply (proj1 (proj2 (record_previous_cases
             (Samples.plan_of [] [] (Some (Samples.progress_of [8 # 1; 6 # 1])) 6)
             (Some [9 # 1])))
             (Samples.progress_of [8 # 1; 6 # 1]) [1%Z] eq_refl eq_refl).
Defined.

(** ** The oracle wrapper *)

Lemma prefix_app (n b : string) : String.prefix n (n ++ b) = true.
Proof.
  induction n as [|c n IH]; simpl.
  - destruct b; reflexivity.
  - destruct (ascii_dec c c) as [_|N]; [exact IH | contradiction].
Qed.

Lemma prefix_split (n h : string) :
  String.prefix n h = true -> exists b, h = (n ++ b)%string.
Proof.
  revert h. induction n as [|c n IH]; intros h H.
  - exists h. reflexivity.
  - destruct h as [|d h]; simpl in H; [discriminate|].
    destruct (ascii_dec c d) as [->|_]; [|discriminate].
    destruct (IH h H) as [b ->]. exists b. reflexivity.
Qed.

Lemma contains_eq (needle hay : string) :
  contains needle hay
  = if String.prefix needle hay then true
    else match hay with
         | EmptyString => false
         | String _ tl => contains needle tl
         end.
Proof. destruct hay; reflexivity. Qed.

(** [contains] decides Python's substring test. *)
Lemma contains_spec (needle hay : string) :
  contains needle hay = true <->
  exists a b, hay = (a ++ needle ++ b)%string.
Proof.
  split.
  - induction hay as [|c hay IH]; rewrite contains_eq; intros H.
    + destruct (String.prefix needle "") eqn:E; [|discriminate].
      destruct (prefix_split _ _ E) as [b Hb]. exists ""%string, b. exact Hb.
    + destruct (String.prefix needle (String c hay)) eqn:E.
      * destruct (prefix_split _ _ E) as [b Hb]. exists ""%string, b. exact Hb.
      * destruct (IH H) as [a [b ->]]. exists (String c a), b. reflexivity.
  - intros [a [b ->]]. induction a as [|c a IH]; rewrite contains_eq.
    + change ("" ++ needle ++ b)%string with (needle ++ b)%string.
      rewrite prefix_app. reflexivity.
    + change (String c a ++ needle ++ b)%string
        with (String c (a ++ needle ++ b))%string.
      destruct (String.prefix needle (String c (a ++ needle ++ b)));
        [reflexivity | exact IH].
Qed.

Lemma shrink_pass_calls it old ratio i beams w m :
  calls (fst (IterationDriver.shrink_pass it old ratio i beams w m)) = calls w.
Proof.
  revert w m. induction beams as [|j tl IH]; intros w m; simpl; [reflexivity|].
  destruct (Qltb ratio 1); rewrite IH; reflexivity.
Qed.

Lemma modulation_adjust_calls c w0 it mx w m :
  IterationDriver.modulation_adjust c w0 it mx = Ret (w, m) ->
  calls w = calls w0.
Proof.
  unfold IterationDriver.modulation_adjust.
  destruct (IterationDriver.reduce_mod c); [|intros H; inversion H; reflexivity].
  destruct (index _ 0) as [name|]; [|discriminate]. cbn [of_option bind].
  destruct (get_beam_settings _ name) as [rb|]; [|discriminate].
  cbn [of_option bind].
  destruct (MaxDeliveryTime (snd rb)) as [old|]; [|discriminate].
  cbn [of_option bind].
  destruct (0 <? _)%Z; [|intros H; inversion H; reflexivity].
  destruct (nth_error _ _) as [ts|]; [|discriminate]. cbn [of_option bind].
  destruct (String.eqb _ _); [|intros H; inversion H; reflexivity].
  cbv zeta. destruct (match BeamSettings ts with [] => false | _ => _ end);
    [discriminate|].
  intros H. injection H as H.
  change w with (fst (w, m)). rewrite <- H. apply shrink_pass_calls.
Qed.

Lemma grid_adjust_calls c w0 it w :
  IterationDriver.grid_adjust c w0 it = Ret w ->
  calls w = calls w0.
Proof.
  unfold IterationDriver.grid_adjust.
  destruct (IterationDriver.vary_grid c); [|intros H; inversion H; reflexivity].
  destruct (index _ _) as [g|]; [|discriminate]. cbn [of_option bind].
  destruct (Qneqb g 0); intros H; inversion H; reflexivity.
Qed.

(** C7.  [run_optimization] on a successful oracle call returns the two
    timestamps with [success = True]; on an exception it returns no
    timestamps and [success = False] with a message chosen by whether the
    text "There is no feasible gantry period" occurs in the exception's
    message: the "No feasible gantry period found" form when it occurs
    anywhere in it, the generic form when it occurs nowhere (and for an
    exception without a message).  Both loops of the driver leave through
    [sys.exit] with that message on a failed call. *)
Theorem run_optimization_classifies (env : Env) (w : World) :
  (forall p fv mf, oracle env (calls w) = Converged p fv mf ->
     fst (run_optimization env w)
     = (Some (now env (2 * calls w)), Some (now env (2 * calls w + 1)), true,
        "Optimization Success"%string)) /\
  (forall e, oracle env (calls w) = Raised e ->
     exists msg,
       fst (run_optimization env w) = (None, None, false, msg) /\
       (forall m, Message e = Some m ->
          ((exists a b,
              m = (a ++ "There is no feasible gantry period" ++ b)%string) ->
           msg = ("No feasible gantry period found. Full message: " ++ m)%string) /\
          ((forall a b,
              m <> (a ++ "There is no feasible gantry period" ++ b)%string) ->
           msg = ("Exception occurred during optimization: " ++ m)%string)) /\
       (Message e = None ->
        msg = ("Exception occurred during optimization: " ++ text e)%string) /\
       (forall name s, TimeReductionSearch.world s = w ->
          TimeReductionSearch.search_step env name s = Raise (SystemExit msg)) /\
       (forall c s previous h w1 m,
          record_previous (live (IterationDriver.world s))
                          (IterationDriver.prior_history s) = Ret (previous, h) ->
          IterationDriver.grid_adjust c (IterationDriver.world s)
            (IterationDriver.optimization_iteration s) = Ret w1 ->
          IterationDriver.modulation_adjust c w1
            (IterationDriver.optimization_iteration s)
            (IterationDriver.maximum_iteration s) = Ret (w, m) ->
          IterationDriver.driver_step env c s = Raise (SystemExit msg))).
Proof.
  split.
  - intros p fv mf H. unfold run_optimization. rewrite H. reflexivity.
  - intros e H. exists (failure_message e). split; [|split; [|split; [|split]]].
    + unfold run_optimization. rewrite H. reflexivity.
    + intros m Hm. unfold failure_message, gantry_period. rewrite Hm.
      destruct (contains "There is no feasible gantry period" m) eqn:Ec; split.
      * intros _. reflexivity.
      * intros Hno. apply contains_spec in Ec. destruct Ec as [a [b Hab]].
        exfalso. exact (Hno a b Hab).
      * intros Hyes. apply contains_spec in Hyes. congruence.
      * intros _. reflexivity.
    + intros Hm. unfold failure_message. rewrite Hm. reflexivity.
    + intros name s Hs. unfold TimeReductionSearch.search_step.
      rewrite Hs. unfold run_optimization. rewrite H. reflexivity.
    + intros c s previous h w1 m H1 H2 H3.
      unfold IterationDriver.driver_step.
      rewrite H1. cbn [bind]. rewrite H2. cbn [bind]. rewrite H3. cbn [bind].
      unfold run_optimization. rewrite H. reflexivity.
Qed.

Lemma run_optimization_classifies_witness :
  fst (run_optimization (Samples.improving 2)
         (Samples.world_of (Samples.tomo_plan 100 7)))
  = (Some 0%Z, Some 1%Z, true, "Optimization Success"%string) /\
  fst (run_optimization (Samples.failing Samples.infeasible)
         (Samples.world_of (Samples.tomo_plan 100 7)))
  = (None, None, false,
     "No feasible gantry period found. Full message: Error: There is no feasible gantry period for this plan"%string) /\
  fst (run_optimization (Samples.failing Samples.cancelled)
         (Samples.world_of (Samples.tomo_plan 100 7)))
  = (None, None, false,
     "Exception occurred during optimization: The optimization was cancelled"%string).
Proof.
  split; [|split].
  - apply (proj1 (run_optimization_classifies (Samples.improving 2)
                    (Samples.world_of (Samples.tomo_plan 100 7)))
             (Samples.progress_of [100 - inject_Z 0]) (100 - inject_Z 0) 2 eq_refl).
  - destruct (proj2 (run_optimization_classifies
                       (Samples.failing Samples.infeasible)
                       (Samples.world_of (Samples.tomo_plan 100 7)))
                Samples.infeasible eq_refl) as [msg [H [Hc _]]].
    rewrite H.
    rewrite (proj1 (Hc _ eq_refl)
               (ex_intro _ "Error: "%string
                  (ex_intro _ " for this plan"%string eq_refl))).
    reflexivity.
  - destruct (proj2 (run_optimization_classifies
                       (Samples.failing Samples.cancelled)
                       (Samples.world_of (Samples.tomo_plan 100 7)))
                Samples.cancelled eq_refl) as [msg [H [Hc _]]].
    rewrite H. rewrite (proj2 (Hc _ eq_refl)); [reflexivity|].
    intros a b Hab.
    assert (Hin : contains "There is no feasible gantry period"
                    "The optimization was cancelled" = true)
      by (apply contains_spec; exists a, b; exact Hab).
    vm_compute in Hin. discriminate Hin.
Defined.

(** ** The grid schedule *)

Lemma mapM_map {A B : Type} (f : A -> option B) (g : A -> B) (l : list A) :
  (forall x, In x l -> f x = Some (g x)) -> mapM f l = Some (map g l).
Proof.
  induction l as [|x tl IH]; intros H; simpl; [reflexivity|].
  rewrite (H x (or_introl eq_refl)), IH; [reflexivity|].
  intros y Hy. apply H. right. exact Hy.
Qed.

Lemma grid_entry_scheduled n d1 d2 d3 d4 i :
  grid_entry (variable_dose_grid n d1 d2 d3 d4) i = Some (scheduled n d1 d2 d3 d4 i).
Proof.
  unfold grid_entry, scheduled, variable_dose_grid, index.
  cbn [nth_error delta_grid grid_adjustment_iteration].
  destruct (i =? 0)%Z; [reflexivity|].
  destruct (i =? int_div n 2)%Z; [reflexivity|].
  destruct (i =? int_div (3 * n) 4)%Z; [reflexivity|].
  destruct (i =? n - 1)%Z; reflexivity.
Qed.

Lemma long_schedule n d1 d2 d3 d4 :
  (4 < n)%Z ->
  make_variable_grid_list n (variable_dose_grid n d1 d2 d3 d4)
  = Some (map (scheduled n d1 d2 d3 d4) (range n)).
Proof.
  intros Hn. unfold make_variable_grid_list.
  destruct (Z.eqb_spec n 1); [lia|]. destruct (Z.eqb_spec n 2); [lia|].
  destruct (Z.eqb_spec n 3); [lia|]. destruct (Z.eqb_spec n 4); [lia|].
  apply mapM_map. intros i _. apply grid_entry_scheduled.
Qed.

Lemma nth_error_range n i :
  (i < Z.to_nat n)%nat -> nth_error (range n) i = Some (Z.of_nat i).
Proof.
  intros H. unfold range. rewrite nth_error_map.
  rewrite nth_error_seq. destruct (Nat.ltb_spec i (Z.to_nat n)); [reflexivity|lia].
Qed.

Lemma checkpoints_ordered n :
  (4 < n)%Z ->
  (int_div n 2 = n / 2 /\ int_div (3 * n) 4 = 3 * n / 4 /\
   0 < n / 2 /\ n / 2 < 3 * n / 4 /\ 3 * n / 4 < n - 1)%Z.
Proof.
  intros Hn. unfold int_div.
  rewrite !Z.quot_div_nonneg by lia.
  pose proof (Z.div_mod n 2 ltac:(lia)) as E2.
  pose proof (Z.mod_pos_bound n 2 ltac:(lia)) as B2.
  pose proof (Z.div_mod (3 * n) 4 ltac:(lia)) as E4.
  pose proof (Z.mod_pos_bound (3 * n) 4 ltac:(lia)) as B4.
  repeat split; lia.
Qed.

(** C4.  For every [n_iterations > 4] and four non-zero grid sizes, the
    schedule the driver builds has length [n_iterations]; it holds
    [grid_sizes[j]] at the [j]-th of the checkpoints [0], [n // 2],
    [3 * n // 4], [n - 1], and an entry is non-zero exactly when its index is
    one of these checkpoints. *)
Theorem grid_schedule_shape (n : Z) (d1 d2 d3 d4 : Q) :
  (4 < n)%Z ->
  ~ d1 == 0 -> ~ d2 == 0 -> ~ d3 == 0 -> ~ d4 == 0 ->
  exists l,
    make_variable_grid_list n (variable_dose_grid n d1 d2 d3 d4) = Some l /\
    Z.of_nat (List.length l) = n /\
    (forall j c g,
       nth_error (checkpoints n) j = Some c ->
       nth_error [d1; d2; d3; d4] j = Some g ->
       nth_error l (Z.to_nat c) = Some g) /\
    (forall i x,
       nth_error l i = Some x ->
       (~ x == 0 <-> In (Z.of_nat i) (checkpoints n)) /\
       (~ In (Z.of_nat i) (checkpoints n) -> x = 0)).
Proof.
  intros Hn N1 N2 N3 N4.
  destruct (checkpoints_ordered Hn) as [Q2 [Q4 [O1 [O2 O3]]]].
  exists (map (scheduled n d1 d2 d3 d4) (range n)).
  split; [apply long_schedule; assumption|].
  assert (Hnth : forall i, (i < Z.to_nat n)%nat ->
            nth_error (map (scheduled n d1 d2 d3 d4) (range n)) i
            = Some (scheduled n d1 d2 d3 d4 (Z.of_nat i))).
  { intros i Hi. rewrite nth_error_map, nth_error_range by assumption.
    reflexivity. }
  unfold checkpoints, scheduled in *. rewrite Q2, Q4 in *. clear Q2 Q4.
  remember (n / 2)%Z as a eqn:Ea. remember (3 * n / 4)%Z as b eqn:Eb.
  clear Ea Eb.
  split; [|split].
  - unfold range. rewrite !length_map, length_seq. lia.
  - intros j c g Hc Hg.
    destruct j as [|[|[|[|j]]]]; cbn [nth_error] in Hc, Hg;
      try (destruct j; discriminate);
      injection Hc as Hc; injection Hg as Hg; subst c g;
      rewrite Hnth by lia; rewrite Z2Nat.id by lia; f_equal.
    + destruct (Z.eqb_spec a 0); [lia|]. rewrite Z.eqb_refl. reflexivity.
    + destruct (Z.eqb_spec b 0); [lia|].
      destruct (Z.eqb_spec b a); [lia|].
      rewrite Z.eqb_refl. reflexivity.
    + destruct (Z.eqb_spec (n - 1) 0); [lia|].
      destruct (Z.eqb_spec (n - 1) a); [lia|].
      destruct (Z.eqb_spec (n - 1) b); [lia|].
      rewrite Z.eqb_refl. reflexivity.
  - intros i x Hx.
    assert (Hi : (i < Z.to_nat n)%nat).
    { match type of Hx with
      | nth_error ?l _ = _ =>
          assert (Hl : (i < List.length l)%nat)
            by (apply nth_error_Some; rewrite Hx; discriminate)
      end.
      unfold range in Hl. rewrite !length_map, length_seq in Hl. exact Hl. }
    rewrite Hnth in Hx by assumption. injection Hx as Hx. subst x.
    cbn [In].
    assert (Hin : forall (g : Q) (P : Prop), ~ g == 0 -> P ->
                    (~ g == 0 <-> P) /\ (~ P -> g = 0)).
    { intros g P Hg HP. split; [tauto|]. intros HnP. contradiction. }
    destruct (Z.eqb_spec (Z.of_nat i) 0) as [E|E].
    { apply Hin; [assumption|]. left. symmetry. exact E. }
    destruct (Z.eqb_spec (Z.of_nat i) a) as [E2|E2].
    { apply Hin; [assumption|]. right. left. symmetry. exact E2. }
    destruct (Z.eqb_spec (Z.of_nat i) b) as [E3|E3].
    { apply Hin; [assumption|]. right. right. left. symmetry. exact E3. }
    destruct (Z.eqb_spec (Z.of_nat i) (n - 1)) as [E4|E4].
    { apply Hin; [assumption|]. right. right. right. left. symmetry. exact E4. }
    split; [|reflexivity]. split.
    + intros H. exfalso. apply H. reflexivity.
    + intros [H|[H|[H|[H|[]]]]]; congruence.
Qed.

Lemma grid_schedule_shape_witness :
  exists l,
    make_variable_grid_list 7
      (variable_dose_grid 7 (5 # 10) (4 # 10) (3 # 10) (2 # 10)) = Some l /\
    Z.of_nat (List.length l) = 7%Z.
Proof.
  destruct (grid_schedule_shape (n := 7) (d1 := 5 # 10) (d2 := 4 # 10)
              (d3 := 3 # 10) (d4 := 2 # 10)) as [l [H1 [H2 _]]];
    try (vm_compute; discriminate).
  - reflexivity.
  - exists l. split; assumption.
Defined.

Example schedule_of_seven :
  make_variable_grid_list 7
    (variable_dose_grid 7 (5 # 10) (4 # 10) (3 # 10) (2 # 10))
  = Some [5 # 10; 0; 0; 4 # 10; 0; 3 # 10; 2 # 10].
Proof. reflexivity. Qed.

(** ** The warm-start loop *)

Lemma last_elem_app {A : Type} (l1 l2 : list A) :
  l2 <> [] -> exists v, last_elem (l1 ++ l2) = Some v.
Proof.
  intros H. induction l1 as [|x tl IH]; simpl.
  - induction l2 as [|y l2 IH2]; [contradiction|].
    destruct l2 as [|z l2]; [exists y; reflexivity|].
    apply IH2. discriminate.
  - destruct IH as [v Hv]. exists v.
    destruct (tl ++ l2)%list eqn:E; [discriminate|exact Hv].
Qed.

Lemma record_previous_readable p prior :
  readable p -> exists v h, record_previous p prior = Ret (v, h).
Proof.
  unfold readable, record_previous, parse_culmulative_objective_value.
  destruct (ProgressOfOptimization p) as [pr|]; [|intros _; eauto].
  intros H. destruct (Iterations pr); [|eauto]. cbn [of_option bind].
  destruct prior as [h|]; cbn [bind].
  - destruct (last_elem_app h H) as [v ->]. cbn. eauto.
  - destruct (last_elem_app [] H) as [v Hv]. cbn [app] in Hv. rewrite Hv.
    cbn. eauto.
Qed.

(** One pass with a scheduled grid change and no modulation reduction: the
    grid is set, then the oracle runs, and the pass completes. *)
Lemma driver_step_grid env c s g pr fv mf :
  IterationDriver.vary_grid c = true ->
  IterationDriver.reduce_mod c = false ->
  index (IterationDriver.change_dose_grid c)
        (Z.to_nat (IterationDriver.optimization_iteration s)) = Some g ->
  Qneqb g 0 = true ->
  readable (live (IterationDriver.world s)) ->
  oracle env (calls (IterationDriver.world s)) = Converged pr fv mf ->
  ObjectiveValues pr <> [] ->
  exists s',
    IterationDriver.driver_step env c s = Ret s' /\
    events (IterationDriver.world s')
    = (events (IterationDriver.world s) ++ [EvGrid g; EvRun])%list /\
    calls (IterationDriver.world s') = S (calls (IterationDriver.world s)) /\
    IterationDriver.optimization_iteration s'
    = (IterationDriver.optimization_iteration s + 1)%Z /\
    IterationDriver.maximum_iteration s' = IterationDriver.maximum_iteration s /\
    readable (live (IterationDriver.world s')).
Proof.
  intros Hv Hm Hg Hnz Hr Ho Hne.
  unfold IterationDriver.driver_step.
  destruct (@record_previous_readable _ (IterationDriver.prior_history s) Hr)
    as [v [h ->]].
  cbn [bind]. unfold IterationDriver.grid_adjust. rewrite Hv, Hg.
  cbn [of_option bind]. rewrite Hnz. cbn [bind].
  unfold IterationDriver.modulation_adjust.
  rewrite Hm. cbn [bind].
  unfold run_optimization.
  change (calls (IterationDriver.SetDefaultDoseGrid g (IterationDriver.world s)))
    with (calls (IterationDriver.world s)).
  rewrite Ho. cbn [success fst snd negb].
  unfold record_current, parse_culmulative_objective_value.
  cbn [RunOptimization set_live live ProgressOfOptimization
       TimeReductionSearch.with_iterations of_option bind].
  destruct (Iterations pr).
  - destruct h as [h|]; cbn [bind].
    + destruct (last_elem_app h Hne) as [x ->]. cbn [of_option bind].
      eexists. split; [reflexivity|]. cbn. rewrite <- app_assoc.
      repeat split; assumption.
    + destruct (last_elem_app [] Hne) as [x Hx]. cbn [app] in Hx. rewrite Hx.
      cbn [of_option bind].
      eexists. split; [reflexivity|]. cbn. rewrite <- app_assoc.
      repeat split; assumption.
  - eexists. split; [reflexivity|]. cbn. rewrite <- app_assoc.
    repeat split; assumption.
Qed.

Lemma iteration_driver_next fuel env c s s' :
  IterationDriver.optimization_iteration s <> IterationDriver.maximum_iteration s ->
  IterationDriver.driver_step env c s = Ret s' ->
  IterationDriver.iteration_driver (S fuel) env c s
  = IterationDriver.iteration_driver fuel env c s'.
Proof.
  intros Hne Hs. cbn [IterationDriver.iteration_driver].
  destruct (Z.eqb_spec (IterationDriver.optimization_iteration s)
                       (IterationDriver.maximum_iteration s)); [contradiction|].
  rewrite Hs. reflexivity.
Qed.

Lemma iteration_driver_done fuel env c s :
  IterationDriver.optimization_iteration s = IterationDriver.maximum_iteration s ->
  IterationDriver.iteration_driver fuel env c s = Some (Ret s).
Proof.
  intros He. destruct fuel; cbn [IterationDriver.iteration_driver];
    rewrite He, Z.eqb_refl; reflexivity.
Qed.

(** The schedule of the three-iteration scenario holds a grid change at every
    iteration: the literal branch is [[grid[0], grid[2], grid[3]]]. *)
Lemma three_iteration_schedule :
  Driver.schedule Samples.three_iterations = Ret [5 # 10; 3 # 10; 2 # 10].
Proof. reflexivity. Qed.

(** C5, as stated, fails: the schedule for [n_iterations = 3] does not leave
    iteration 1 without a grid change. *)
Lemma three_iteration_schedule_counterexample :
  ~ (exists l x,
       make_variable_grid_list 3
         (variable_dose_grid 3 (5 # 10) (4 # 10) (3 # 10) (2 # 10)) = Some l /\
       nth_error l 0 = Some (5 # 10) /\
       nth_error l 1 = Some x /\ x == 0 /\
       nth_error l 2 = Some (2 # 10)).
Proof.
  intros [l [x [Hl [_ [H1 [Hx _]]]]]].
  cbv in Hl. injection Hl as <-. cbn in H1. injection H1 as <-.
  revert Hx. cbv. discriminate.
Qed.

(** C5, amended.  For [n_iterations = 3] with [vary_grid] and the grid sizes
    0.5, 0.4, 0.3, 0.2 the schedule is [0.5, 0.3, 0.2]; when the oracle
    succeeds three times the warm-start loop makes exactly three oracle calls
    and changes the dose grid immediately before each of them, to 0.5, 0.3
    and 0.2 in turn. *)
Theorem three_iteration_scenario (env : Env) (s : IterationDriver.LoopState) :
  IterationDriver.optimization_iteration s = 0%Z ->
  IterationDriver.maximum_iteration s = 3%Z ->
  readable (live (IterationDriver.world s)) ->
  (forall k, (k < 3)%nat ->
     exists pr fv mf,
       oracle env (calls (IterationDriver.world s) + k) = Converged pr fv mf /\
       ObjectiveValues pr <> []) ->
  exists grid,
    Driver.schedule Samples.three_iterations = Ret grid /\
    grid = [5 # 10; 3 # 10; 2 # 10] /\
    forall fuel, (3 <= fuel)%nat ->
      exists s',
        IterationDriver.iteration_driver fuel env
          (Driver.loop_config Samples.three_iterations grid) s = Some (Ret s') /\
        events (IterationDriver.world s')
        = (events (IterationDriver.world s)
             ++ [EvGrid (5 # 10); EvRun; EvGrid (3 # 10); EvRun;
                 EvGrid (2 # 10); EvRun])%list /\
        calls (IterationDriver.world s') = (calls (IterationDriver.world s) + 3)%nat.
Proof.
  intros Hi Hm Hr Ho.
  exists [5 # 10; 3 # 10; 2 # 10]. split; [reflexivity|]. split; [reflexivity|].
  intros fuel Hf.
  set (c := Driver.loop_config Samples.three_iterations [5 # 10; 3 # 10; 2 # 10]).
  destruct (Ho 0%nat ltac:(lia)) as [p0 [f0 [m0 [O0 N0]]]].
  destruct (Ho 1%nat ltac:(lia)) as [p1 [f1 [m1 [O1 N1]]]].
  destruct (Ho 2%nat ltac:(lia)) as [p2 [f2 [m2 [O2 N2]]]].
  rewrite Nat.add_0_r in O0.
  destruct (@driver_step_grid env c s (5 # 10) p0 f0 m0 eq_refl eq_refl)
    as [s1 [S1 [E1 [C1 [I1 [M1 R1]]]]]]; try assumption.
  { rewrite Hi. reflexivity. } { reflexivity. }
  destruct (@driver_step_grid env c s1 (3 # 10) p1 f1 m1 eq_refl eq_refl)
    as [s2 [S2 [E2 [C2 [I2 [M2 R2]]]]]]; try assumption.
  { rewrite I1, Hi. reflexivity. } { reflexivity. }
  { rewrite C1, <- Nat.add_1_r. exact O1. }
  destruct (@driver_step_grid env c s2 (2 # 10) p2 f2 m2 eq_refl eq_refl)
    as [s3 [S3 [E3 [C3 [I3 [M3 R3]]]]]]; try assumption.
  { rewrite I2, I1, Hi. reflexivity. } { reflexivity. }
  { rewrite C2, C1. replace (S (S (calls (IterationDriver.world s))))
      with (calls (IterationDriver.world s) + 2)%nat by lia. exact O2. }
  exists s3.
  destruct fuel as [|[|[|fuel]]]; try lia.
  split; [|split].
  - rewrite (@iteration_driver_next _ env c s s1); [|lia|exact S1].
    rewrite (@iteration_driver_next _ env c s1 s2); [|lia|exact S2].
    rewrite (@iteration_driver_next _ env c s2 s3); [|lia|exact S3].
    apply iteration_driver_done. lia.
  - rewrite E3, E2, E1. rewrite <- !app_assoc. reflexivity.
  - lia.
Qed.

Lemma three_iteration_scenario_witness :
  exists s',
    IterationDriver.iteration_driver 3 (Samples.improving 2)
      (Driver.loop_config Samples.three_iterations [5 # 10; 3 # 10; 2 # 10])
      {| IterationDriver.world := Samples.world_of (Samples.tomo_plan 100 7);
         IterationDriver.optimization_iteration := 0;
         IterationDriver.maximum_iteration := 3;
         IterationDriver.prior_history := None;
         IterationDriver.previous_objective_function := sentinel;
         IterationDriver.current_objective_function := 0 |} = Some (Ret s') /\
    events (IterationDriver.world s')
    = [EvGrid (5 # 10); EvRun; EvGrid (3 # 10); EvRun; EvGrid (2 # 10); EvRun].
Proof.
  destruct (@three_iteration_scenario (Samples.improving 2)
              {| IterationDriver.world := Samples.world_of (Samples.tomo_plan 100 7);
                 IterationDriver.optimization_iteration := 0;
                 IterationDriver.maximum_iteration := 3;
                 IterationDriver.prior_history := None;
                 IterationDriver.previous_objective_function := sentinel;
                 IterationDriver.current_objective_function := 0 |}
              eq_refl eq_refl I)
    as [grid [_ [Hg H]]].
  - intros k _. do 3 eexists. split; [reflexivity|]. discriminate.
  - subst grid. destruct (H 3%nat (le_n 3)) as [s' [H1 [H2 _]]].
    exists s'. split; assumption.
Defined.

(** The same scenario through [optimize_plan] on a helical plan: the grid is
    set once before the loop and once before each of the three oracle
    calls. *)
Example three_iterations_end_to_end :
  exists w,
    Driver.optimize_plan check_beam_limits_spec (Samples.improving 2)
      Samples.three_iterations 3 (Samples.world_of (Samples.tomo_plan 500 3))
    = Some (Ret (Driver.Completed, w)) /\
    events w = [EvSave; EvGrid (5 # 10);
                EvGrid (5 # 10); EvRun; EvGrid (3 # 10); EvRun;
                EvGrid (2 # 10); EvRun].
Proof. eexists. split; [vm_compute; reflexivity|reflexivity]. Qed.

(** ** Modulation reduction *)

Lemma shrink_pass_idle it old ratio i js w m :
  Qltb ratio 1 = false ->
  IterationDriver.shrink_pass it old ratio i js w m = (w, m).
Proof.
  intros H. induction js as [|j tl IH]; simpl; [reflexivity|].
  rewrite H. exact IH.
Qed.

Lemma shrink_pass_maximum it old ratio i js w m :
  Qltb ratio 1 = true ->
  snd (IterationDriver.shrink_pass it old ratio i js w m)
  = match js with
    | [] => m
    | _ :: _ => if (it =? m - 1)%Z then (m + 1)%Z else m
    end.
Proof.
  intros H. revert w m. induction js as [|j tl IH]; intros w m; simpl;
    [reflexivity|].
  rewrite H, IH. destruct tl as [|j' tl]; [reflexivity|].
  destruct (Z.eqb_spec it (m - 1)) as [E|E].
  - destruct (Z.eqb_spec it (m + 1 - 1)); [lia|reflexivity].
  - destruct (Z.eqb_spec it (m - 1)); [contradiction|reflexivity].
Qed.

Lemma with_time_twice t (o : option BeamSetting) :
  option_map (with_time t) (option_map (with_time t) o)
  = option_map (with_time t) o.
Proof. destruct o; reflexivity. Qed.

Lemma shrink_pass_beams it old ratio i js w m j :
  Qltb ratio 1 = true ->
  beam_at (TreatmentSetupSettings
             (live (fst (IterationDriver.shrink_pass it old ratio i js w m)))) (i, j)
  = if existsb (Nat.eqb j) js
    then option_map (with_time (old * ratio * (9 # 10)))
                    (beam_at (TreatmentSetupSettings (live w)) (i, j))
    else beam_at (TreatmentSetupSettings (live w)) (i, j).
Proof.
  intros H. revert w m. induction js as [|j0 tl IH]; intros w m; simpl;
    [reflexivity|].
  rewrite H, IH. unfold modify_tomo_beam_properties. cbn [live emit set_live].
  cbn [with_setups TreatmentSetupSettings]. unfold damping.
  destruct (Nat.eqb_spec j j0) as [->|Hne]; cbn [orb].
  - rewrite beam_at_update_same.
    destruct (existsb (Nat.eqb j0) tl); [apply with_time_twice|reflexivity].
  - rewrite beam_at_update_other by congruence. reflexivity.
Qed.

Lemma existsb_seq j n : (j < n)%nat -> existsb (Nat.eqb j) (seq 0 n) = true.
Proof.
  intros H. apply existsb_exists. exists j. split.
  - apply in_seq. lia.
  - apply Nat.eqb_refl.
Qed.

(** What the modulation reduction leaves for the rest of the pass. *)
Lemma driver_step_maximum env c s s' w1 w2 m :
  IterationDriver.grid_adjust c (IterationDriver.world s)
    (IterationDriver.optimization_iteration s) = Ret w1 ->
  IterationDriver.modulation_adjust c w1
    (IterationDriver.optimization_iteration s)
    (IterationDriver.maximum_iteration s) = Ret (w2, m) ->
  IterationDriver.driver_step env c s = Ret s' ->
  IterationDriver.optimization_iteration s'
  = (IterationDriver.optimization_iteration s + 1)%Z /\
  IterationDriver.maximum_iteration s' = m.
Proof.
  intros Hg Hm. unfold IterationDriver.driver_step.
  destruct (record_previous _ _) as [[previous h]|e]; [|discriminate].
  cbn [bind]. rewrite Hg. cbn [bind]. rewrite Hm. cbn [bind].
  destruct (run_optimization env w2) as [r w3].
  destruct (negb (success r)); [discriminate|].
  destruct (record_current _ _ _) as [[current h2]|e]; [|discriminate].
  cbn [bind]. intros H. injection H as <-. split; reflexivity.
Qed.

(** The modulation reduction on a pass [i > 0] with [reduce_mod], on a
    helical plan: the ratio is [mod_target / mod_factor]; when it is below
    one every beam of the treatment setup gets the delivery time
    [old_time * ratio * 0.9], and on the last scheduled pass
    ([i = maximum_iteration - 1]) [maximum_iteration] grows by one; when the
    ratio is not below one nothing is changed. *)
Lemma modulation_adjust_cases (c : IterationDriver.LoopConfig) (w : World)
      (i maximum : Z) (name : string) (rb : BeamRef * BeamSetting) (old : Q)
      (ts : TreatmentSetup) :
  IterationDriver.reduce_mod c = true ->
  (0 < i)%Z ->
  index (Model.Beams (live w)) 0 = Some name ->
  get_beam_settings (live w) name = Some rb ->
  MaxDeliveryTime (snd rb) = Some old ->
  nth_error (TreatmentSetupSettings (live w))
            (Nat.pred (List.length (TreatmentSetupSettings (live w)))) = Some ts ->
  DeliveryTechnique ts = "TomoHelical"%string ->
  BeamSettings ts <> [] ->
  ~ mod_factor (live w) == 0 ->
  let ratio := IterationDriver.mod_target c / mod_factor (live w) in
  let last_setup := Nat.pred (List.length (TreatmentSetupSettings (live w))) in
  (ratio < 1 ->
   exists w',
     IterationDriver.modulation_adjust c w i maximum
     = Ret (w', if (i =? maximum - 1)%Z then (maximum + 1)%Z else maximum) /\
     (forall j b,
        nth_error (BeamSettings ts) j = Some b ->
        beam_at (TreatmentSetupSettings (live w')) (last_setup, j)
        = Some (with_time (old * ratio * (9 # 10)) b))) /\
  (~ ratio < 1 ->
   IterationDriver.modulation_adjust c w i maximum = Ret (w, maximum)).
Proof.
  intros Hr Hi Hn Hg Ho Hts Ht Hb Hmf ratio last_setup.
  assert (Hadj : IterationDriver.modulation_adjust c w i maximum
                 = Ret (IterationDriver.shrink_pass i old ratio last_setup
                          (seq 0 (List.length (BeamSettings ts))) w maximum)).
  { unfold IterationDriver.modulation_adjust.
    rewrite Hr, Hn. cbn [of_option bind]. rewrite Hg. cbn [of_option bind].
    rewrite Ho. cbn [of_option bind].
    destruct (Z.ltb_spec 0 i); [|lia].
    unfold last_setup. cbv zeta. rewrite Hts. cbn [of_option bind]. rewrite Ht.
    rewrite String.eqb_refl.
    destruct (BeamSettings ts) as [|b0 tl]; [exfalso; apply Hb; reflexivity|].
    destruct (Qeq_bool (mod_factor (live w)) 0) eqn:Ez;
      [apply Qeq_bool_iff in Ez; contradiction|].
    reflexivity. }
  split.
  - intros Hlt. apply Qltb_lt in Hlt.
    destruct (IterationDriver.shrink_pass i old ratio last_setup
                (seq 0 (List.length (BeamSettings ts))) w maximum)
      as [w' m'] eqn:E.
    assert (Em : m' = if (i =? maximum - 1)%Z then (maximum + 1)%Z else maximum).
    { change m' with (snd (w', m')). rewrite <- E.
      rewrite shrink_pass_maximum by assumption.
      destruct (BeamSettings ts); [contradiction|reflexivity]. }
    exists w'. subst m'. split; [exact Hadj|].
    intros j b Hj. change w' with (fst (w', if (i =? maximum - 1)%Z
                                             then (maximum + 1)%Z else maximum)).
    rewrite <- E. rewrite shrink_pass_beams by assumption.
    rewrite existsb_seq
      by (apply nth_error_Some; rewrite Hj; discriminate).
    unfold beam_at, last_setup. cbn [fst snd]. rewrite Hts, Hj.
    reflexivity.
  - intros Hge. rewrite Hadj. rewrite shrink_pass_idle; [reflexivity|].
    apply Qltb_ge. apply Qnot_lt_le. exact Hge.
Qed.

Lemma shrink_pass_maximum_cases it old ratio i js w m :
  let m' := snd (IterationDriver.shrink_pass it old ratio i js w m) in
  m' = m \/ (it = (m - 1)%Z /\ m' = (m + 1)%Z).
Proof.
  cbv zeta. destruct (Qltb ratio 1) eqn:E.
  - rewrite shrink_pass_maximum by assumption.
    destruct js as [|j tl]; [left; reflexivity|].
    destruct (Z.eqb_spec it (m - 1)); [right; split; [assumption|reflexivity]|].
    left. reflexivity.
  - rewrite shrink_pass_idle by assumption. left. reflexivity.
Qed.

Lemma modulation_adjust_maximum c w it mx w' m :
  IterationDriver.modulation_adjust c w it mx = Ret (w', m) ->
  m = mx \/ (it = (mx - 1)%Z /\ m = (mx + 1)%Z).
Proof.
  unfold IterationDriver.modulation_adjust.
  destruct (IterationDriver.reduce_mod c);
    [|intros H; injection H as _ <-; left; reflexivity].
  destruct (index _ 0) as [name|]; [|discriminate]. cbn [of_option bind].
  destruct (get_beam_settings _ name) as [rb|]; [|discriminate].
  cbn [of_option bind].
  destruct (MaxDeliveryTime (snd rb)) as [old|]; [|discriminate].
  cbn [of_option bind].
  destruct (0 <? it)%Z; [|intros H; injection H as _ <-; left; reflexivity].
  destruct (nth_error _ _) as [ts|]; [|discriminate]. cbn [of_option bind].
  destruct (String.eqb _ _);
    [|intros H; injection H as _ <-; left; reflexivity].
  cbv zeta. destruct (match BeamSettings ts with [] => false | _ => _ end);
    [discriminate|].
  intros H. injection H as H.
  change m with (snd (w', m)). rewrite <- H. apply shrink_pass_maximum_cases.
Qed.

(** The counters after a completed pass. *)
Lemma driver_step_counters env c s s' :
  IterationDriver.driver_step env c s = Ret s' ->
  IterationDriver.optimization_iteration s'
  = (IterationDriver.optimization_iteration s + 1)%Z /\
  (IterationDriver.maximum_iteration s' = IterationDriver.maximum_iteration s \/
   (IterationDriver.optimization_iteration s
    = (IterationDriver.maximum_iteration s - 1)%Z /\
    IterationDriver.maximum_iteration s'
    = (IterationDriver.maximum_iteration s + 1)%Z)).
Proof.
  intros H. pose proof H as H'. unfold IterationDriver.driver_step in H'.
  destruct (record_previous _ _) as [[previous h]|e]; [|discriminate].
  cbn [bind] in H'.
  destruct (IterationDriver.grid_adjust c _ _) as [w1|e] eqn:Eg; [|discriminate].
  cbn [bind] in H'.
  destruct (IterationDriver.modulation_adjust c w1 _ _) as [[w2 m]|e] eqn:Em;
    [|discriminate].
  destruct (driver_step_maximum _ _ _ Eg Em H) as [H1 H2].
  split; [exact H1|]. rewrite H2. exact (modulation_adjust_maximum _ _ _ _ Em).
Qed.

Lemma last_elem_some_app {A : Type} (h l : list A) (v : A) :
  last_elem h = Some v -> exists v', last_elem (h ++ l) = Some v'.
Proof.
  intros H. destruct l as [|x l].
  - rewrite app_nil_r. exists v. exact H.
  - apply last_elem_app. discriminate.
Qed.

(** A completed pass has made exactly one oracle call and leaves an
    objective history from which the next pass can take its previous
    value. *)
Lemma driver_step_leaves_history env c s s' :
  IterationDriver.driver_step env c s = Ret s' ->
  calls (IterationDriver.world s') = S (calls (IterationDriver.world s)) /\
  exists v h,
    record_previous (live (IterationDriver.world s'))
                    (IterationDriver.prior_history s') = Ret (v, h).
Proof.
  unfold IterationDriver.driver_step.
  destruct (record_previous _ _) as [[previous h1]|e]; [|discriminate].
  cbn [bind].
  destruct (IterationDriver.grid_adjust c _ _) as [w1|e] eqn:Eg; [|discriminate].
  cbn [bind].
  destruct (IterationDriver.modulation_adjust c w1 _ _) as [[w2 m]|e] eqn:Em;
    [|discriminate].
  cbn [bind]. unfold run_optimization. cbv zeta.
  destruct (oracle env (calls w2)) as [pr fv mf|e]; [|discriminate].
  cbn [success fst snd negb RunOptimization].
  unfold record_current, record_previous, parse_culmulative_objective_value.
  cbn [set_live live TimeReductionSearch.with_iterations ProgressOfOptimization
       of_option bind].
  assert (Hc : calls w2 = calls (IterationDriver.world s)).
  { rewrite (modulation_adjust_calls _ _ _ _ Em).
    exact (grid_adjust_calls _ _ _ Eg). }
  destruct (Iterations pr) as [its|] eqn:Ei.
  - destruct h1 as [h1|]; cbn [bind].
    + destruct (last_elem (h1 ++ ObjectiveValues pr)) as [v|] eqn:El;
        [|discriminate].
      cbn [of_option bind]. intros H. injection H as <-.
      cbn [IterationDriver.world IterationDriver.prior_history calls emit live
           set_live ProgressOfOptimization TimeReductionSearch.with_iterations].
      split; [rewrite Hc; reflexivity|].
      rewrite Ei. cbn [of_option bind].
      destruct (@last_elem_some_app _ _ (ObjectiveValues pr) _ El) as [v' Hv'].
      rewrite Hv'. cbn [of_option bind]. eauto.
    + destruct (last_elem (ObjectiveValues pr)) as [v|] eqn:El; [|discriminate].
      cbn [of_option bind]. intros H. injection H as <-.
      cbn [IterationDriver.world IterationDriver.prior_history calls emit live
           set_live ProgressOfOptimization TimeReductionSearch.with_iterations].
      split; [rewrite Hc; reflexivity|].
      rewrite Ei. cbn [of_option bind].
      destruct (@last_elem_some_app _ _ (ObjectiveValues pr) _ El) as [v' Hv'].
      rewrite Hv'. cbn [of_option bind]. eauto.
  - cbn [bind]. intros H. injection H as <-.
    cbn [IterationDriver.world IterationDriver.prior_history calls emit live
         set_live ProgressOfOptimization TimeReductionSearch.with_iterations].
    split; [rewrite Hc; reflexivity|]. rewrite Ei. eauto.
Qed.

(** The subscript [change_dose_grid[i]] beyond the end of the schedule. *)
Lemma grid_adjust_out_of_range c w i :
  IterationDriver.vary_grid c = true ->
  (List.length (IterationDriver.change_dose_grid c) <= Z.to_nat i)%nat ->
  IterationDriver.grid_adjust c w i = Raise IndexError.
Proof.
  intros Hv Hlen. unfold IterationDriver.grid_adjust, index. rewrite Hv.
  rewrite (proj2 (nth_error_None _ _) Hlen). reflexivity.
Qed.

(** C8.  The shrink on the final scheduled pass does add one to
    [maximum_iteration], but with a varying dose grid the loop does not run
    one more iteration: the schedule [change_dose_grid] was built once, with
    one entry per scheduled pass, so whenever a pass has extended the loop
    (which happens only on the pass [i = maximum_iteration - 1], and after
    that pass has called the optimizer once) the loop condition still holds
    and the added pass reads [change_dose_grid[optimization_iteration]] out
    of range: it raises an [IndexError] before any optimizer call, and so
    does the loop. *)
Theorem extension_outruns_schedule (env : Env) (c : IterationDriver.LoopConfig)
        (s s' : IterationDriver.LoopState) :
  IterationDriver.vary_grid c = true ->
  (0 < IterationDriver.maximum_iteration s)%Z ->
  List.length (IterationDriver.change_dose_grid c)
  = Z.to_nat (IterationDriver.maximum_iteration s) ->
  IterationDriver.driver_step env c s = Ret s' ->
  IterationDriver.maximum_iteration s'
  = (IterationDriver.maximum_iteration s + 1)%Z ->
  IterationDriver.optimization_iteration s
  = (IterationDriver.maximum_iteration s - 1)%Z /\
  calls (IterationDriver.world s') = S (calls (IterationDriver.world s)) /\
  IterationDriver.optimization_iteration s'
  <> IterationDriver.maximum_iteration s' /\
  (forall w,
     IterationDriver.grid_adjust c w (IterationDriver.optimization_iteration s')
     = Raise IndexError) /\
  IterationDriver.driver_step env c s' = Raise IndexError /\
  (forall fuel,
     IterationDriver.iteration_driver (S fuel) env c s' = Some (Raise IndexError)).
Proof.
  intros Hv Hpos Hlen Hstep Hmax.
  destruct (driver_step_counters _ _ _ Hstep) as [Hit [Hsame | [Hlast _]]];
    [lia|].
  destruct (driver_step_leaves_history _ _ _ Hstep) as [Hcalls [v [h Hprev]]].
  assert (Hgrid : forall w,
            IterationDriver.grid_adjust c w
              (IterationDriver.optimization_iteration s') = Raise IndexError).
  { intros w. apply grid_adjust_out_of_range; [exact Hv|].
    rewrite Hlen, Hit, Hlast. apply Nat.eq_le_incl. f_equal. lia. }
  assert (Hnext : IterationDriver.driver_step env c s' = Raise IndexError).
  { unfold IterationDriver.driver_step. rewrite Hprev. cbn [bind].
    rewrite Hgrid. reflexivity. }
  split; [exact Hlast|]. split; [exact Hcalls|]. split; [lia|].
  split; [exact Hgrid|]. split; [exact Hnext|].
  intros fuel. cbn [IterationDriver.iteration_driver].
  destruct (Z.eqb_spec (IterationDriver.optimization_iteration s')
                       (IterationDriver.maximum_iteration s')); [lia|].
  rewrite Hnext. reflexivity.
Qed.

Lemma extension_outruns_schedule_witness :
  exists s1 s2,
    IterationDriver.driver_step (Samples.improving 2) Samples.varying_loop
      Samples.varying_start = Ret s1 /\
    IterationDriver.driver_step (Samples.improving 2) Samples.varying_loop s1
    = Ret s2 /\
    IterationDriver.maximum_iteration s2 = 3%Z /\
    calls (IterationDriver.world s2) = 2%nat /\
    IterationDriver.iteration_driver 1 (Samples.improving 2)
      Samples.varying_loop s2 = Some (Raise IndexError).
Proof.
  assert (H1 : exists s1,
             IterationDriver.driver_step (Samples.improving 2)
               Samples.varying_loop Samples.varying_start = Ret s1)
    by (eexists; vm_compute; reflexivity).
  destruct H1 as [s1 H1].
  assert (H2 : exists s2,
             IterationDriver.driver_step (Samples.improving 2)
               Samples.varying_loop s1 = Ret s2 /\
             IterationDriver.maximum_iteration s1 = 2%Z /\
             IterationDriver.maximum_iteration s2 = 3%Z /\
             calls (IterationDriver.world s1) = 1%nat).
  { vm_compute in H1. injection H1 as <-. eexists.
    split; [vm_compute; reflexivity|]. repeat split. }
  destruct H2 as [s2 [H2 [Hm1 [Hm2 Hc1]]]].
  destruct (@extension_outruns_schedule (Samples.improving 2)
              Samples.varying_loop s1 s2)
    as [_ [Hcalls [_ [_ [_ Hloop]]]]].
  - reflexivity.
  - rewrite Hm1. reflexivity.
  - rewrite Hm1. reflexivity.
  - exact H2.
  - rewrite Hm1, Hm2. reflexivity.
  - exists s1, s2. split; [exact H1|]. split; [exact H2|]. split; [exact Hm2|].
    split; [rewrite Hcalls, Hc1; reflexivity|]. apply Hloop.
Defined.

(** The same on a whole run of [optimize_plan], with five iterations asked
    for: the fifth pass extends the loop and the sixth raises. *)
Example extended_pass_outruns_schedule :
  Driver.optimize_plan check_beam_limits_spec (Samples.improving 2)
    Samples.varying_modulation 20 (Samples.world_of (Samples.tomo_plan 500 3))
  = Some (Raise IndexError).
Proof. vm_compute. reflexivity. Qed.

(** ** The time-reduction search *)

Lemma get_beam_settings_ext p p' name :
  TreatmentSetupSettings p = TreatmentSetupSettings p' ->
  get_beam_settings p name = get_beam_settings p' name.
Proof. intros H. unfold get_beam_settings. rewrite H. reflexivity. Qed.

Lemma damped_lt (t : Q) : (60 # 1) < t -> (9 # 10) * t < t.
Proof. intros H. lra. Qed.

(** [update_delivery_time] with the check in force. *)
Lemma update_checked w prev old reset_time name r b t :
  index (Model.Beams (live w)) 0 = Some name ->
  get_beam_settings (live w) name = Some (r, b) ->
  MaxDeliveryTime b = Some t ->
  update_delivery_time w prev old false reset_time
  = let new := if Qltb (FunctionValue (live w)) prev && Qltb (60 # 1) t
               then (9 # 10) * t else t in
    if Qltb new old then
      Ret ({| delivery_time := new; branch := Reduced;
              continue_reduction := true |},
           modify_tomo_beam_properties new r w)
    else if reset_time then
      Ret ({| delivery_time := old; branch := ResetTime;
              continue_reduction := true |},
           modify_tomo_beam_properties old r w)
    else
      Ret ({| delivery_time := old; branch := Unchanged;
              continue_reduction := false |}, w).
Proof.
  intros Hn Hg Ht. unfold update_delivery_time.
  rewrite Hn. cbn [of_option bind]. rewrite Hg. cbn [of_option bind].
  unfold compute_delivery_time. rewrite Ht. cbn [of_option bind].
  unfold get_current_objective_value, floor_seconds, damping.
  destruct (Qltb (FunctionValue (live w)) prev && Qltb (60 # 1) t);
    cbn [bind]; cbv zeta; reflexivity.
Qed.

Lemma search_trace_le r t tr t_final :
  search_trace r t tr t_final -> t_final <= t.
Proof.
  induction 1.
  - apply Qle_refl.
  - apply Qle_trans with t'; [assumption|]. apply Qlt_le_weak. assumption.
  - apply Qle_refl.
Qed.

(** One pass of the search loop: the oracle fails and the script exits, or
    the time is reduced, committed and persisted, or the pass is rolled back
    and the loop counter is pushed beyond the cap. *)
Lemma search_step_cases env name r t s :
  search_inv name r t (TimeReductionSearch.world s) ->
  (exists e, TimeReductionSearch.search_step env name s
             = Raise (SystemExit (failure_message e))) \/
  (exists s',
     TimeReductionSearch.search_step env name s = Ret s' /\
     events (TimeReductionSearch.world s')
     = (events (TimeReductionSearch.world s)
          ++ [EvRun; EvDeliveryTime r ((9 # 10) * t); EvSave])%list /\
     (9 # 10) * t < t /\
     TimeReductionSearch.reduce_time_iteration s'
     = (TimeReductionSearch.reduce_time_iteration s + 1)%Z /\
     search_inv name r ((9 # 10) * t) (TimeReductionSearch.world s')) \/
  (exists s',
     TimeReductionSearch.search_step env name s = Ret s' /\
     events (TimeReductionSearch.world s')
     = (events (TimeReductionSearch.world s)
          ++ [EvRun; EvReload; EvDeliveryTime r t])%list /\
     TimeReductionSearch.reduce_time_iteration s'
     = (TimeReductionSearch.max_reduce_time_iterations + 1)%Z /\
     exists b, get_beam_settings (live (TimeReductionSearch.world s')) name
               = Some (r, b) /\ MaxDeliveryTime b = Some t).
Proof.
  intros [Hn [Hn' [[b [Hg Ht]] [b' [t' [Hg' [Ht' Hle]]]]]]].
  unfold TimeReductionSearch.search_step, run_optimization.
  destruct (oracle env (calls (TimeReductionSearch.world s))) as [pr fv mf|e] eqn:Eo.
  2:{ left. exists e. reflexivity. }
  right. cbn [success fst snd negb].
  set (w1 := RunOptimization (Converged pr fv mf) (TimeReductionSearch.world s)).
  assert (Hn1 : index (Model.Beams (live w1)) 0 = Some name) by exact Hn.
  assert (Hg1 : get_beam_settings (live w1) name = Some (r, b)) by exact Hg.
  assert (Hs1 : saved w1 = saved (TimeReductionSearch.world s)) by reflexivity.
  assert (He1 : events w1 = (events (TimeReductionSearch.world s) ++ [EvRun])%list)
    by reflexivity.
  rewrite Hg1. cbn [of_option bind snd]. rewrite Ht. cbn [of_option bind].
  rewrite (update_checked w1 _ _ false Hn1 Hg1 Ht). cbv zeta.
  destruct (Qltb (FunctionValue (live w1))
                 (TimeReductionSearch.previous_objective_function s)
            && Qltb (60 # 1) t) eqn:Eimp.
  - (* the objective improved and the time may shrink *)
    apply andb_true_iff in Eimp. destruct Eimp as [_ E60].
    apply Qltb_lt in E60. pose proof (damped_lt E60) as Hlt.
    rewrite (proj2 (Qltb_lt _ _) Hlt). cbn [bind continue_reduction].
    left. eexists. split; [reflexivity|].
    cbn [TimeReductionSearch.world TimeReductionSearch.reduce_time_iteration].
    split; [|split; [exact Hlt|split; [reflexivity|]]].
    + cbn [save emit events live saved calls modify_tomo_beam_properties set_live].
      rewrite He1, <- !app_assoc. reflexivity.
    + pose proof (get_after_modify w1 name ((9 # 10) * t) Hg1) as Hm.
      unfold search_inv. cbn [save emit live saved].
      split; [exact Hn1|]. split; [exact Hn1|].
      split; [eexists; split; [exact Hm|reflexivity]|].
      eexists. exists ((9 # 10) * t). split; [exact Hm|].
      split; [reflexivity|apply Qle_refl].
  - (* no reduction: roll back *)
    assert (Hnlt : Qltb t t = false) by (apply Qltb_ge; apply Qle_refl).
    rewrite Hnlt. cbn [bind continue_reduction].
    set (w3 := reload_patient w1).
    assert (Hn3 : index (Model.Beams (live w3)) 0 = Some name)
      by (unfold w3; cbn [reload_patient emit live]; rewrite Hs1; exact Hn').
    assert (Hg3 : get_beam_settings (live w3) name = Some (r, b'))
      by (unfold w3; cbn [reload_patient emit live]; rewrite Hs1; exact Hg').
    rewrite (update_checked w3 _ _ true Hn3 Hg3 Ht'). cbv zeta.
    unfold get_current_objective_value.
    assert (Hsame : Qltb (FunctionValue (live w3)) (FunctionValue (live w3)) = false)
      by (apply Qltb_ge; apply Qle_refl).
    rewrite Hsame. cbn [andb].
    rewrite (proj2 (Qltb_ge t' t) Hle). cbn [bind snd].
    right. eexists. split; [reflexivity|].
    cbn [TimeReductionSearch.world TimeReductionSearch.reduce_time_iteration].
    split; [|split; [reflexivity|]].
    + unfold w3.
      cbn [reload_patient emit events live saved calls
           modify_tomo_beam_properties set_live].
      rewrite He1, <- !app_assoc. reflexivity.
    + exists (with_time t b'). split; [|reflexivity].
      apply get_after_modify. exact Hg3.
Qed.

Lemma reduce_time_loop_done fuel env name s :
  (TimeReductionSearch.max_reduce_time_iterations
   < TimeReductionSearch.reduce_time_iteration s)%Z ->
  TimeReductionSearch.reduce_time_loop fuel env name s = Some (Ret s).
Proof.
  intros H. destruct fuel; cbn [TimeReductionSearch.reduce_time_loop];
    destruct (Z.leb_spec (TimeReductionSearch.reduce_time_iteration s)
                         TimeReductionSearch.max_reduce_time_iterations);
    try lia; reflexivity.
Qed.

(** The whole loop, from any pass on: with fuel for the passes that remain it
    ends, by [sys.exit] on an oracle failure or normally; the host calls it
    made form a search trace, there is at most one oracle call per remaining
    value of the counter, and the beam carries the final time of the trace. *)
Lemma reduce_time_loop_trace env name r :
  forall fuel t s,
    search_inv name r t (TimeReductionSearch.world s) ->
    (Z.to_nat (TimeReductionSearch.max_reduce_time_iterations + 1
               - TimeReductionSearch.reduce_time_iteration s) <= fuel)%nat ->
    (exists e, TimeReductionSearch.reduce_time_loop fuel env name s
               = Some (Raise (SystemExit (failure_message e)))) \/
    (exists s' tr t_final b,
       TimeReductionSearch.reduce_time_loop fuel env name s = Some (Ret s') /\
       events (TimeReductionSearch.world s')
       = (events (TimeReductionSearch.world s) ++ tr)%list /\
       search_trace r t tr t_final /\
       (TimeReductionSearch.runs tr
        <= Z.to_nat (TimeReductionSearch.max_reduce_time_iterations + 1
                     - TimeReductionSearch.reduce_time_iteration s))%nat /\
       get_beam_settings (live (TimeReductionSearch.world s')) name = Some (r, b) /\
       MaxDeliveryTime b = Some t_final).
Proof.
  unfold TimeReductionSearch.max_reduce_time_iterations.
  induction fuel as [|fuel IH]; intros t s Hinv Hfuel.
  - right. destruct Hinv as [Hn [Hn' [[b [Hg Ht]] Hs]]].
    exists s, [], t, b. rewrite reduce_time_loop_done
      by (unfold TimeReductionSearch.max_reduce_time_iterations; lia).
    rewrite app_nil_r. repeat split; try assumption; [constructor|].
    cbn. lia.
  - destruct (Z.leb_spec (TimeReductionSearch.reduce_time_iteration s) 6) as [Hc|Hc].
    2:{ right. destruct Hinv as [Hn [Hn' [[b [Hg Ht]] Hs]]].
        exists s, [], t, b. rewrite reduce_time_loop_done
          by (unfold TimeReductionSearch.max_reduce_time_iterations; lia).
        rewrite app_nil_r. repeat split; try assumption; [constructor|].
        cbn. lia. }
    cbn [TimeReductionSearch.reduce_time_loop].
    unfold TimeReductionSearch.max_reduce_time_iterations.
    destruct (Z.leb_spec (TimeReductionSearch.reduce_time_iteration s) 6);
      [|lia].
    destruct (search_step_cases env s Hinv)
      as [[e He] | [[s1 [Hs1 [He1 [Hlt [Hi1 Hinv1]]]]] | [s1 [Hs1 [He1 [Hi1 Hb1]]]]]].
    + left. exists e. rewrite He. reflexivity.
    + rewrite Hs1.
      destruct (IH _ s1 Hinv1) as [[e He] | [s' [tr [tf [b [Hl [Hev [Htr [Hr [Hg Ht]]]]]]]]]].
      { rewrite Hi1. lia. }
      * left. exists e. exact He.
      * right. exists s', (EvRun :: EvDeliveryTime r ((9 # 10) * t) :: EvSave :: tr),
          tf, b.
        split; [exact Hl|]. split.
        { rewrite Hev, He1, <- app_assoc. reflexivity. }
        split; [apply trace_commit with (t' := (9 # 10) * t);
                [reflexivity|assumption|assumption]|].
        split; [|split; assumption].
        rewrite Hi1 in Hr. change (TimeReductionSearch.runs
                  (EvRun :: EvDeliveryTime r ((9 # 10) * t) :: EvSave :: tr))
          with (S (TimeReductionSearch.runs tr)). lia.
    + rewrite Hs1. right. destruct Hb1 as [b [Hg Ht]].
      exists s1, [EvRun; EvReload; EvDeliveryTime r t], t, b.
      split.
      { apply reduce_time_loop_done.
        unfold TimeReductionSearch.max_reduce_time_iterations in *. lia. }
      split; [exact He1|]. split; [constructor|].
      split; [|split; assumption].
      change (TimeReductionSearch.runs [EvRun; EvReload; EvDeliveryTime r t])
        with 1%nat. lia.
Qed.

(** C1.  In the time-reduction search every pass that commits a delivery
    time commits one strictly smaller than the one before, the first pass
    that does not reduce the time rolls back and is the last pass, and after
    it the beam carries the last committed time: the committed time never
    increases.  The loop ends for every oracle, normally or by [sys.exit] on
    an oracle failure. *)
Theorem time_reduction_monotone (env : Env) (name : string) (r : BeamRef)
        (t : Q) (s : TimeReductionSearch.SearchState) (fuel : nat) :
  search_inv name r t (TimeReductionSearch.world s) ->
  (Z.to_nat (7 - TimeReductionSearch.reduce_time_iteration s) <= fuel)%nat ->
  (exists e, TimeReductionSearch.reduce_time_loop fuel env name s
             = Some (Raise (SystemExit (failure_message e)))) \/
  (exists s' tr t_final b,
     TimeReductionSearch.reduce_time_loop fuel env name s = Some (Ret s') /\
     events (TimeReductionSearch.world s')
     = (events (TimeReductionSearch.world s) ++ tr)%list /\
     search_trace r t tr t_final /\
     t_final <= t /\
     get_beam_settings (live (TimeReductionSearch.world s')) name = Some (r, b) /\
     MaxDeliveryTime b = Some t_final).
Proof.
  intros Hinv Hfuel.
  destruct (@reduce_time_loop_trace env name r fuel t s Hinv Hfuel)
    as [H | [s' [tr [tf [b [H1 [H2 [H3 [_ [H5 H6]]]]]]]]]].
  - left. exact H.
  - right. exists s', tr, tf, b. repeat split; try assumption.
    exact (search_trace_le H3).
Qed.

Lemma time_reduction_monotone_witness :
  (exists e,
     TimeReductionSearch.reduce_time_loop 7 Samples.stalled "Tomo1"
       {| TimeReductionSearch.world := Samples.world_of (Samples.tomo_plan 1000 200);
          TimeReductionSearch.previous_objective_function := 200;
          TimeReductionSearch.reduce_time_iteration := 0 |}
     = Some (Raise (SystemExit (failure_message e)))) \/
  (exists s' tr t_final b,
     TimeReductionSearch.reduce_time_loop 7 Samples.stalled "Tomo1"
       {| TimeReductionSearch.world := Samples.world_of (Samples.tomo_plan 1000 200);
          TimeReductionSearch.previous_objective_function := 200;
          TimeReductionSearch.reduce_time_iteration := 0 |} = Some (Ret s') /\
     events (TimeReductionSearch.world s') = ([] ++ tr)%list /\
     search_trace (0%nat, 0%nat) 1000 tr t_final /\
     t_final <= 1000 /\
     get_beam_settings (live (TimeReductionSearch.world s')) "Tomo1"
     = Some ((0%nat, 0%nat), b) /\
     MaxDeliveryTime b = Some t_final).
Proof.
  apply (@time_reduction_monotone Samples.stalled "Tomo1"%string (0%nat, 0%nat)
           1000
           {| TimeReductionSearch.world :=
                Samples.world_of (Samples.tomo_plan 1000 200);
              TimeReductionSearch.previous_objective_function := 200;
              TimeReductionSearch.reduce_time_iteration := 0 |} 7%nat).
  - unfold search_inv. split; [reflexivity|]. split; [reflexivity|]. split.
    + exists (Samples.tomo_beam 1000). split; reflexivity.
    + exists (Samples.tomo_beam 1000), 1000. split; [reflexivity|].
      split; [reflexivity|]. apply Qle_refl.
  - vm_compute. apply le_n.
Defined.

(** At most seven passes: one per value 0, ..., 6 of the counter. *)
Lemma search_passes_bounded env name r t s fuel :
  search_inv name r t (TimeReductionSearch.world s) ->
  TimeReductionSearch.reduce_time_iteration s = 0%Z ->
  (7 <= fuel)%nat ->
  forall s',
    TimeReductionSearch.reduce_time_loop fuel env name s = Some (Ret s') ->
    exists tr,
      events (TimeReductionSearch.world s')
      = (events (TimeReductionSearch.world s) ++ tr)%list /\
      (TimeReductionSearch.runs tr <= 7)%nat.
Proof.
  intros Hinv H0 Hf s' Hs'.
  destruct (@reduce_time_loop_trace env name r fuel t s Hinv)
    as [[e He] | [s1 [tr [tf [b [H1 [H2 [_ [H4 _]]]]]]]]].
  - rewrite H0. exact Hf.
  - rewrite He in Hs'. discriminate.
  - rewrite H1 in Hs'. injection Hs' as <-. exists tr. split; [exact H2|].
    rewrite H0 in H4. exact H4.
Qed.

(** C9.  The cap is named [max_reduce_time_iterations = 6], but the loop
    runs while the counter, which starts at 0, is [<=] the cap: with an oracle
    that improves the objective at every call and a delivery time that stays
    above 60 seconds the loop body runs seven times. *)
Theorem search_runs_seven_passes :
  exists w,
    TimeReductionSearch.reduce_time_phase 7 (Samples.improving 2)
      (Samples.world_of (Samples.tomo_plan 1000 200)) = Some (Ret w) /\
    TimeReductionSearch.runs (events w) = 7%nat /\
    calls w = 7%nat.
Proof.
  eexists. split; [vm_compute; reflexivity|]. split; reflexivity.
Qed.

(** The search loop is entered with its invariant in force whenever the
    delivery time found on the first beam is not negative. *)
Lemma search_inv_after_init w name r b t :
  index (Model.Beams (live w)) 0 = Some name ->
  get_beam_settings (live w) name = Some (r, b) ->
  MaxDeliveryTime b = Some t ->
  0 <= t ->
  exists s,
    TimeReductionSearch.reduce_time_init w = Ret (name, s) /\
    TimeReductionSearch.reduce_time_iteration s = 0%Z /\
    search_inv name r ((9 # 10) * t) (TimeReductionSearch.world s).
Proof.
  intros Hn Hg Ht Hpos.
  unfold TimeReductionSearch.reduce_time_init.
  set (w2 := set_live (save w) (TimeReductionSearch.with_iterations (live (save w)) 30 5)).
  assert (Hn2 : index (Model.Beams (live w2)) 0 = Some name) by exact Hn.
  assert (Hg2 : get_beam_settings (live w2) name = Some (r, b)) by exact Hg.
  rewrite Hn2. cbn [of_option bind]. rewrite Hg2. cbn [of_option bind snd].
  rewrite Ht. cbn [of_option bind].
  rewrite (update_bypassed w2 _ _ false Hn2 Hg2 Ht). cbn [bind snd].
  eexists. split; [reflexivity|]. split; [reflexivity|].
  cbn [TimeReductionSearch.world]. unfold search_inv.
  split; [exact Hn2|]. split; [exact Hn|]. split.
  - exists (with_time ((9 # 10) * t) b). split; [|reflexivity].
    apply get_after_modify. exact Hg2.
  - exists b, t. split; [exact Hg|]. split; [exact Ht|]. lra.
Qed.

(** ** Constraint preparation *)

Lemma treat_margin_pass_keeps rois m bs j b :
  nth_error bs j = Some b -> 0 < BeamMU b ->
  nth_error (fst (treat_margin_pass rois m bs)) j = Some b.
Proof.
  revert j. induction bs as [|b0 tl IH]; intros [|j] Hj Hmu; try discriminate;
    cbn [treat_margin_pass]; destruct (treat_margin_pass rois m tl) as [tl' sel] eqn:E.
  - injection Hj as ->. rewrite (proj2 (Qltb_lt _ _) Hmu). reflexivity.
  - specialize (IH j Hj Hmu). cbn [fst] in IH.
    destruct (Qltb 0 (BeamMU b0)); exact IH.
Qed.

Lemma beam_split_pass_keeps allow bs j b :
  nth_error bs j = Some b -> 0 < BeamMU b ->
  nth_error (beam_split_pass allow bs) j = Some b.
Proof.
  intros Hj Hmu. unfold beam_split_pass. rewrite nth_error_map, Hj.
  cbn [option_map]. rewrite (proj2 (Qltb_lt _ _) Hmu). reflexivity.
Qed.

Lemma gantry_spacing_pass_keeps bs j b :
  nth_error bs j = Some b -> 0 < BeamMU b ->
  nth_error (fst (gantry_spacing_pass bs)) j = Some b.
Proof.
  revert j. induction bs as [|b0 tl IH]; intros j Hj Hmu;
    [destruct j; discriminate|].
  cbn [gantry_spacing_pass].
  destruct (gantry_spacing_pass tl) as [tl' restart] eqn:E.
  destruct j as [|j].
  - injection Hj as ->. rewrite (proj2 (Qltb_lt _ _) Hmu).
    destruct (FinalArcGantrySpacing b) as [sp|]; [|reflexivity].
    destruct (Qltb (2 # 1) sp); reflexivity.
  - specialize (IH j Hj Hmu). cbn [fst] in IH.
    destruct (FinalArcGantrySpacing b0) as [sp|]; [|exact IH].
    destruct (Qltb (2 # 1) sp); [|exact IH].
    destruct (Qltb 0 (BeamMU b0)); [exact Hj|exact IH].
Qed.

Lemma gantry_spacing_pass_restarts bs j b spacing :
  nth_error bs j = Some b -> 0 < BeamMU b ->
  FinalArcGantrySpacing b = Some spacing -> (2 # 1) < spacing ->
  snd (gantry_spacing_pass bs) = true.
Proof.
  revert j. induction bs as [|b0 tl IH]; intros j Hj Hmu Hs Hlt;
    [destruct j; discriminate|].
  cbn [gantry_spacing_pass].
  destruct (gantry_spacing_pass tl) as [tl' restart] eqn:E.
  destruct j as [|j].
  - injection Hj as ->. rewrite Hs, (proj2 (Qltb_lt _ _) Hlt),
      (proj2 (Qltb_lt _ _) Hmu). reflexivity.
  - specialize (IH j Hj Hmu Hs Hlt). cbn [snd] in IH. subst restart.
    destruct (FinalArcGantrySpacing b0) as [sp|]; [|reflexivity].
    destruct (Qltb (2 # 1) sp); [|reflexivity].
    destruct (Qltb 0 (BeamMU b0)); reflexivity.
Qed.

Lemma jaw_limit_pass_restarts check bs j b :
  refuses_delivered check ->
  nth_error bs j = Some b -> 0 < BeamMU b ->
  snd (jaw_limit_pass check bs) = true /\
  nth_error (fst (jaw_limit_pass check bs)) j = Some b.
Proof.
  intros Hc. revert j. induction bs as [|b0 tl IH]; intros j Hj Hmu;
    [destruct j; discriminate|].
  cbn [jaw_limit_pass].
  destruct (check jaw_limit b0) as [ok b0'] eqn:E0.
  destruct (jaw_limit_pass check tl) as [tl' restart] eqn:E.
  destruct j as [|j].
  - injection Hj as ->. rewrite (Hc jaw_limit b Hmu) in E0.
    injection E0 as <- <-. split; reflexivity.
  - destruct ok.
    + destruct (IH j Hj Hmu) as [H1 H2]. cbn [fst snd] in *. split; assumption.
    + split; [reflexivity|exact Hj].
Qed.

(** The body of the loop on a treatment setup that holds an offending beam:
    it asks for a restart and has not touched that beam. *)
Lemma prepare_setup_restarts check c ts j b :
  refuses_delivered check ->
  nth_error (BeamSettings ts) j = Some b ->
  offending c ts b ->
  snd (prepare_setup check c ts) = true /\
  nth_error (BeamSettings (fst (prepare_setup check c ts))) j = Some b.
Proof.
  intros Hc Hj [Hmu Hoff]. unfold prepare_setup.
  assert (Hm : nth_error
                 (fst (if use_treat_settings c
                       then treat_margin_pass (TreatRois ts) (margins c)
                                              (BeamSettings ts)
                       else (BeamSettings ts, []))) j = Some b).
  { destruct (use_treat_settings c);
      [apply treat_margin_pass_keeps; assumption | exact Hj]. }
  destruct (if use_treat_settings c
            then treat_margin_pass (TreatRois ts) (margins c) (BeamSettings ts)
            else (BeamSettings ts, [])) as [bs1 sel] eqn:E1.
  cbn [fst] in Hm.
  destruct Hoff as [[Htech [sp [Hsp Hlt]]] | [Huse [Hmach Htech]]].
  - (* gantry spacing *)
    rewrite Htech. cbn [String.eqb Ascii.eqb Bool.eqb].
    pose proof (@gantry_spacing_pass_restarts _ _ _ _ Hm Hmu Hsp Hlt) as Hr.
    pose proof (@gantry_spacing_pass_keeps _ _ _ Hm Hmu) as Hk.
    destruct (gantry_spacing_pass bs1) as [bs2 restart]. cbn [fst snd] in *.
    subst restart. split; [reflexivity|exact Hk].
  - destruct Htech as [Htech | Htech]; rewrite Htech, Hmach, Huse;
      cbn [String.eqb Ascii.eqb Bool.eqb andb].
    + (* static MLC, jaw limits *)
      pose proof (@beam_split_pass_keeps false _ _ _ Hm Hmu) as Hs.
      destruct (@jaw_limit_pass_restarts _ _ _ _ Hc Hs Hmu) as [Hr Hk].
      destruct (jaw_limit_pass check (beam_split_pass false bs1)) as [bs3 restart].
      cbn [fst snd] in *. subst restart. split; [reflexivity|exact Hk].
    + (* dynamic arc, jaw limits *)
      pose proof (@gantry_spacing_pass_keeps _ _ _ Hm Hmu) as Hk.
      destruct (gantry_spacing_pass bs1) as [bs2 restart]. cbn [fst] in Hk.
      destruct restart; [split; [reflexivity|exact Hk]|].
      destruct (@jaw_limit_pass_restarts _ _ _ _ Hc Hk Hmu) as [Hr Hk'].
      destruct (jaw_limit_pass check bs2) as [bs3 restart].
      cbn [fst snd] in *. subst restart. split; [reflexivity|exact Hk'].
Qed.

Lemma prepare_constraints_restarts check c tss i j ts b :
  refuses_delivered check ->
  nth_error tss i = Some ts ->
  nth_error (BeamSettings ts) j = Some b ->
  offending c ts b ->
  snd (prepare_constraints check c tss) = true /\
  beam_at (fst (prepare_constraints check c tss)) (i, j) = Some b.
Proof.
  intros Hc. revert i. induction tss as [|ts0 tl IH]; intros i Hi Hj Hoff;
    [destruct i; discriminate|].
  cbn [prepare_constraints].
  destruct (prepare_setup check c ts0) as [ts0' restart0] eqn:E0.
  destruct (prepare_constraints check c tl) as [tl' restart] eqn:E.
  destruct i as [|i].
  - injection Hi as ->.
    destruct (@prepare_setup_restarts _ _ _ _ _ Hc Hj Hoff) as [Hr Hk].
    rewrite E0 in Hr, Hk. cbn [fst snd] in *. subst restart0.
    split; [reflexivity|]. unfold beam_at. cbn. exact Hk.
  - destruct restart0.
    + split; [reflexivity|]. unfold beam_at. cbn [fst snd nth_error].
      cbn in Hi. rewrite Hi. exact Hj.
    + destruct (IH i Hi Hj Hoff) as [H1 H2]. cbn [fst snd] in *.
      split; [exact H1|]. unfold beam_at in *. cbn [fst snd nth_error] in *.
      exact H2.
Qed.

Lemma runs_app l1 l2 :
  TimeReductionSearch.runs (l1 ++ l2)
  = (TimeReductionSearch.runs l1 + TimeReductionSearch.runs l2)%nat.
Proof.
  unfold TimeReductionSearch.runs. rewrite filter_app, length_app. reflexivity.
Qed.

Lemma schedule_total c : exists grid, Driver.schedule c = Ret grid.
Proof.
  unfold Driver.schedule. destruct (Driver.vary_grid c); [|eauto].
  unfold make_variable_grid_list.
  destruct (Driver.n_iterations c =? 1)%Z; [cbn; eauto|].
  destruct (Driver.n_iterations c =? 2)%Z; [cbn; eauto|].
  destruct (Driver.n_iterations c =? 3)%Z; [cbn; eauto|].
  destruct (Driver.n_iterations c =? 4)%Z; [cbn; eauto|].
  rewrite (mapM_map _ (scheduled (Driver.n_iterations c) (Driver.dose_dim1 c)
                         (Driver.dose_dim2 c) (Driver.dose_dim3 c)
                         (Driver.dose_dim4 c))).
  - cbn. eauto.
  - intros x _. apply grid_entry_scheduled.
Qed.

Lemma initial_objective_readable p :
  readable p -> exists x, Driver.initial_objective p = Ret x.
Proof.
  unfold readable, Driver.initial_objective, parse_culmulative_objective_value.
  destruct (ProgressOfOptimization p) as [pr|]; [|eauto].
  intros H. cbn [of_option bind].
  destruct (last_elem_app [] H) as [v Hv]. cbn [app] in Hv. rewrite Hv.
  cbn. eauto.
Qed.

(** Nothing before the technique dispatch calls the oracle. *)
Lemma before_preparation_quiet env c w :
  calls (Driver.before_preparation env c w) = calls w /\
  TimeReductionSearch.runs (events (Driver.before_preparation env c w))
  = TimeReductionSearch.runs (events w).
Proof.
  unfold Driver.before_preparation, Driver.initialize_dose_grid.
  destruct (negb (Driver.fluence_only c) && Driver.vary_grid c);
    cbn [set_live live IterationDriver.SetDefaultDoseGrid emit save
         TimeReductionSearch.with_iterations IterationDriver.with_voxel VoxelSize
         events calls saved];
    destruct (VoxelSize (live w)) as [v|];
    try destruct (Driver.approximate_lte _ _);
    destruct (Driver.reset_beams c);
    cbn [set_live live IterationDriver.SetDefaultDoseGrid emit save
         events calls saved];
    rewrite ?runs_app; cbn; split; try reflexivity; lia.
Qed.

(** C2, as stated, fails: with [fluence_only] the technique dispatch is
    skipped, and a dynamic arc that carries 120 MU at a final gantry spacing
    of 4 degrees on a TrueBeamSTx goes to the oracle all the same. *)
Lemma restart_fatality_counterexample :
  offending (Driver.prep Samples.fluence_run)
            (Samples.arc_setup "TrueBeamSTx"
               [Samples.arc_beam "Arc1" 0 4; Samples.optimized_arc])
            Samples.optimized_arc /\
  exists w',
    Driver.optimize_plan check_beam_limits_spec (Samples.improving 2)
      Samples.fluence_run 10 (Samples.world_of Samples.arc_plan)
    = Some (Ret (Driver.Completed, w')) /\
    events w' = [EvSave; EvRun].
Proof.
  split.
  - split; [reflexivity|]. left. split; [reflexivity|].
    exists 4. split; reflexivity.
  - eexists. split; [vm_compute; reflexivity|reflexivity].
Qed.

(** C2, amended.  When the technique dispatch runs ([fluence_only] off, the
    script not stopped before it) and finds, in a static-MLC or dynamic-arc
    treatment setup, a beam with [BeamMU > 0] that exceeds the 2 degree
    gantry-spacing cap (dynamic arc) or whose jaws are to be limited
    (TrueBeamSTx, treat settings in use, [check_beam_limits] refusing beams
    that carry MU), [optimize_plan] returns the restart-required message
    without any oracle call and with that beam's settings as they were. *)
Theorem restart_before_oracle (check : CheckBeamLimits) (env : Env)
        (c : Driver.Config) (fuel : nat) (w : World) (i j : nat)
        (ts : TreatmentSetup) (b : BeamSetting) :
  refuses_delivered check ->
  Driver.fluence_only c = false ->
  (Driver.reduce_time c = true -> Driver.patients c = 1%nat) ->
  readable (live (Driver.before_preparation env c w)) ->
  nth_error (TreatmentSetupSettings (live (Driver.before_preparation env c w))) i
  = Some ts ->
  nth_error (BeamSettings ts) j = Some b ->
  offending (Driver.prep c) ts b ->
  exists w',
    Driver.optimize_plan check env c fuel w
    = Some (Ret (Driver.Failed restart_required, w')) /\
    calls w' = calls w /\
    TimeReductionSearch.runs (events w') = TimeReductionSearch.runs (events w) /\
    beam_at (TreatmentSetupSettings (live w')) (i, j) = Some b.
Proof.
  intros Hc Hf Hp Hr Hi Hj Hoff. unfold Driver.optimize_plan.
  assert (Hpat : Driver.reduce_time c && negb (Nat.eqb (Driver.patients c) 1)
                 = false).
  { destruct (Driver.reduce_time c); [|reflexivity].
    rewrite (Hp eq_refl). reflexivity. }
  rewrite Hpat, Hf.
  destruct (schedule_total c) as [grid ->].
  destruct (@initial_objective_readable _ Hr) as [[current history0] ->].
  destruct (@prepare_constraints_restarts check (Driver.prep c) _ i j ts b
              Hc Hi Hj Hoff) as [Hrestart Hkept].
  destruct (prepare_constraints check (Driver.prep c)
              (TreatmentSetupSettings (live (Driver.before_preparation env c w))))
    as [tss restart].
  cbn [fst snd] in Hrestart, Hkept. subst restart.
  eexists. split; [reflexivity|].
  destruct (before_preparation_quiet env c w) as [Hcalls Hruns].
  split; [exact Hcalls|]. split; [exact Hruns|exact Hkept].
Qed.

Lemma restart_before_oracle_witness :
  exists w',
    Driver.optimize_plan check_beam_limits_spec (Samples.improving 2)
      Samples.three_iterations 10 (Samples.world_of Samples.arc_plan)
    = Some (Ret (Driver.Failed restart_required, w')) /\
    calls w' = 0%nat /\
    TimeReductionSearch.runs (events w') = 0%nat /\
    beam_at (TreatmentSetupSettings (live w')) (0%nat, 1%nat)
    = Some Samples.optimized_arc.
Proof.
  apply (@restart_before_oracle check_beam_limits_spec (Samples.improving 2)
           Samples.three_iterations 10 (Samples.world_of Samples.arc_plan)
           0 1 (Samples.arc_setup "TrueBeamSTx"
                  [Samples.arc_beam "Arc1" 0 4; Samples.optimized_arc])
           Samples.optimized_arc).
  - intros limit b Hmu. unfold check_beam_limits_spec.
    rewrite (proj2 (Qltb_lt _ _) Hmu). reflexivity.
  - reflexivity.
  - discriminate.
  - exact I.
  - reflexivity.
  - reflexivity.
  - split; [reflexivity|]. left. split; [reflexivity|].
    exists 4. split; reflexivity.
Defined.

(** * Further properties of the code *)

(** ** The grid schedule, all iteration counts *)

Lemma last_elem_snoc {A : Type} (l : list A) (x : A) :
  last_elem (l ++ [x]) = Some x.
Proof.
  induction l as [|y tl IH]; [reflexivity|].
  cbn [app last_elem]. destruct (tl ++ [x])%list eqn:E; [|exact IH].
  destruct tl; discriminate.
Qed.

Lemma range_succ (k : nat) :
  range (Z.of_nat (S k)) = (range (Z.of_nat k) ++ [Z.of_nat k])%list.
Proof.
  unfold range. rewrite !Nat2Z.id, seq_S, map_app. reflexivity.
Qed.

(** X1.  Under the dict the driver builds, the schedule has one entry per
    iteration for every iteration count (none for a count of zero or less);
    from one iteration on its last entry is [dose_dim4], and from two
    iterations on its first entry is [dose_dim1]. *)
Theorem schedule_ends_on_finest (n : Z) (d1 d2 d3 d4 : Q) :
  exists l,
    make_variable_grid_list n (variable_dose_grid n d1 d2 d3 d4) = Some l /\
    List.length l = Z.to_nat n /\
    ((1 <= n)%Z -> last_elem l = Some d4) /\
    ((2 <= n)%Z -> nth_error l 0 = Some d1).
Proof.
  destruct (Z_le_gt_dec n 4) as [Hsmall|Hbig].
  - destruct (Z_le_gt_dec n 0) as [Hneg|Hpos].
    + exists []. unfold make_variable_grid_list.
      destruct (Z.eqb_spec n 1); [lia|]. destruct (Z.eqb_spec n 2); [lia|].
      destruct (Z.eqb_spec n 3); [lia|]. destruct (Z.eqb_spec n 4); [lia|].
      unfold range. replace (Z.to_nat n) with 0%nat by lia.
      repeat split; try reflexivity; lia.
    + assert (Hn : n = 1%Z \/ n = 2%Z \/ n = 3%Z \/ n = 4%Z) by lia.
      destruct Hn as [-> | [-> | [-> | ->]]]; eexists;
        (split; [reflexivity|]); repeat split; try reflexivity; lia.
  - assert (Hn : (4 < n)%Z) by lia.
    destruct (checkpoints_ordered Hn) as [Q2 [Q4 [O1 [O2 O3]]]].
    exists (map (scheduled n d1 d2 d3 d4) (range n)).
    split; [apply long_schedule; assumption|].
    split; [unfold range; rewrite !length_map, length_seq; reflexivity|].
    split.
    + intros _. replace n with (Z.of_nat (S (Z.to_nat (n - 1)))) at 2 by lia.
      rewrite range_succ, map_app. cbn [map]. rewrite last_elem_snoc.
      f_equal. rewrite Z2Nat.id by lia. unfold scheduled. rewrite Q2, Q4.
      destruct (Z.eqb_spec (n - 1) 0); [lia|].
      destruct (Z.eqb_spec (n - 1) (n / 2)); [lia|].
      destruct (Z.eqb_spec (n - 1) (3 * n / 4)); [lia|].
      rewrite Z.eqb_refl. reflexivity.
    + intros _. rewrite nth_error_map, nth_error_range by lia. reflexivity.
Qed.

Lemma schedule_ends_on_finest_witness :
  exists l,
    make_variable_grid_list 9 (variable_dose_grid 9 (5 # 10) (4 # 10) (3 # 10) (2 # 10))
    = Some l /\
    last_elem l = Some (2 # 10) /\ nth_error l 0 = Some (5 # 10).
Proof.
  destruct (schedule_ends_on_finest 9 (5 # 10) (4 # 10) (3 # 10) (2 # 10))
    as [l [H1 [_ [H3 H4]]]].
  exists l. split; [exact H1|]. split; [apply H3; lia|apply H4; lia].
Defined.

(** ** The warm-start loop, any number of passes *)

(** X2.  The loop condition is [optimization_iteration != maximum_iteration]:
    once the iteration count is above the maximum (as it is from the start
    for a negative [n_iterations]) the loop never ends normally, whatever the
    oracle does: it runs until something raises. *)
Theorem overshot_loop_never_finishes (env : Env) (c : IterationDriver.LoopConfig) :
  forall (fuel : nat) (s s' : IterationDriver.LoopState),
    (IterationDriver.maximum_iteration s
     < IterationDriver.optimization_iteration s)%Z ->
    IterationDriver.iteration_driver fuel env c s <> Some (Ret s').
Proof.
  induction fuel as [|fuel IH]; intros s s' Hlt;
    cbn [IterationDriver.iteration_driver];
    destruct (Z.eqb_spec (IterationDriver.optimization_iteration s)
                         (IterationDriver.maximum_iteration s)); try lia;
    [discriminate|].
  destruct (IterationDriver.driver_step env c s) as [s1|e] eqn:E; [|discriminate].
  destruct (driver_step_counters _ _ _ E) as [H1 [H2 | [H2 _]]]; [|lia].
  apply IH. lia.
Qed.

Lemma overshot_loop_never_finishes_witness :
  match
    IterationDriver.iteration_driver 50 (Samples.improving 2)
      Samples.reduce_modulation
      {| IterationDriver.world := Samples.world_of (Samples.tomo_plan 600 7);
         IterationDriver.optimization_iteration := 0;
         IterationDriver.maximum_iteration := -2;
         IterationDriver.prior_history := None;
         IterationDriver.previous_objective_function := sentinel;
         IterationDriver.current_objective_function := 0 |}
  with
  | Some (Ret _) => False
  | _ => True
  end.
Proof.
  pose proof (@overshot_loop_never_finishes (Samples.improving 2)
                Samples.reduce_modulation 50
                {| IterationDriver.world := Samples.world_of (Samples.tomo_plan 600 7);
                   IterationDriver.optimization_iteration := 0;
                   IterationDriver.maximum_iteration := -2;
                   IterationDriver.prior_history := None;
                   IterationDriver.previous_objective_function := sentinel;
                   IterationDriver.current_objective_function := 0 |}) as H.
  destruct (IterationDriver.iteration_driver _ _ _ _) as [[s'|e]|];
    try exact I.
  apply (H s'); [vm_compute; reflexivity|reflexivity].
Defined.

(** One pass without modulation reduction, whatever the schedule says. *)
Lemma driver_step_plain env c s pr fv mf :
  IterationDriver.reduce_mod c = false ->
  (IterationDriver.vary_grid c = true ->
   exists g, index (IterationDriver.change_dose_grid c)
                   (Z.to_nat (IterationDriver.optimization_iteration s)) = Some g) ->
  readable (live (IterationDriver.world s)) ->
  oracle env (calls (IterationDriver.world s)) = Converged pr fv mf ->
  ObjectiveValues pr <> [] ->
  exists s',
    IterationDriver.driver_step env c s = Ret s' /\
    calls (IterationDriver.world s') = S (calls (IterationDriver.world s)) /\
    TimeReductionSearch.runs (events (IterationDriver.world s'))
    = S (TimeReductionSearch.runs (events (IterationDriver.world s))) /\
    IterationDriver.optimization_iteration s'
    = (IterationDriver.optimization_iteration s + 1)%Z /\
    IterationDriver.maximum_iteration s' = IterationDriver.maximum_iteration s /\
    readable (live (IterationDriver.world s')).
Proof.
  intros Hm Hg Hr Ho Hne.
  unfold IterationDriver.driver_step.
  destruct (@record_previous_readable _ (IterationDriver.prior_history s) Hr)
    as [v [h ->]].
  cbn [bind].
  assert (Hw1 : exists w1,
             IterationDriver.grid_adjust c (IterationDriver.world s)
               (IterationDriver.optimization_iteration s) = Ret w1 /\
             calls w1 = calls (IterationDriver.world s) /\
             TimeReductionSearch.runs (events w1)
             = TimeReductionSearch.runs (events (IterationDriver.world s))).
  { unfold IterationDriver.grid_adjust.
    destruct (IterationDriver.vary_grid c); [|eauto].
    destruct (Hg eq_refl) as [g ->]. cbn [of_option bind].
    destruct (Qneqb g 0); [|eauto].
    eexists. split; [reflexivity|]. split; [reflexivity|].
    cbn [IterationDriver.SetDefaultDoseGrid emit events set_live].
    rewrite runs_app. cbn. lia. }
  destruct Hw1 as [w1 [-> [Hc1 He1]]]. cbn [bind].
  unfold IterationDriver.modulation_adjust. rewrite Hm. cbn [bind].
  unfold run_optimization. cbv zeta. rewrite Hc1, Ho. cbn [success fst snd negb].
  unfold record_current, parse_culmulative_objective_value.
  cbn [RunOptimization set_live live ProgressOfOptimization
       TimeReductionSearch.with_iterations of_option bind].
  assert (Hruns : TimeReductionSearch.runs (events (emit w1 EvRun))
                  = S (TimeReductionSearch.runs
                         (events (IterationDriver.world s)))).
  { cbn [emit events]. rewrite runs_app, He1. cbn. lia. }
  assert (Hfin : forall x hh,
            exists s',
              Ret {| IterationDriver.world :=
                       set_live (RunOptimization (Converged pr fv mf) w1)
                         (TimeReductionSearch.with_iterations
                            (live (RunOptimization (Converged pr fv mf) w1))
                            (IterationDriver.second_maximum_iteration c)
                            (IterationDriver.second_intermediate_iteration c));
                     IterationDriver.optimization_iteration :=
                       IterationDriver.optimization_iteration s + 1;
                     IterationDriver.maximum_iteration :=
                       IterationDriver.maximum_iteration s;
                     IterationDriver.prior_history := hh;
                     IterationDriver.previous_objective_function := x;
                     IterationDriver.current_objective_function := x |}
              = Ret s' /\
              calls (IterationDriver.world s')
              = S (calls (IterationDriver.world s)) /\
              TimeReductionSearch.runs (events (IterationDriver.world s'))
              = S (TimeReductionSearch.runs (events (IterationDriver.world s))) /\
              IterationDriver.optimization_iteration s'
              = (IterationDriver.optimization_iteration s + 1)%Z /\
              IterationDriver.maximum_iteration s'
              = IterationDriver.maximum_iteration s /\
              readable (live (IterationDriver.world s'))).
  { intros x hh. eexists. split; [reflexivity|].
    split; [cbn; rewrite Hc1; reflexivity|].
    split; [exact Hruns|]. split; [reflexivity|]. split; [reflexivity|].
    exact Hne. }
  destruct (Iterations pr).
  - destruct h as [h|]; cbn [bind].
    + destruct (last_elem_app h Hne) as [x ->]. cbn [of_option bind].
      apply Hfin.
    + destruct (last_elem_app [] Hne) as [x Hx]. cbn [app] in Hx. rewrite Hx.
      cbn [of_option bind]. apply Hfin.
  - apply Hfin.
Qed.

(** X3.  Without modulation reduction the warm-start loop has no early exit:
    with [k] passes left, an oracle that succeeds [k] times and a schedule
    that covers them, it ends after exactly [k] oracle calls, for every
    amount of fuel from [k] on. *)
Theorem warm_start_runs_every_pass (env : Env) (c : IterationDriver.LoopConfig) :
  forall (k : nat) (s : IterationDriver.LoopState) (fuel : nat),
    IterationDriver.reduce_mod c = false ->
    (IterationDriver.vary_grid c = true ->
     (Z.to_nat (IterationDriver.optimization_iteration s) + k
      <= List.length (IterationDriver.change_dose_grid c))%nat) ->
    (0 <= IterationDriver.optimization_iteration s)%Z ->
    IterationDriver.maximum_iteration s
    = (IterationDriver.optimization_iteration s + Z.of_nat k)%Z ->
    readable (live (IterationDriver.world s)) ->
    (forall j, (j < k)%nat ->
       exists pr fv mf,
         oracle env (calls (IterationDriver.world s) + j) = Converged pr fv mf /\
         ObjectiveValues pr <> []) ->
    (k <= fuel)%nat ->
    exists s',
      IterationDriver.iteration_driver fuel env c s = Some (Ret s') /\
      calls (IterationDriver.world s') = (calls (IterationDriver.world s) + k)%nat /\
      TimeReductionSearch.runs (events (IterationDriver.world s'))
      = (TimeReductionSearch.runs (events (IterationDriver.world s)) + k)%nat /\
      IterationDriver.optimization_iteration s'
      = IterationDriver.maximum_iteration s.
Proof.
  induction k as [|k IH]; intros s fuel Hm Hg Hpos Hmax Hr Ho Hf.
  - exists s. split; [apply iteration_driver_done; lia|].
    repeat split; lia.
  - destruct fuel as [|fuel]; [lia|].
    destruct (Ho 0%nat ltac:(lia)) as [pr [fv [mf [O0 N0]]]].
    rewrite Nat.add_0_r in O0.
    destruct (@driver_step_plain env c s pr fv mf Hm) as
      [s1 [S1 [C1 [R1 [I1 [M1 Rd1]]]]]]; try assumption.
    { intros Hv. specialize (Hg Hv).
      destruct (nth_error (IterationDriver.change_dose_grid c)
                  (Z.to_nat (IterationDriver.optimization_iteration s)))
        as [g|] eqn:E; [exists g; exact E|].
      apply nth_error_None in E. lia. }
    rewrite (@iteration_driver_next fuel env c s s1); [|lia|exact S1].
    destruct (IH s1 fuel Hm) as [s' [H1 [H2 [H3 H4]]]]; try assumption; try lia.
    + intros Hv. specialize (Hg Hv). rewrite I1. lia.
    + intros j Hj. destruct (Ho (S j) ltac:(lia)) as [p [f [m [O N]]]].
      exists p, f, m. split; [|exact N].
      rewrite C1. replace (S (calls (IterationDriver.world s)) + j)%nat
        with (calls (IterationDriver.world s) + S j)%nat by lia. exact O.
    + exists s'. split; [exact H1|]. repeat split; lia.
Qed.

Lemma warm_start_runs_every_pass_witness :
  exists s',
    IterationDriver.iteration_driver 5 (Samples.improving 2)
      (Driver.loop_config Samples.fluence_run [])
      {| IterationDriver.world := Samples.world_of (Samples.tomo_plan 100 7);
         IterationDriver.optimization_iteration := 0;
         IterationDriver.maximum_iteration := 5;
         IterationDriver.prior_history := None;
         IterationDriver.previous_objective_function := sentinel;
         IterationDriver.current_objective_function := 0 |} = Some (Ret s') /\
    calls (IterationDriver.world s') = 5%nat.
Proof.
  destruct (@warm_start_runs_every_pass (Samples.improving 2)
              (Driver.loop_config Samples.fluence_run []) 5
              {| IterationDriver.world := Samples.world_of (Samples.tomo_plan 100 7);
                 IterationDriver.optimization_iteration := 0;
                 IterationDriver.maximum_iteration := 5;
                 IterationDriver.prior_history := None;
                 IterationDriver.previous_objective_function := sentinel;
                 IterationDriver.current_objective_function := 0 |} 5)
    as [s' [H1 [H2 _]]].
  - reflexivity.
  - discriminate.
  - cbn. lia.
  - reflexivity.
  - exact I.
  - intros j _. do 3 eexists. split; [reflexivity|]. discriminate.
  - lia.
  - exists s'. split; [exact H1|exact H2].
Defined.

(** ** The objective history *)

Lemma record_previous_extends p prior v h :
  record_previous p prior = Ret (v, h) ->
  exists ext, history h = (history prior ++ ext)%list.
Proof.
  unfold record_previous, parse_culmulative_objective_value.
  destruct (ProgressOfOptimization p) as [pr|].
  - destruct (Iterations pr).
    + cbn [of_option bind].
      destruct prior as [h0|]; cbn [bind];
        match goal with
        | |- context [last_elem ?l] => destruct (last_elem l)
        end; cbn [of_option bind]; try discriminate;
        intros H; injection H as _ <-; eexists; reflexivity.
    + intros H. injection H as _ <-. exists []. rewrite app_nil_r. reflexivity.
  - intros H. injection H as _ <-. exists []. rewrite app_nil_r. reflexivity.
Qed.

Lemma record_current_extends p prior cur v h :
  record_current p prior cur = Ret (v, h) ->
  exists ext, history h = (history prior ++ ext)%list.
Proof.
  unfold record_current, parse_culmulative_objective_value.
  destruct (ProgressOfOptimization p) as [pr|]; [|discriminate].
  cbn [of_option bind]. destruct (Iterations pr).
  - destruct prior as [h0|]; cbn [bind];
      match goal with
      | |- context [last_elem ?l] => destruct (last_elem l)
      end; cbn [of_option bind]; try discriminate;
      intros H; injection H as _ <-; eexists; reflexivity.
  - intros H. injection H as _ <-. exists []. rewrite app_nil_r. reflexivity.
Qed.

Lemma driver_step_extends env c s s' :
  IterationDriver.driver_step env c s = Ret s' ->
  exists ext,
    history (IterationDriver.prior_history s')
    = (history (IterationDriver.prior_history s) ++ ext)%list.
Proof.
  unfold IterationDriver.driver_step.
  destruct (record_previous _ _) as [[previous h1]|e] eqn:E1; [|discriminate].
  cbn [bind].
  destruct (IterationDriver.grid_adjust c _ _) as [w1|e]; [|discriminate].
  cbn [bind].
  destruct (IterationDriver.modulation_adjust c w1 _ _) as [[w2 m]|e];
    [|discriminate].
  cbn [bind]. destruct (run_optimization env w2) as [r w3].
  destruct (negb (success r)); [discriminate|].
  destruct (record_current _ _ _) as [[current h2]|e] eqn:E2; [|discriminate].
  cbn [bind]. intros H. injection H as <-. cbn [IterationDriver.prior_history].
  destruct (record_previous_extends _ _ E1) as [ext1 H1].
  destruct (record_current_extends _ _ _ E2) as [ext2 H2].
  exists (ext1 ++ ext2)%list. rewrite H2, H1, app_assoc. reflexivity.
Qed.

(** X4.  The objective history is append-only: when the warm-start loop
    ends, the history it holds starts with the history it was entered
    with. *)
Theorem history_only_grows (env : Env) (c : IterationDriver.LoopConfig) :
  forall (fuel : nat) (s s' : IterationDriver.LoopState),
    IterationDriver.iteration_driver fuel env c s = Some (Ret s') ->
    exists ext,
      history (IterationDriver.prior_history s')
      = (history (IterationDriver.prior_history s) ++ ext)%list.
Proof.
  induction fuel as [|fuel IH]; intros s s';
    cbn [IterationDriver.iteration_driver];
    destruct (IterationDriver.optimization_iteration s
              =? IterationDriver.maximum_iteration s)%Z;
    try discriminate;
    try (intros H; injection H as <-; exists []; rewrite app_nil_r; reflexivity).
  destruct (IterationDriver.driver_step env c s) as [s1|e] eqn:E; [|discriminate].
  intros H. destruct (IH _ _ H) as [ext2 H2].
  destruct (driver_step_extends _ _ _ E) as [ext1 H1].
  exists (ext1 ++ ext2)%list. rewrite H2, H1, app_assoc. reflexivity.
Qed.

Lemma history_only_grows_witness :
  exists s' ext,
    IterationDriver.iteration_driver 2 (Samples.improving 2)
      (Driver.loop_config Samples.fluence_run [])
      {| IterationDriver.world := Samples.world_of (Samples.tomo_plan 100 7);
         IterationDriver.optimization_iteration := 0;
         IterationDriver.maximum_iteration := 2;
         IterationDriver.prior_history := Some [120 # 1];
         IterationDriver.previous_objective_function := sentinel;
         IterationDriver.current_objective_function := 0 |} = Some (Ret s') /\
    history (IterationDriver.prior_history s') = ([120 # 1] ++ ext)%list.
Proof.
  eexists. 
  destruct (@history_only_grows (Samples.improving 2)
              (Driver.loop_config Samples.fluence_run []) 2
              {| IterationDriver.world := Samples.world_of (Samples.tomo_plan 100 7);
                 IterationDriver.optimization_iteration := 0;
                 IterationDriver.maximum_iteration := 2;
                 IterationDriver.prior_history := Some [120 # 1];
                 IterationDriver.previous_objective_function := sentinel;
                 IterationDriver.current_objective_function := 0 |}
              _ ltac:(vm_compute; reflexivity)) as [ext H].
  exists ext. split; [vm_compute; reflexivity|exact H].
Defined.

(** X5.  A pass that starts with progress data and ends with the oracle's new
    data appends both arrays: the objective values present when the pass
    starts (which the pass before has appended already) and the values the
    oracle leaves. *)
Theorem pass_appends_both_arrays (env : Env) (c : IterationDriver.LoopConfig)
        (s s' : IterationDriver.LoopState) (pr0 pr1 : Progress)
        (its0 its1 : list Z) (fv mf : Q) :
  ProgressOfOptimization (live (IterationDriver.world s)) = Some pr0 ->
  Iterations pr0 = Some its0 ->
  oracle env (calls (IterationDriver.world s)) = Converged pr1 fv mf ->
  Iterations pr1 = Some its1 ->
  IterationDriver.driver_step env c s = Ret s' ->
  IterationDriver.prior_history s'
  = Some (history (IterationDriver.prior_history s)
            ++ ObjectiveValues pr0 ++ ObjectiveValues pr1)%list.
Proof.
  intros Hp0 Hi0 Ho Hi1. unfold IterationDriver.driver_step.
  unfold record_previous, parse_culmulative_objective_value.
  rewrite Hp0, Hi0. cbn [of_option bind].
  assert (Hh : (match IterationDriver.prior_history s with
                | Some h => Ret (h ++ ObjectiveValues pr0)%list
                | None => Ret (ObjectiveValues pr0)
                end)
               = Ret (history (IterationDriver.prior_history s)
                        ++ ObjectiveValues pr0)%list).
  { destruct (IterationDriver.prior_history s); reflexivity. }
  rewrite Hh. cbn [bind].
  destruct (last_elem _) as [v|]; [|discriminate]. cbn [of_option bind].
  destruct (IterationDriver.grid_adjust c _ _) as [w1|e] eqn:Eg; [|discriminate].
  cbn [bind].
  destruct (IterationDriver.modulation_adjust c w1 _ _) as [[w2 m]|e] eqn:Em;
    [|discriminate].
  cbn [bind]. unfold run_optimization. cbv zeta.
  rewrite (modulation_adjust_calls _ _ _ _ Em), (grid_adjust_calls _ _ _ Eg), Ho.
  cbn [success fst snd negb].
  unfold record_current, parse_culmulative_objective_value.
  cbn [RunOptimization set_live live ProgressOfOptimization
       TimeReductionSearch.with_iterations of_option bind].
  rewrite Hi1. cbn [bind].
  destruct (last_elem _) as [x|]; [|discriminate]. cbn [of_option bind].
  intros H. injection H as <-. cbn [IterationDriver.prior_history].
  rewrite <- app_assoc. reflexivity.
Qed.

Lemma pass_appends_both_arrays_witness :
  exists s',
    IterationDriver.driver_step Samples.stalled
      (Driver.loop_config Samples.fluence_run [])
      {| IterationDriver.world :=
           Samples.world_of
             (Samples.plan_of [] [] (Some (Samples.progress_of [8 # 1])) 8);
         IterationDriver.optimization_iteration := 1;
         IterationDriver.maximum_iteration := 2;
         IterationDriver.prior_history := Some [8 # 1];
         IterationDriver.previous_objective_function := sentinel;
         IterationDriver.current_objective_function := 8 |} = Ret s' /\
    IterationDriver.prior_history s' = Some [8 # 1; 8 # 1; 100].
Proof.
  eexists. split; [vm_compute; reflexivity|].
  apply (@pass_appends_both_arrays Samples.stalled
           (Driver.loop_config Samples.fluence_run [])
           {| IterationDriver.world :=
                Samples.world_of
                  (Samples.plan_of [] [] (Some (Samples.progress_of [8 # 1])) 8);
              IterationDriver.optimization_iteration := 1;
              IterationDriver.maximum_iteration := 2;
              IterationDriver.prior_history := Some [8 # 1];
              IterationDriver.previous_objective_function := sentinel;
              IterationDriver.current_objective_function := 8 |}
           _ (Samples.progress_of [8 # 1]) (Samples.progress_of [100])
           [1%Z] [1%Z] 100 2 eq_refl eq_refl eq_refl eq_refl).
  vm_compute. reflexivity.
Defined.

(** ** Beam lookup *)

Lemma find_name_some name bs k j :
  find_name name bs k = Some j ->
  (k <= j)%nat /\
  exists b, nth_error bs (j - k) = Some b /\ Name b = name /\
            forall j' b', (j' < j - k)%nat -> nth_error bs j' = Some b' ->
                          Name b' <> name.
Proof.
  revert k. induction bs as [|b0 tl IH]; intros k; cbn [find_name];
    [discriminate|].
  destruct (String.eqb (Name b0) name) eqn:E.
  - intros H. injection H as <-. split; [lia|]. exists b0.
    rewrite Nat.sub_diag. split; [reflexivity|].
    split; [apply String.eqb_eq; exact E|]. intros j' b' Hj. lia.
  - intros H. destruct (IH _ H) as [Hle [b [Hb [Hn Hfirst]]]].
    split; [lia|]. exists b.
    replace (j - k)%nat with (S (j - S k)) by lia. split; [exact Hb|].
    split; [exact Hn|]. intros [|j'] b' Hj Hb'.
    + injection Hb' as <-. apply String.eqb_neq. exact E.
    + apply (Hfirst j' b'); [lia|exact Hb'].
Qed.

Lemma find_name_none name bs k :
  find_name name bs k = None <-> forall b, In b bs -> Name b <> name.
Proof.
  revert k. induction bs as [|b0 tl IH]; intros k; cbn [find_name].
  - split; [intros _ b []|reflexivity].
  - destruct (String.eqb (Name b0) name) eqn:E.
    + split; [discriminate|]. intros H. exfalso.
      apply (H b0 (or_introl eq_refl)). apply String.eqb_eq. exact E.
    + rewrite IH. split.
      * intros H b [<-|Hb]; [apply String.eqb_neq; exact E|apply H; exact Hb].
      * intros H b Hb. apply H. right. exact Hb.
Qed.

Lemma find_beam_some name tss k i j :
  find_beam name tss k = Some (i, j) ->
  (k <= i)%nat /\
  exists ts b, nth_error tss (i - k) = Some ts /\
               nth_error (BeamSettings ts) j = Some b /\ Name b = name.
Proof.
  revert k. induction tss as [|ts0 tl IH]; intros k; cbn [find_beam];
    [discriminate|].
  destruct (find_name name (BeamSettings ts0) 0) as [j0|] eqn:E.
  - intros H. injection H as <- <-. split; [lia|].
    destruct (find_name_some _ _ _ E) as [_ [b [Hb [Hn _]]]].
    rewrite Nat.sub_0_r in Hb. exists ts0, b. rewrite Nat.sub_diag.
    repeat split; assumption.
  - intros H. destruct (IH _ H) as [Hle [ts [b [Hts [Hb Hn]]]]].
    split; [lia|]. exists ts, b.
    replace (i - k)%nat with (S (i - S k)) by lia. repeat split; assumption.
Qed.

Lemma find_beam_none name tss k :
  find_beam name tss k = None <->
  forall ts b, In ts tss -> In b (BeamSettings ts) -> Name b <> name.
Proof.
  revert k. induction tss as [|ts0 tl IH]; intros k; cbn [find_beam].
  - split; [intros _ ts b []|reflexivity].
  - destruct (find_name name (BeamSettings ts0) 0) as [j0|] eqn:E.
    + split; [discriminate|]. intros H. exfalso.
      destruct (find_name_some _ _ _ E) as [_ [b [Hb [Hn _]]]].
      apply (H ts0 b (or_introl eq_refl)); [|exact Hn].
      apply nth_error_In with (n := (j0 - 0)%nat). exact Hb.
    + rewrite IH. split.
      * intros H ts b [<-|Hts] Hb.
        { apply (proj1 (find_name_none name (BeamSettings ts0) 0) E). exact Hb. }
        { apply (H ts b Hts Hb). }
      * intros H ts b Hts Hb. apply (H ts b (or_intror Hts) Hb).
Qed.

(** X6.  [get_beam_settings] returns settings that carry the name asked for
    and sit where the reference says; it returns [None] exactly when no beam
    of any treatment setup has that name. *)
Theorem get_beam_settings_sound (p : PlanState) (name : string) :
  (forall r b, get_beam_settings p name = Some (r, b) ->
     Name b = name /\ beam_at (TreatmentSetupSettings p) r = Some b) /\
  (get_beam_settings p name = None <->
   forall ts b, In ts (TreatmentSetupSettings p) -> In b (BeamSettings ts) ->
                Name b <> name).
Proof.
  unfold get_beam_settings. split.
  - intros r b.
    destruct (find_beam name (TreatmentSetupSettings p) 0) as [[i j]|] eqn:E;
      [|discriminate].
    destruct (find_beam_some _ _ _ E) as [_ [ts [b0 [Hts [Hb Hn]]]]].
    rewrite Nat.sub_0_r in Hts.
    unfold beam_at. cbn [fst snd]. rewrite Hts, Hb.
    intros H. injection H as <- <-. split; [exact Hn|].
    cbn [fst snd]. rewrite Hts. exact Hb.
  - rewrite <- (find_beam_none name (TreatmentSetupSettings p) 0).
    destruct (find_beam name (TreatmentSetupSettings p) 0) as [[i j]|] eqn:E.
    + destruct (find_beam_some _ _ _ E) as [_ [ts [b0 [Hts [Hb Hn]]]]].
      rewrite Nat.sub_0_r in Hts. unfold beam_at. cbn [fst snd].
      rewrite Hts, Hb. split; discriminate.
    + split; reflexivity.
Qed.

Lemma get_beam_settings_sound_witness :
  Name (Samples.optimized_arc) = "Arc2"%string /\
  beam_at (TreatmentSetupSettings Samples.arc_plan) (0%nat, 1%nat)
  = Some Samples.optimized_arc.
Proof.
  apply (proj1 (get_beam_settings_sound Samples.arc_plan "Arc2")
           (0%nat, 1%nat) Samples.optimized_arc eq_refl).
Defined.

(** ** Delivery-time updates *)

(** X7.  [update_delivery_time] reports what it writes: when it answers
    "continue" the beam carries exactly the delivery time it returns; when it
    answers "stop" it has changed nothing and returns the [old_delivery_time]
    it was given; and with neither the bypass nor the reset requested a
    "continue" always comes with a time strictly below [old_delivery_time]. *)
Theorem update_reports_what_it_writes (w w' : World) (prev old : Q)
        (bypass reset_time : bool) (u : Update) (name : string) (r : BeamRef)
        (b : BeamSetting) (t : Q) :
  index (Model.Beams (live w)) 0 = Some name ->
  get_beam_settings (live w) name = Some (r, b) ->
  MaxDeliveryTime b = Some t ->
  update_delivery_time w prev old bypass reset_time = Ret (u, w') ->
  (continue_reduction u = true ->
   get_beam_settings (live w') name = Some (r, with_time (delivery_time u) b)) /\
  (continue_reduction u = false ->
   w' = w /\ delivery_time u = old /\ bypass = false /\ reset_time = false) /\
  (bypass = false -> reset_time = false -> continue_reduction u = true ->
   delivery_time u < old).
Proof.
  intros Hn Hg Ht. destruct bypass.
  - rewrite (update_bypassed w prev old reset_time Hn Hg Ht).
    intros H. injection H as <- <-. cbn [continue_reduction delivery_time].
    split; [intros _; apply get_after_modify; exact Hg|].
    split; [discriminate|discriminate].
  - rewrite (update_checked w prev old reset_time Hn Hg Ht). cbv zeta.
    destruct (Qltb _ old) eqn:El.
    + intros H. injection H as <- <-. cbn [continue_reduction delivery_time].
      split; [intros _; apply get_after_modify; exact Hg|].
      split; [discriminate|]. intros _ _ _. apply Qltb_lt. exact El.
    + destruct reset_time.
      * intros H. injection H as <- <-. cbn [continue_reduction delivery_time].
        split; [intros _; apply get_after_modify; exact Hg|].
        split; discriminate.
      * intros H. injection H as <- <-. cbn [continue_reduction delivery_time].
        split; [discriminate|]. split; [|discriminate].
        intros _. repeat split; reflexivity.
Qed.

Lemma update_reports_what_it_writes_witness :
  get_beam_settings
    (live (modify_tomo_beam_properties ((9 # 10) * 50) (0%nat, 0%nat)
             (Samples.world_of (Samples.tomo_plan 50 7)))) "Tomo1"
  = Some ((0%nat, 0%nat), with_time ((9 # 10) * 50) (Samples.tomo_beam 50)).
Proof.
  apply (proj1 (@update_reports_what_it_writes
                  (Samples.world_of (Samples.tomo_plan 50 7)) _ 7 50 true false
                  {| delivery_time := (9 # 10) * 50; branch := Bypassed;
                     continue_reduction := true |}
                  "Tomo1"%string (0%nat, 0%nat) (Samples.tomo_beam 50) 50
                  eq_refl eq_refl eq_refl eq_refl) eq_refl).
Defined.

(** ** The search loop: the 60 second guard and the rollback *)

(** A completed pass in detail: a commit happens only above 60 seconds and
    leaves the live plan persisted; a rollback leaves the persisted plan live
    again, with the committed time written back on the beam. *)
Lemma search_step_detail env name r t s s' :
  search_inv name r t (TimeReductionSearch.world s) ->
  TimeReductionSearch.search_step env name s = Ret s' ->
  ((60 # 1) < t /\
   saved (TimeReductionSearch.world s') = live (TimeReductionSearch.world s') /\
   TimeReductionSearch.reduce_time_iteration s'
   = (TimeReductionSearch.reduce_time_iteration s + 1)%Z /\
   search_inv name r ((9 # 10) * t) (TimeReductionSearch.world s')) \/
  (live (TimeReductionSearch.world s')
   = with_setups (saved (TimeReductionSearch.world s))
       (update_beam (with_time t)
          (TreatmentSetupSettings (saved (TimeReductionSearch.world s))) r) /\
   saved (TimeReductionSearch.world s') = saved (TimeReductionSearch.world s) /\
   TimeReductionSearch.reduce_time_iteration s'
   = (TimeReductionSearch.max_reduce_time_iterations + 1)%Z /\
   exists b, get_beam_settings (live (TimeReductionSearch.world s')) name
             = Some (r, b) /\ MaxDeliveryTime b = Some t).
Proof.
  intros [Hn [Hn' [[b [Hg Ht]] [b' [t' [Hg' [Ht' Hle]]]]]]].
  unfold TimeReductionSearch.search_step, run_optimization.
  destruct (oracle env (calls (TimeReductionSearch.world s))) as [pr fv mf|e] eqn:Eo;
    [|discriminate].
  cbn [success fst snd negb].
  set (w1 := RunOptimization (Converged pr fv mf) (TimeReductionSearch.world s)).
  assert (Hn1 : index (Model.Beams (live w1)) 0 = Some name) by exact Hn.
  assert (Hg1 : get_beam_settings (live w1) name = Some (r, b)) by exact Hg.
  assert (Hs1 : saved w1 = saved (TimeReductionSearch.world s)) by reflexivity.
  rewrite Hg1. cbn [of_option bind snd]. rewrite Ht. cbn [of_option bind].
  rewrite (update_checked w1 _ _ false Hn1 Hg1 Ht). cbv zeta.
  destruct (Qltb (FunctionValue (live w1))
                 (TimeReductionSearch.previous_objective_function s)
            && Qltb (60 # 1) t) eqn:Eimp.
  - apply andb_true_iff in Eimp. destruct Eimp as [_ E60].
    apply Qltb_lt in E60. pose proof (damped_lt E60) as Hlt.
    rewrite (proj2 (Qltb_lt _ _) Hlt). cbn [bind continue_reduction].
    intros H. injection H as <-. left.
    cbn [TimeReductionSearch.world TimeReductionSearch.reduce_time_iteration].
    split; [exact E60|]. split; [reflexivity|]. split; [reflexivity|].
    pose proof (get_after_modify w1 name ((9 # 10) * t) Hg1) as Hm.
    unfold search_inv. cbn [save emit live saved].
    split; [exact Hn1|]. split; [exact Hn1|].
    split; [eexists; split; [exact Hm|reflexivity]|].
    eexists. exists ((9 # 10) * t). split; [exact Hm|].
    split; [reflexivity|apply Qle_refl].
  - assert (Hnlt : Qltb t t = false) by (apply Qltb_ge; apply Qle_refl).
    rewrite Hnlt. cbn [bind continue_reduction].
    set (w3 := reload_patient w1).
    assert (Hl3 : live w3 = saved (TimeReductionSearch.world s)) by reflexivity.
    assert (Hn3 : index (Model.Beams (live w3)) 0 = Some name)
      by (rewrite Hl3; exact Hn').
    assert (Hg3 : get_beam_settings (live w3) name = Some (r, b'))
      by (rewrite Hl3; exact Hg').
    rewrite (update_checked w3 _ _ true Hn3 Hg3 Ht'). cbv zeta.
    unfold get_current_objective_value.
    assert (Hsame : Qltb (FunctionValue (live w3)) (FunctionValue (live w3)) = false)
      by (apply Qltb_ge; apply Qle_refl).
    rewrite Hsame. cbn [andb].
    rewrite (proj2 (Qltb_ge t' t) Hle). cbn [bind snd].
    intros H. injection H as <-. right.
    cbn [TimeReductionSearch.world TimeReductionSearch.reduce_time_iteration].
    split; [reflexivity|]. split; [reflexivity|]. split; [reflexivity|].
    exists (with_time t b'). split; [|reflexivity].
    apply get_after_modify. exact Hg3.
Qed.

(** The search loop itself honours the 60 second guard: it never raises the
    delivery time, leaves a time at or below 60 seconds as it is, and never
    takes a time above 54 seconds to 54 seconds or below. *)
Lemma search_loop_floor (env : Env) (name : string) (r : BeamRef) :
  forall (fuel : nat) (t : Q) (s s' : TimeReductionSearch.SearchState),
    search_inv name r t (TimeReductionSearch.world s) ->
    TimeReductionSearch.reduce_time_loop fuel env name s = Some (Ret s') ->
    exists b t_final,
      get_beam_settings (live (TimeReductionSearch.world s')) name = Some (r, b) /\
      MaxDeliveryTime b = Some t_final /\
      t_final <= t /\
      (t <= (60 # 1) -> t_final = t) /\
      ((54 # 1) < t -> (54 # 1) < t_final).
Proof.
  induction fuel as [|fuel IH]; intros t s s' Hinv;
    cbn [TimeReductionSearch.reduce_time_loop];
    destruct (TimeReductionSearch.reduce_time_iteration s
              <=? TimeReductionSearch.max_reduce_time_iterations)%Z;
    try discriminate;
    try (intros H; injection H as <-;
         destruct Hinv as [_ [_ [[b [Hg Ht]] _]]];
         exists b, t; repeat split; auto; apply Qle_refl).
  destruct (TimeReductionSearch.search_step env name s) as [s1|e] eqn:E;
    [|discriminate].
  intros Hloop.
  destruct (search_step_detail env s Hinv E)
    as [[H60 [_ [_ Hinv1]]] | [_ [_ [Hit [b [Hg Ht]]]]]].
  - destruct (IH _ _ _ Hinv1 Hloop) as [b [tf [Hg [Ht [Hle [_ H54]]]]]].
    exists b, tf. split; [exact Hg|]. split; [exact Ht|]. split; [lra|]. split.
    + intros Hle60. exfalso. apply (Qlt_not_le _ _ H60 Hle60).
    + intros _. apply H54. lra.
  - rewrite reduce_time_loop_done in Hloop by (rewrite Hit; lia).
    injection Hloop as <-. exists b, t. repeat split; auto. apply Qle_refl.
Qed.

(** X8.  The time-reduction block of [optimize_plan] as a whole, on a first
    beam with the delivery time [t]: the first reduction, made with the
    check bypassed, takes the time to [0.9 * t] whatever [t] is, also below
    the 60 second guard; the loop that follows never raises it and leaves a
    time at or below 60 seconds alone.  So the block ends with a time of at
    most [0.9 * t], with exactly [0.9 * t] when that is at or below 60
    seconds, and with more than 54 seconds when [t] was above 60 seconds. *)
Theorem search_respects_floor (env : Env) (fuel : nat) (w w' : World)
        (name : string) (r : BeamRef) (b : BeamSetting) (t : Q) :
  index (Model.Beams (live w)) 0 = Some name ->
  get_beam_settings (live w) name = Some (r, b) ->
  MaxDeliveryTime b = Some t ->
  0 <= t ->
  TimeReductionSearch.reduce_time_phase fuel env w = Some (Ret w') ->
  exists b' t_final,
    get_beam_settings (live w') name = Some (r, b') /\
    MaxDeliveryTime b' = Some t_final /\
    t_final <= (9 # 10) * t /\
    ((9 # 10) * t <= (60 # 1) -> t_final = (9 # 10) * t) /\
    ((60 # 1) < t -> (54 # 1) < t_final).
Proof.
  intros Hn Hg Ht Hpos.
  destruct (search_inv_after_init w Hn Hg Ht Hpos) as [s [Hinit [_ Hinv]]].
  unfold TimeReductionSearch.reduce_time_phase. rewrite Hinit.
  destruct (TimeReductionSearch.reduce_time_loop fuel env name s)
    as [[s'|e]|] eqn:Hloop; try discriminate.
  intros H. injection H as <-.
  destruct (@search_loop_floor env name r fuel _ s s' Hinv Hloop)
    as [b' [tf [Hg' [Ht' [Hle [H60 H54]]]]]].
  exists b', tf. split; [exact Hg'|]. split; [exact Ht'|].
  split; [exact Hle|]. split; [exact H60|].
  intros Hlt. apply H54. lra.
Qed.

Lemma search_respects_floor_witness :
  exists w' b',
    TimeReductionSearch.reduce_time_phase 7 Samples.stalled
      (Samples.world_of (Samples.tomo_plan 58 200)) = Some (Ret w') /\
    get_beam_settings (live w') "Tomo1" = Some ((0%nat, 0%nat), b') /\
    MaxDeliveryTime b' = Some ((9 # 10) * 58).
Proof.
  assert (Hrun : exists w',
             TimeReductionSearch.reduce_time_phase 7 Samples.stalled
               (Samples.world_of (Samples.tomo_plan 58 200)) = Some (Ret w'))
    by (eexists; vm_compute; reflexivity).
  destruct Hrun as [w' Hrun].
  destruct (@search_respects_floor Samples.stalled 7
              (Samples.world_of (Samples.tomo_plan 58 200)) w'
              "Tomo1"%string (0%nat, 0%nat) (Samples.tomo_beam 58) 58
              eq_refl eq_refl eq_refl ltac:(vm_compute; discriminate) Hrun)
    as [b' [tf [H1 [H2 [_ [H3 _]]]]]].
  exists w', b'. split; [exact Hrun|]. split; [exact H1|].
  rewrite H2. f_equal. apply H3. vm_compute. discriminate.
Defined.

(** X9.  After every completed pass of the search loop the live plan is
    accounted for by the persisted one: after a commit it has just been
    saved, and after a rollback it is the last persisted plan with nothing
    but the committed delivery time written back, so that the objective value
    of the rejected oracle run is gone. *)
Theorem pass_leaves_plan_persisted (env : Env) (name : string) (r : BeamRef)
        (t : Q) (s s' : TimeReductionSearch.SearchState) :
  search_inv name r t (TimeReductionSearch.world s) ->
  TimeReductionSearch.search_step env name s = Ret s' ->
  saved (TimeReductionSearch.world s') = live (TimeReductionSearch.world s') \/
  (live (TimeReductionSearch.world s')
   = with_setups (saved (TimeReductionSearch.world s))
       (update_beam (with_time t)
          (TreatmentSetupSettings (saved (TimeReductionSearch.world s))) r) /\
   FunctionValue (live (TimeReductionSearch.world s'))
   = FunctionValue (saved (TimeReductionSearch.world s)) /\
   ProgressOfOptimization (live (TimeReductionSearch.world s'))
   = ProgressOfOptimization (saved (TimeReductionSearch.world s))).
Proof.
  intros Hinv Hstep.
  destruct (search_step_detail env s Hinv Hstep)
    as [[_ [Hs _]] | [Hl _]].
  - left. exact Hs.
  - right. split; [exact Hl|]. rewrite Hl. split; reflexivity.
Qed.

Lemma pass_leaves_plan_persisted_witness :
  exists s',
    TimeReductionSearch.search_step Samples.stalled "Tomo1"
      (Samples.search_start 1000 100 100) = Ret s' /\
    (saved (TimeReductionSearch.world s') = live (TimeReductionSearch.world s') \/
     FunctionValue (live (TimeReductionSearch.world s')) = 100).
Proof.
  assert (Hrun : exists s',
             TimeReductionSearch.search_step Samples.stalled "Tomo1"
               (Samples.search_start 1000 100 100) = Ret s')
    by (eexists; vm_compute; reflexivity).
  destruct Hrun as [s' Hrun]. exists s'. split; [exact Hrun|].
  destruct (@pass_leaves_plan_persisted Samples.stalled "Tomo1"%string
              (0%nat, 0%nat) 1000 (Samples.search_start 1000 100 100) s')
    as [H | [_ [H _]]]; [|exact Hrun| |].
  - unfold search_inv. split; [reflexivity|]. split; [reflexivity|]. split.
    + exists (Samples.tomo_beam 1000). split; reflexivity.
    + exists (Samples.tomo_beam 1000), 1000. split; [reflexivity|].
      split; [reflexivity|]. apply Qle_refl.
  - left. exact H.
  - right. exact H.
Defined.

(** ** What a preparation that does not ask for a restart guarantees *)

Lemma gantry_spacing_pass_capped bs :
  snd (gantry_spacing_pass bs) = false ->
  Forall capped (fst (gantry_spacing_pass bs)).
Proof.
  induction bs as [|b tl IH]; cbn [gantry_spacing_pass]; [constructor|].
  destruct (gantry_spacing_pass tl) as [tl' restart]. cbn [fst snd] in IH.
  destruct (FinalArcGantrySpacing b) as [sp|] eqn:Es.
  - destruct (Qltb (2 # 1) sp) eqn:El.
    + destruct (Qltb 0 (BeamMU b)); cbn [fst snd]; [discriminate|].
      intros H. constructor; [|apply IH; exact H].
      unfold capped. cbn. apply Qle_refl.
    + cbn [fst snd]. intros H. constructor; [|apply IH; exact H].
      unfold capped. rewrite Es. apply Qltb_ge. exact El.
  - cbn [fst snd]. intros H. constructor; [|apply IH; exact H].
    unfold capped. rewrite Es. exact I.
Qed.

Lemma jaw_limit_pass_capped check bs :
  keeps_spacing check ->
  Forall capped bs -> Forall capped (fst (jaw_limit_pass check bs)).
Proof.
  intros Hk. induction bs as [|b tl IH]; cbn [jaw_limit_pass]; [constructor|].
  intros H. inversion H as [|? ? Hb Htl]; subst.
  pose proof (Hk jaw_limit b) as Hs.
  destruct (check jaw_limit b) as [ok b']. cbn [snd] in Hs.
  destruct (jaw_limit_pass check tl) as [tl' restart]. cbn [fst] in IH.
  assert (Hb' : capped b') by (unfold capped in *; rewrite Hs; exact Hb).
  destruct ok; cbn [fst]; constructor; auto.
Qed.

Lemma prepare_setup_technique check c ts :
  DeliveryTechnique (fst (prepare_setup check c ts)) = DeliveryTechnique ts.
Proof.
  unfold prepare_setup.
  repeat match goal with
         | |- context [if ?x then _ else _] => destruct x
         | |- context [let '(_, _) := ?x in _] => destruct x
         end; reflexivity.
Qed.

Lemma prepare_setup_capped check c ts :
  keeps_spacing check ->
  DeliveryTechnique ts = "DynamicArc"%string ->
  snd (prepare_setup check c ts) = false ->
  Forall capped (BeamSettings (fst (prepare_setup check c ts))).
Proof.
  intros Hk Ht. unfold prepare_setup. rewrite Ht.
  cbn [String.eqb Ascii.eqb Bool.eqb].
  destruct (if use_treat_settings c
            then treat_margin_pass (TreatRois ts) (margins c) (BeamSettings ts)
            else (BeamSettings ts, [])) as [bs1 sel].
  pose proof (gantry_spacing_pass_capped bs1) as Hg.
  destruct (gantry_spacing_pass bs1) as [bs2 restart]. cbn [fst snd] in Hg.
  destruct restart; [discriminate|].
  destruct (String.eqb (MachineName ts) "TrueBeamSTx" && use_treat_settings c).
  - pose proof (@jaw_limit_pass_capped check bs2 Hk (Hg eq_refl)) as Hj.
    destruct (jaw_limit_pass check bs2) as [bs3 restart']. cbn [fst snd].
    intros _. exact Hj.
  - cbn [fst snd]. intros _. apply Hg. reflexivity.
Qed.

(** X10.  When the preparation goes through without asking for a restart,
    every beam of every dynamic-arc treatment setup ends with a final gantry
    spacing of at most 2 degrees (for any [check_beam_limits] that does not
    touch the spacing). *)
Theorem arcs_capped_after_preparation (check : CheckBeamLimits) (c : PrepConfig)
        (tss : list TreatmentSetup) :
  keeps_spacing check ->
  snd (prepare_constraints check c tss) = false ->
  forall ts', In ts' (fst (prepare_constraints check c tss)) ->
              DeliveryTechnique ts' = "DynamicArc"%string ->
              Forall capped (BeamSettings ts').
Proof.
  intros Hk. induction tss as [|ts tl IH]; cbn [prepare_constraints].
  - intros _ ts' [].
  - pose proof (@prepare_setup_capped check c ts Hk) as Hc.
    pose proof (prepare_setup_technique check c ts) as Ht.
    destruct (prepare_setup check c ts) as [ts1 restart]. cbn [fst snd] in Hc, Ht.
    destruct restart; [discriminate|].
    destruct (prepare_constraints check c tl) as [tl' restart'].
    cbn [fst snd] in *. intros Hr ts' [<-|Hin] Htech.
    + apply Hc; [rewrite <- Ht; exact Htech|reflexivity].
    + apply (IH Hr ts' Hin Htech).
Qed.

Lemma arcs_capped_after_preparation_witness :
  exists ts',
    nth_error
      (fst (prepare_constraints check_beam_limits_spec
              (Driver.prep Samples.three_iterations)
              [Samples.arc_setup "TrueBeamSTx" [Samples.arc_beam "Arc1" 0 4]]))
      0 = Some ts' /\
    Forall capped (BeamSettings ts').
Proof.
  eexists. split; [vm_compute; reflexivity|].
  apply (@arcs_capped_after_preparation check_beam_limits_spec
           (Driver.prep Samples.three_iterations)
           [Samples.arc_setup "TrueBeamSTx" [Samples.arc_beam "Arc1" 0 4]]).
  - intros limit b. unfold check_beam_limits_spec.
    destruct (Qltb 0 (BeamMU b)); reflexivity.
  - vm_compute. reflexivity.
  - vm_compute. left. reflexivity.
  - reflexivity.
Defined.

(** ** [optimize_plan] outside the warm-start loop *)

(** X11.  With [fluence_only] the technique dispatch is skipped altogether:
    whenever [optimize_plan] returns, it has made exactly one oracle call and
    the treatment setup settings are the ones it found (after the optional
    reset): no margins, beam-split, gantry-spacing or jaw settings written. *)
Theorem fluence_only_skips_dispatch (check : CheckBeamLimits) (env : Env)
        (c : Driver.Config) (fuel : nat) (w w' : World) (ret : Driver.Return) :
  Driver.fluence_only c = true ->
  Driver.optimize_plan check env c fuel w = Some (Ret (ret, w')) ->
  TreatmentSetupSettings (live w')
  = TreatmentSetupSettings (live (Driver.before_preparation env c w)) /\
  calls w' = S (calls w) /\
  TimeReductionSearch.runs (events w') = S (TimeReductionSearch.runs (events w)).
Proof.
  intros Hf. unfold Driver.optimize_plan. rewrite Hf.
  destruct (Driver.reduce_time c && negb (Nat.eqb (Driver.patients c) 1));
    [discriminate|].
  destruct (Driver.initial_objective _) as [[current history0]|e]; [|discriminate].
  destruct (before_preparation_quiet env c w) as [Hc Hr].
  set (w0 := Driver.before_preparation env c w) in *.
  assert (Hruns : forall reply,
             TimeReductionSearch.runs
               (events (RunOptimization reply
                          (set_live w0 (TimeReductionSearch.with_iterations
                                          (live w0) 500 500))))
             = S (TimeReductionSearch.runs (events w))).
  { intros reply. destruct reply; cbn [RunOptimization emit events set_live];
      rewrite runs_app, Hr; cbn; lia. }
  cbn [set_live calls].
  destruct (oracle env (calls w0)) as [pr fv mf|e] eqn:Eo.
  - destruct (bind _ _) as [x|e]; [|discriminate].
    intros H. injection H as <- <-.
    split; [reflexivity|].
    split; [cbn; rewrite Hc; reflexivity|exact (Hruns (Converged pr fv mf))].
  - intros H. injection H as <- <-.
    split; [reflexivity|].
    split; [cbn; rewrite Hc; reflexivity|exact (Hruns (Raised e))].
Qed.

Lemma fluence_only_skips_dispatch_witness :
  exists w',
    Driver.optimize_plan check_beam_limits_spec (Samples.improving 2)
      Samples.fluence_run 10 (Samples.world_of Samples.arc_plan)
    = Some (Ret (Driver.Completed, w')) /\
    TreatmentSetupSettings (live w') = TreatmentSetupSettings Samples.arc_plan /\
    calls w' = 1%nat.
Proof.
  assert (Hrun : exists w',
             Driver.optimize_plan check_beam_limits_spec (Samples.improving 2)
               Samples.fluence_run 10 (Samples.world_of Samples.arc_plan)
             = Some (Ret (Driver.Completed, w')))
    by (eexists; vm_compute; reflexivity).
  destruct Hrun as [w' Hrun]. exists w'. split; [exact Hrun|].
  destruct (@fluence_only_skips_dispatch check_beam_limits_spec
              (Samples.improving 2) Samples.fluence_run 10
              (Samples.world_of Samples.arc_plan) w' Driver.Completed
              eq_refl Hrun) as [H1 [H2 _]].
  split; [exact H1|exact H2].
Defined.

Lemma approximate_lte_uniform (d : Q) : Driver.approximate_lte (d, d, d) d = true.
Proof.
  unfold Driver.approximate_lte.
  assert (H : Qle_bool d d = true) by (apply Qle_bool_iff; apply Qle_refl).
  rewrite H. reflexivity.
Qed.

(** X12.  After the dose-grid initialization a grid is set and is no coarser
    than the initial voxel size, up to the tolerance of [approximate_lte]; a
    grid that already was so is left as it is, without any host call. *)
Theorem dose_grid_within_initial (c : Driver.Config) (w : World) :
  (exists v,
     VoxelSize (live (Driver.initialize_dose_grid c w)) = Some v /\
     Driver.approximate_lte v (Driver.dose_dim_initial c) = true) /\
  (forall v0,
     VoxelSize (live w) = Some v0 ->
     Driver.approximate_lte v0 (Driver.dose_dim_initial c) = true ->
     Driver.initialize_dose_grid c w = w).
Proof.
  unfold Driver.initialize_dose_grid. split.
  - destruct (VoxelSize (live w)) as [v0|] eqn:E.
    + destruct (Driver.approximate_lte v0 (Driver.dose_dim_initial c)) eqn:Ea.
      * exists v0. split; assumption.
      * eexists. split; [reflexivity|apply approximate_lte_uniform].
    + eexists. split; [reflexivity|apply approximate_lte_uniform].
  - intros v0 -> ->. reflexivity.
Qed.

Lemma dose_grid_within_initial_witness :
  Driver.initialize_dose_grid Samples.fluence_run (Samples.world_of Samples.arc_plan)
  = Samples.world_of Samples.arc_plan.
Proof.
  apply (proj2 (dose_grid_within_initial Samples.fluence_run
                  (Samples.world_of Samples.arc_plan))
           (2 # 10, 2 # 10, 2 # 10) eq_refl).
  vm_compute. reflexivity.
Defined.

(** ** Segment conversion on static-MLC setups *)

Lemma sum_mu_by_mu bs bs' :
  map BeamMU bs = map BeamMU bs' -> sum_mu bs = sum_mu bs'.
Proof.
  unfold sum_mu. generalize (0 : Q). revert bs'.
  induction bs as [|b tl IH]; intros [|b' tl'] a H; try discriminate;
    [reflexivity|].
  cbn [map] in H. injection H as Hb Htl. cbn [fold_left]. rewrite Hb.
  apply IH. exact Htl.
Qed.

Lemma treat_margin_pass_mu rois m bs :
  map BeamMU (fst (treat_margin_pass rois m bs)) = map BeamMU bs.
Proof.
  induction bs as [|b tl IH]; cbn [treat_margin_pass]; [reflexivity|].
  destruct (treat_margin_pass rois m tl) as [tl' sel]. cbn [fst] in IH.
  destruct (Qltb 0 (BeamMU b)); cbn [fst map]; rewrite IH; reflexivity.
Qed.

Lemma beam_split_pass_mu allow bs :
  map BeamMU (beam_split_pass allow bs) = map BeamMU bs.
Proof.
  unfold beam_split_pass. rewrite map_map. apply map_ext.
  intros b. destruct (Qltb 0 (BeamMU b)); reflexivity.
Qed.

(** X13.  On a static-MLC treatment setup the segment-conversion settings are
    all or nothing: when the monitor units of its beams sum to more than
    zero they are left as they are, otherwise they are set to the script's
    minimums with a segment limit of ten per beam. *)
Theorem smlc_segment_limits (check : CheckBeamLimits) (c : PrepConfig)
        (ts : TreatmentSetup) :
  DeliveryTechnique ts = "SMLC"%string ->
  Segments (fst (prepare_setup check c ts))
  = if Qltb 0 (sum_mu (BeamSettings ts)) then Segments ts
    else sns_properties c (List.length (BeamSettings ts)).
Proof.
  intros Ht. unfold prepare_setup. rewrite Ht.
  cbn [String.eqb Ascii.eqb Bool.eqb].
  assert (Hmu : map BeamMU
                  (fst (if use_treat_settings c
                        then treat_margin_pass (TreatRois ts) (margins c)
                                               (BeamSettings ts)
                        else (BeamSettings ts, [])))
                = map BeamMU (BeamSettings ts)).
  { destruct (use_treat_settings c); [apply treat_margin_pass_mu|reflexivity]. }
  destruct (if use_treat_settings c
            then treat_margin_pass (TreatRois ts) (margins c) (BeamSettings ts)
            else (BeamSettings ts, [])) as [bs1 sel].
  cbn [fst] in Hmu.
  assert (Hmu2 : map BeamMU (beam_split_pass false bs1)
                 = map BeamMU (BeamSettings ts))
    by (rewrite beam_split_pass_mu; exact Hmu).
  rewrite (sum_mu_by_mu _ _ Hmu2).
  assert (Hlen : List.length (beam_split_pass false bs1)
                 = List.length (BeamSettings ts)).
  { rewrite <- (length_map BeamMU (beam_split_pass false bs1)), Hmu2.
    apply length_map. }
  rewrite Hlen.
  destruct (use_treat_settings c && String.eqb (MachineName ts) "TrueBeamSTx").
  - destruct (jaw_limit_pass check (beam_split_pass false bs1)) as [bs3 restart].
    reflexivity.
  - reflexivity.
Qed.

Lemma smlc_segment_limits_witness :
  MaxNumberOfSegments
    (Segments
       (fst (prepare_setup check_beam_limits_spec
               (Driver.prep Samples.three_iterations)
               (Samples.smlc_setup "TrueBeam"
                  [Samples.arc_beam "B1" 0 2; Samples.arc_beam "B2" 0 2;
                   Samples.arc_beam "B3" 0 2])))) = 30%Z.
Proof.
  rewrite (@smlc_segment_limits check_beam_limits_spec
             (Driver.prep Samples.three_iterations)
             (Samples.smlc_setup "TrueBeam"
                [Samples.arc_beam "B1" 0 2; Samples.arc_beam "B2" 0 2;
                 Samples.arc_beam "B3" 0 2]) eq_refl).
  reflexivity.
Defined.

(** ** Objective functions *)

Lemma mem_In x l : Objectives.mem x l = true <-> In x l.
Proof.
  unfold Objectives.mem. rewrite existsb_exists. split.
  - intros [y [Hy E]]. apply String.eqb_eq in E. subst y. exact Hy.
  - intros H. exists x. split; [exact H|apply String.eqb_refl].
Qed.

Lemma append_unique_In l x y :
  In y (Objectives.append_unique l x) <-> In y l \/ y = x.
Proof.
  unfold Objectives.append_unique. destruct (Objectives.mem x l) eqn:E.
  - apply mem_In in E. split; [intros H; left; exact H|].
    intros [H| ->]; assumption.
  - rewrite in_app_iff. cbn [In]. split.
    + intros [H|[H|[]]]; [left; exact H|right; symmetry; exact H].
    + intros [H| ->]; [left; exact H|right; left; reflexivity].
Qed.

Lemma NoDup_snoc (l : list string) (x : string) :
  NoDup l -> ~ In x l -> NoDup (l ++ [x]).
Proof.
  intros Hl Hx. induction Hl as [|y l Hy Hl IH]; cbn [app].
  - constructor; [intros []|constructor].
  - constructor.
    + rewrite in_app_iff. cbn [In]. intros [H|[H|[]]]; [contradiction|].
      subst. apply Hx. left. reflexivity.
    + apply IH. intros H. apply Hx. right. exact H.
Qed.

Lemma append_unique_NoDup l x :
  NoDup l -> NoDup (Objectives.append_unique l x).
Proof.
  intros Hl. unfold Objectives.append_unique.
  destruct (Objectives.mem x l) eqn:E; [exact Hl|].
  apply NoDup_snoc; [exact Hl|]. intros H. apply mem_In in H. congruence.
Qed.

Lemma composite_objectives_nil objs k :
  Objectives.composite_objectives objs k = [] <->
  forall o, In o objs -> Objectives.has_beamset o = false.
Proof.
  revert k. induction objs as [|o tl IH]; intros k;
    cbn [Objectives.composite_objectives].
  - split; [intros _ o []|reflexivity].
  - destruct (Objectives.has_beamset o) eqn:E.
    + split; [discriminate|]. intros H.
      rewrite (H o (or_introl eq_refl)) in E. discriminate.
    + rewrite IH. split.
      * intros H o' [<-|Ho]; [exact E|apply H; exact Ho].
      * intros H o' Ho. apply H. right. exact Ho.
Qed.

(** X14.  [reduce_oar_dose] calls the host exactly when no objective has a
    [ForBeamSet] attribute; with a composite objective present it returns
    [False] without calling. *)
Theorem reduce_oar_rejects_composite (objs : list Objectives.ConstituentFunction)
        (raises : Objectives.ReduceOarCall -> bool) :
  (snd (Objectives.reduce_oar_dose objs raises) = None <->
   exists o, In o objs /\ Objectives.has_beamset o = true) /\
  (snd (Objectives.reduce_oar_dose objs raises) = None ->
   fst (Objectives.reduce_oar_dose objs raises) = false).
Proof.
  unfold Objectives.reduce_oar_dose.
  destruct (Objectives.composite_objectives objs 0) as [|i tl] eqn:E.
  - destruct (Objectives.sort_objectives objs) as [targets oars]. cbn [fst snd].
    split; [|discriminate]. split; [discriminate|].
    intros [o [Ho Hb]].
    rewrite (proj1 (composite_objectives_nil objs 0) E o Ho) in Hb. discriminate.
  - cbn [fst snd]. split; [|reflexivity]. split; [|reflexivity]. intros _.
    destruct (existsb Objectives.has_beamset objs) eqn:Ex.
    + apply existsb_exists in Ex. exact Ex.
    + exfalso.
      assert (Hnil : Objectives.composite_objectives objs 0 = []).
      { apply composite_objectives_nil. intros o Ho.
        destruct (Objectives.has_beamset o) eqn:Eo; [|reflexivity].
        assert (Hex : existsb Objectives.has_beamset objs = true)
          by (apply existsb_exists; exists o; split; assumption).
        congruence. }
      congruence.
Qed.

Lemma sort_objectives_invariant objs :
  forall t0 o0 t o,
    fold_left
      (fun acc ob =>
         let '(targets, oars) := acc in
         if String.eqb (Objectives.OrganType ob) "Target"
         then (Objectives.append_unique targets (Objectives.RoiName ob), oars)
         else (targets, Objectives.append_unique oars (Objectives.RoiName ob)))
      objs (t0, o0) = (t, o) ->
    NoDup t0 -> NoDup o0 ->
    NoDup t /\ NoDup o /\
    (forall x, In x t <->
               In x t0 \/ exists ob, In ob objs /\ Objectives.RoiName ob = x /\
                                     Objectives.OrganType ob = "Target"%string) /\
    (forall x, In x o <->
               In x o0 \/ exists ob, In ob objs /\ Objectives.RoiName ob = x /\
                                     Objectives.OrganType ob <> "Target"%string).
Proof.
  induction objs as [|ob tl IH]; intros t0 o0 t o; cbn [fold_left].
  - intros H Ht Ho. injection H as <- <-. repeat split; try assumption.
    + intros H; left; exact H.
    + intros [H|[ob [[] _]]]; exact H.
    + intros H; left; exact H.
    + intros [H|[ob [[] _]]]; exact H.
  - destruct (String.eqb (Objectives.OrganType ob) "Target") eqn:E.
    + apply String.eqb_eq in E. intros H Ht Ho.
      destruct (IH _ _ _ _ H (append_unique_NoDup _ Ht) Ho)
        as [H1 [H2 [H3 H4]]].
      split; [exact H1|]. split; [exact H2|]. split.
      * intros x. rewrite H3, append_unique_In. split.
        { intros [[Hx| ->]|[ob' [Hin Hrest]]].
          - left. exact Hx.
          - right. exists ob. split; [left; reflexivity|]. split; [reflexivity|exact E].
          - right. exists ob'. split; [right; exact Hin|exact Hrest]. }
        { intros [Hx|[ob' [[<-|Hin] [Hn Ht']]]].
          - left. left. exact Hx.
          - left. right. symmetry. exact Hn.
          - right. exists ob'. repeat split; assumption. }
      * intros x. rewrite H4. split.
        { intros [Hx|[ob' [Hin Hrest]]]; [left; exact Hx|].
          right. exists ob'. split; [right; exact Hin|exact Hrest]. }
        { intros [Hx|[ob' [[<-|Hin] [Hn Ht']]]]; [left; exact Hx|congruence|].
          right. exists ob'. repeat split; assumption. }
    + apply String.eqb_neq in E. intros H Ht Ho.
      destruct (IH _ _ _ _ H Ht (append_unique_NoDup _ Ho))
        as [H1 [H2 [H3 H4]]].
      split; [exact H1|]. split; [exact H2|]. split.
      * intros x. rewrite H3. split.
        { intros [Hx|[ob' [Hin Hrest]]]; [left; exact Hx|].
          right. exists ob'. split; [right; exact Hin|exact Hrest]. }
        { intros [Hx|[ob' [[<-|Hin] [Hn Ht']]]]; [left; exact Hx|congruence|].
          right. exists ob'. repeat split; assumption. }
      * intros x. rewrite H4, append_unique_In. split.
        { intros [[Hx| ->]|[ob' [Hin Hrest]]].
          - left. exact Hx.
          - right. exists ob. split; [left; reflexivity|]. split; [reflexivity|exact E].
          - right. exists ob'. split; [right; exact Hin|exact Hrest]. }
        { intros [Hx|[ob' [[<-|Hin] [Hn Ht']]]].
          - left. left. exact Hx.
          - left. right. symmetry. exact Hn.
          - right. exists ob'. repeat split; assumption. }
Qed.

(** X15.  Without composite objectives [reduce_oar_dose] hands the host two
    duplicate-free lists: the targets are exactly the ROIs of the objectives
    whose organ type is 'Target', the organs at risk exactly the ROIs of all
    the others, the same list serving as the organs to improve and to
    maintain; it returns [True] unless the host call raises. *)
Theorem reduce_oar_partition (objs : list Objectives.ConstituentFunction)
        (raises : Objectives.ReduceOarCall -> bool) :
  (forall o, In o objs -> Objectives.has_beamset o = false) ->
  exists call,
    Objectives.reduce_oar_dose objs raises = (negb (raises call), Some call) /\
    NoDup (Objectives.TargetsToMaintain call) /\
    NoDup (Objectives.OrgansAtRiskToImprove call) /\
    Objectives.OrgansAtRiskToMaintain call = Objectives.OrgansAtRiskToImprove call /\
    (forall x, In x (Objectives.TargetsToMaintain call) <->
               exists o, In o objs /\ Objectives.RoiName o = x /\
                         Objectives.OrganType o = "Target"%string) /\
    (forall x, In x (Objectives.OrgansAtRiskToImprove call) <->
               exists o, In o objs /\ Objectives.RoiName o = x /\
                         Objectives.OrganType o <> "Target"%string).
Proof.
  intros Hno. unfold Objectives.reduce_oar_dose.
  rewrite (proj2 (composite_objectives_nil objs 0) Hno).
  unfold Objectives.sort_objectives.
  destruct (fold_left _ objs ([], [])) as [targets oars] eqn:E.
  destruct (@sort_objectives_invariant objs _ _ _ _ E (NoDup_nil _) (NoDup_nil _))
    as [H1 [H2 [H3 H4]]].
  eexists. split; [reflexivity|].
  cbn [Objectives.TargetsToMaintain Objectives.OrgansAtRiskToImprove
       Objectives.OrgansAtRiskToMaintain].
  split; [exact H1|]. split; [exact H2|]. split; [reflexivity|]. split.
  - intros x. rewrite H3. split; [intros [[]|H]; exact H|intros H; right; exact H].
  - intros x. rewrite H4. split; [intros [[]|H]; exact H|intros H; right; exact H].
Qed.

Lemma reduce_oar_rejects_composite_witness :
  Objectives.reduce_oar_dose
    [{| Objectives.RoiName := "PTV_60"; Objectives.OrganType := "Target";
        Objectives.FunctionType := Some "MinDose"%string;
        Objectives.OfDoseDistribution := Objectives.ForBeamSet "Boost" |}]
    (fun _ => false) = (false, None).
Proof.
  pose proof (reduce_oar_rejects_composite
                [{| Objectives.RoiName := "PTV_60"%string;
                    Objectives.OrganType := "Target"%string;
                    Objectives.FunctionType := Some "MinDose"%string;
                    Objectives.OfDoseDistribution := Objectives.ForBeamSet "Boost" |}]
                (fun _ => false)) as [H1 H2].
  assert (Hn : snd (Objectives.reduce_oar_dose
                      [{| Objectives.RoiName := "PTV_60"%string;
                          Objectives.OrganType := "Target"%string;
                          Objectives.FunctionType := Some "MinDose"%string;
                          Objectives.OfDoseDistribution :=
                            Objectives.ForBeamSet "Boost" |}]
                      (fun _ => false)) = None).
  { apply H1. eexists. split; [left; reflexivity|reflexivity]. }
  specialize (H2 Hn).
  destruct (Objectives.reduce_oar_dose _ _) as [ok call]. cbn [fst snd] in *.
  subst. reflexivity.
Defined.

Lemma reduce_oar_partition_witness :
  exists call,
    Objectives.reduce_oar_dose Samples.plan_objectives (fun _ => false)
    = (true, Some call) /\
    Objectives.TargetsToMaintain call = ["PTV_60"; "PTV_54"]%string /\
    Objectives.OrgansAtRiskToImprove call = ["Cord"]%string.
Proof.
  destruct (@reduce_oar_partition Samples.plan_objectives (fun _ => false))
    as [call [H _]].
  - intros o [<-|[<-|[<-|[<-|[<-|[]]]]]]; reflexivity.
  - exists call. split; [exact H|].
    vm_compute in H. injection H as <-. split; reflexivity.
Defined.

(** ** ROIs selected for treat margins *)

Lemma collect_roi_eq co label l o :
  Objectives.collect_roi co label l o
  = if scoped_target co label o
    then Objectives.append_unique l (Objectives.RoiName o) else l.
Proof.
  unfold Objectives.collect_roi, scoped_target, Objectives.append_unique.
  cbv zeta.
  destruct (match Objectives.FunctionType o with
            | Some ft => Objectives.mem ft Objectives.target_objectives
            | None => false
            end && _); cbn [andb]; [|reflexivity].
  destruct (Objectives.mem (Objectives.RoiName o) l); reflexivity.
Qed.

Lemma collect_roi_invariant co label objs :
  forall l0,
    NoDup l0 ->
    NoDup (fold_left (Objectives.collect_roi co label) objs l0) /\
    forall x,
      In x (fold_left (Objectives.collect_roi co label) objs l0) <->
      In x l0 \/ exists o, In o objs /\ Objectives.RoiName o = x /\
                           scoped_target co label o = true.
Proof.
  induction objs as [|o tl IH]; intros l0 Hl0; cbn [fold_left].
  - split; [exact Hl0|]. intros x. split; [intros H; left; exact H|].
    intros [H|[o [[] _]]]. exact H.
  - rewrite collect_roi_eq. destruct (scoped_target co label o) eqn:E.
    + destruct (IH _ (append_unique_NoDup (Objectives.RoiName o) Hl0)) as [H1 H2].
      split; [exact H1|]. intros x. rewrite H2, append_unique_In. split.
      * intros [[Hx| ->]|[o' [Hin Hrest]]].
        { left. exact Hx. }
        { right. exists o. split; [left; reflexivity|]. split; [reflexivity|exact E]. }
        { right. exists o'. split; [right; exact Hin|exact Hrest]. }
      * intros [Hx|[o' [[<-|Hin] [Hn Hs]]]].
        { left. left. exact Hx. }
        { left. right. symmetry. exact Hn. }
        { right. exists o'. repeat split; assumption. }
    + destruct (IH _ Hl0) as [H1 H2]. split; [exact H1|].
      intros x. rewrite H2. split.
      * intros [Hx|[o' [Hin Hrest]]]; [left; exact Hx|].
        right. exists o'. split; [right; exact Hin|exact Hrest].
      * intros [Hx|[o' [[<-|Hin] [Hn Hs]]]]; [left; exact Hx|congruence|].
        right. exists o'. repeat split; assumption.
Qed.

Lemma select_all_succeeds select rois :
  (forall r, In r rois -> select r = None) ->
  Objectives.select_all select rois = (rois, None).
Proof.
  induction rois as [|r tl IH]; intros H; cbn [Objectives.select_all];
    [reflexivity|].
  rewrite (H r (or_introl eq_refl)), IH; [reflexivity|].
  intros r' Hr'. apply H. right. exact Hr'.
Qed.

Lemma scoped_target_spec n label o :
  scoped_target (Nat.ltb 1 n) label o = true <->
  (exists ft, Objectives.FunctionType o = Some ft /\
              In ft ["MinDose"; "UniformDose"; "TargetEud"]%string) /\
  ((n <= 1)%nat \/
   Objectives.OfDoseDistribution o = Objectives.ForBeamSet label).
Proof.
  unfold scoped_target. rewrite andb_true_iff.
  match goal with
  | |- (?A /\ ?B) <-> (?P /\ ?Q) =>
      cut ((A <-> P) /\ (B <-> Q)); [tauto|split]
  end.
  - destruct (Objectives.FunctionType o) as [ft|].
    + rewrite mem_In. split; [intros H; exists ft; split; [reflexivity|exact H]|].
      intros [ft' [E H]]. injection E as <-. exact H.
    + split; [discriminate|]. intros [ft [E _]]. discriminate.
  - destruct (Nat.ltb_spec 1 n) as [Hco|Hco]; cbn [negb orb].
    + destruct (Objectives.OfDoseDistribution o) as [| |l].
      * split; [discriminate|]. intros [H|H]; [lia|discriminate].
      * split; [discriminate|]. intros [H|H]; [lia|discriminate].
      * rewrite String.eqb_eq. split.
        { intros ->. right. reflexivity. }
        { intros [H|H]; [lia|]. injection H as ->. reflexivity. }
    + split; [intros _; left; exact Hco|reflexivity].
Qed.

(** X16.  Called without a ROI list on a host that accepts every selection,
    [select_rois_for_treat] returns a duplicate-free list that holds exactly
    the ROIs of the objectives of type MinDose, UniformDose or TargetEud
    which are in scope: all of them when the plan is not co-optimized, those
    defined on this beamset otherwise. *)
Theorem treat_rois_are_scoped_targets (n_setups : nat) (label : string)
        (objs : list Objectives.ConstituentFunction)
        (select : string -> option HostException) :
  (forall r, select r = None) ->
  exists l,
    Objectives.select_rois_for_treat n_setups label objs select None = inl l /\
    NoDup l /\
    forall x,
      In x l <->
      exists o, In o objs /\ Objectives.RoiName o = x /\
                (exists ft, Objectives.FunctionType o = Some ft /\
                            In ft ["MinDose"; "UniformDose"; "TargetEud"]%string) /\
                ((n_setups <= 1)%nat \/
                 Objectives.OfDoseDistribution o = Objectives.ForBeamSet label).
Proof.
  intros Hsel. unfold Objectives.select_rois_for_treat. cbv zeta.
  rewrite select_all_succeeds by (intros r _; apply Hsel). cbn [snd].
  destruct (@collect_roi_invariant (Nat.ltb 1 n_setups) label objs []
              (NoDup_nil _)) as [H1 H2].
  eexists. split; [reflexivity|]. split; [exact H1|].
  intros x. rewrite H2. split.
  - intros [[]|[o [Hin [Hn Hs]]]]. exists o. split; [exact Hin|].
    split; [exact Hn|]. apply scoped_target_spec. exact Hs.
  - intros [o [Hin [Hn Hs]]]. right. exists o. split; [exact Hin|].
    split; [exact Hn|]. apply scoped_target_spec. exact Hs.
Qed.

Lemma treat_rois_are_scoped_targets_witness :
  Objectives.select_rois_for_treat 1 "Pros_VMA_R0A0" Samples.plan_objectives
    (fun _ => None) None = inl ["PTV_60"; "PTV_54"]%string.
Proof.
  destruct (@treat_rois_are_scoped_targets 1 "Pros_VMA_R0A0"
              Samples.plan_objectives (fun _ => None) (fun _ => eq_refl))
    as [l [H _]].
  rewrite H. vm_compute in H. injection H as <-. reflexivity.
Defined.

Lemma select_given_invariant select rois :
  forall l0 l,
    Objectives.select_given select rois l0 = inl l ->
    NoDup l0 ->
    NoDup l /\
    (forall x, In x l <-> In x l0 \/ In x rois) /\
    (forall r e, In r rois -> select r = Some e ->
       exists m, Message e = Some m /\ contains "No ROI named" m = true).
Proof.
  induction rois as [|r tl IH]; intros l0 l; cbn [Objectives.select_given].
  - intros H Hl0. injection H as <-. split; [exact Hl0|]. split.
    + intros x. split; [intros H; left; exact H|intros [H|[]]; exact H].
    + intros r e [].
  - destruct (select r) as [e|] eqn:Es.
    + destruct (Message e) as [m|] eqn:Em; [|discriminate].
      destruct (contains "No ROI named" m) eqn:Ec; [|discriminate].
      intros H Hl0.
      destruct (IH _ _ H (append_unique_NoDup r Hl0)) as [H1 [H2 H3]].
      split; [exact H1|]. split.
      * intros x. rewrite H2, append_unique_In. cbn [In]. split.
        { intros [[Hx| ->]|Hx]; auto. }
        { intros [Hx|[<-|Hx]]; auto. }
      * intros r' e' [<-|Hin] Hs'.
        { rewrite Es in Hs'. injection Hs' as <-. exists m.
          split; assumption. }
        { apply (H3 r' e' Hin Hs'). }
    + intros H Hl0.
      destruct (IH _ _ H (append_unique_NoDup r Hl0)) as [H1 [H2 H3]].
      split; [exact H1|]. split.
      * intros x. rewrite H2, append_unique_In. cbn [In]. split.
        { intros [[Hx| ->]|Hx]; auto. }
        { intros [Hx|[<-|Hx]]; auto. }
      * intros r' e' [<-|Hin] Hs'; [congruence|].
        apply (H3 r' e' Hin Hs').
Qed.

(** X17.  Called with a ROI list, [select_rois_for_treat] returns, when it
    returns, every ROI it was given, once each: also the ROIs the host does
    not know ('No ROI named'), which are logged and kept.  It returns only if
    every host failure was of that kind. *)
Theorem given_rois_all_returned (n_setups : nat) (label : string)
        (objs : list Objectives.ConstituentFunction)
        (select : string -> option HostException) (rois l : list string) :
  Objectives.select_rois_for_treat n_setups label objs select (Some rois) = inl l ->
  NoDup l /\
  (forall x, In x l <-> In x rois) /\
  (forall r e, In r rois -> select r = Some e ->
     exists m, Message e = Some m /\ contains "No ROI named" m = true).
Proof.
  unfold Objectives.select_rois_for_treat. intros H.
  destruct (@select_given_invariant select rois [] l H (NoDup_nil _))
    as [H1 [H2 H3]].
  split; [exact H1|]. split; [|exact H3].
  intros x. rewrite H2. split; [intros [[]|Hx]; exact Hx|intros Hx; right; exact Hx].
Qed.

Lemma given_rois_all_returned_witness :
  In "Bolus"%string ["PTV_60"; "Bolus"]%string.
Proof.
  apply (proj1 (proj2 (@given_rois_all_returned 1 "Pros_VMA_R0A0"
                         Samples.plan_objectives Samples.knows_all_but_bolus
                         ["PTV_60"; "Bolus"; "PTV_60"]%string
                         ["PTV_60"; "Bolus"]%string eq_refl)) "Bolus"%string).
  right. left. reflexivity.
Defined.

(** ** The configuration reader *)

Lemma read_configs_each int float os l :
  Protocol.read_configs int float os = Protocol.Ok l ->
  forall o, In o os -> exists c, Protocol.read_config int float o = Protocol.Ok c.
Proof.
  revert l. induction os as [|o tl IH]; intros l H o' Hin; [destruct Hin|].
  cbn [Protocol.read_configs] in H.
  destruct (Protocol.read_config int float o) as [c|e] eqn:E; [|discriminate].
  cbn [Protocol.bind] in H.
  destruct (Protocol.read_configs int float tl) as [rest|e] eqn:Er; [|discriminate].
  destruct Hin as [<-|Hin]; [exists c; exact E|].
  apply (IH rest eq_refl o' Hin).
Qed.

(** X18.  The reader catches a missing attribute but not a missing element:
    if any [optimization_config] element of the tree, at any depth, has no
    [initial] child or no [warmstart] child, the whole call fails and no
    configuration at all is returned. *)
Theorem config_without_iterations_fails (int : string -> option Z)
        (float : string -> option Q) (etree o : Protocol.Element) :
  In o (Protocol.iter "optimization_config" etree) ->
  Protocol.find o "initial" = None \/ Protocol.find o "warmstart" = None ->
  forall l, Protocol.iter_optimization_config_etree int float etree
            <> Protocol.Ok l.
Proof.
  intros Hin Hmiss l H.
  destruct (read_configs_each _ _ _ H o Hin) as [c Hc].
  unfold Protocol.read_config in Hc.
  destruct Hmiss as [Hm|Hm].
  - unfold Protocol.get_node_attrib at 1 in Hc. rewrite Hm in Hc. discriminate.
  - destruct (Protocol.get_node_attrib o "initial" "max_it" int); [|discriminate].
    cbn [Protocol.bind] in Hc.
    destruct (Protocol.get_node_attrib o "initial" "int_it" int); [|discriminate].
    cbn [Protocol.bind] in Hc.
    unfold Protocol.get_node_attrib at 1 in Hc. rewrite Hm in Hc. discriminate.
Qed.

Lemma config_without_iterations_fails_witness :
  match
    Protocol.iter_optimization_config_etree Samples.sample_int Samples.sample_float
      Samples.protocol
  with
  | Protocol.Ok _ => False
  | _ => True
  end.
Proof.
  pose proof (@config_without_iterations_fails Samples.sample_int
                Samples.sample_float Samples.protocol Samples.incomplete_config)
    as H.
  destruct (Protocol.iter_optimization_config_etree _ _ _) as [l|e];
    [|exact I].
  apply (H ltac:(vm_compute; right; left; reflexivity)
           ltac:(left; reflexivity) l).
  reflexivity.
Defined.

Lemma lower_true_cases (b : bool) :
  String.eqb (Protocol.lower (Protocol.str_bool b)) "true" = b.
Proof. destruct b; reflexivity. Qed.

(** X19.  [get_boolean_text] answers [True] exactly when the child exists
    with a text that is 'true' up to case, or is missing with a default of
    [True]; it raises an [AttributeError] exactly when the child exists and
    has no text at all. *)
Theorem get_boolean_text_cases (node : Protocol.Element) (name : string)
        (default : bool) :
  (Protocol.get_boolean_text node name default = Protocol.Ok true <->
   (exists c t, Protocol.find node name = Some c /\ Protocol.text c = Some t /\
                Protocol.lower t = "true"%string) \/
   (Protocol.find node name = None /\ default = true)) /\
  (Protocol.get_boolean_text node name default
   = Protocol.Fail Protocol.AttributeError <->
   exists c, Protocol.find node name = Some c /\ Protocol.text c = None).
Proof.
  unfold Protocol.get_boolean_text, Protocol.get_node_text.
  destruct (Protocol.find node name) as [c|].
  - destruct (Protocol.text c) as [t|] eqn:Et.
    + split.
      * split.
        { intros H. injection H as H. apply String.eqb_eq in H.
          left. exists c, t. repeat split; assumption. }
        { intros [[c' [t' [Hc [Ht Hl]]]]|[Hc _]]; [|discriminate].
          injection Hc as <-. rewrite Et in Ht. injection Ht as <-.
          rewrite Hl. reflexivity. }
      * split; [discriminate|]. intros [c' [Hc Ht]]. injection Hc as <-.
        congruence.
    + split.
      * split; [discriminate|].
        intros [[c' [t' [Hc [Ht _]]]]|[Hc _]]; [|discriminate].
        injection Hc as <-. congruence.
      * split; [|reflexivity]. intros _. exists c. split; [reflexivity|exact Et].
  - rewrite lower_true_cases. split.
    + split.
      * intros H. injection H as ->. right. split; reflexivity.
      * intros [[c [t [Hc _]]]|[_ ->]]; [discriminate|reflexivity].
    + split; [discriminate|]. intros [c [Hc _]]. discriminate.
Qed.

Lemma get_boolean_text_cases_witness :
  Protocol.get_boolean_text Samples.complete_config "vary_grid" false
  = Protocol.Ok true.
Proof.
  apply (proj1 (get_boolean_text_cases Samples.complete_config "vary_grid" false)).
  left. exists (Samples.leaf "vary_grid" (Some "TRUE"%string)
                  [("dose_dim1", "0.5")]%string), "TRUE"%string.
  repeat split; reflexivity.
Defined.

Ltac read_step H :=
  match type of H with
  | Protocol.bind ?m _ = Protocol.Ok _ =>
      let E := fresh "E" in
      destruct m eqn:E; [cbn [Protocol.bind] in H | discriminate H]
  end.

Lemma when_off {A : Type} (m : Protocol.Result (option A)) (v : option A) :
  Protocol.when false m = Protocol.Ok v -> v = None.
Proof. cbn. intros H. injection H as <-. reflexivity. Qed.

Lemma boolean_default node name default b :
  Protocol.find node name = None ->
  Protocol.get_boolean_text node name default = Protocol.Ok b -> b = default.
Proof.
  intros Hf. unfold Protocol.get_boolean_text, Protocol.get_node_text.
  rewrite Hf, lower_true_cases. intros H. injection H as <-. reflexivity.
Qed.

(** X20.  In every configuration the reader returns, the values tied to a
    switch are present only with the switch: without [vary_grid] the four
    dose-grid sizes are [None], without [reduce_mod] so is the modulation
    target, without [robust] so are the seven robustness settings; and an
    element that does not mention them gets [use_treat_settings = True] and
    [vary_grid = False]. *)
Theorem read_config_conditionals (int : string -> option Z)
        (float : string -> option Q) (o : Protocol.Element)
        (c : Protocol.OptimizationConfig) :
  Protocol.read_config int float o = Protocol.Ok c ->
  (Protocol.vary_grid c = false ->
   Protocol.dose_dim1 c = None /\ Protocol.dose_dim2 c = None /\
   Protocol.dose_dim3 c = None /\ Protocol.dose_dim4 c = None) /\
  (Protocol.reduce_mod c = false -> Protocol.mod_target c = None) /\
  (Protocol.robust c = false ->
   Protocol.robust_sup c = None /\ Protocol.robust_inf c = None /\
   Protocol.robust_ant c = None /\ Protocol.robust_post c = None /\
   Protocol.robust_right c = None /\ Protocol.robust_left c = None /\
   Protocol.position_uncertainty c = None) /\
  (Protocol.find o "use_treat_settings" = None ->
   Protocol.use_treat_settings c = true) /\
  (Protocol.find o "vary_grid" = None -> Protocol.vary_grid c = false).
Proof.
  intros H. unfold Protocol.read_config in H. cbv zeta in H.
  do 28 read_step H.
  injection H as <-.
  cbn [Protocol.vary_grid Protocol.dose_dim1 Protocol.dose_dim2 Protocol.dose_dim3
       Protocol.dose_dim4 Protocol.reduce_mod Protocol.mod_target Protocol.robust
       Protocol.robust_sup Protocol.robust_inf Protocol.robust_ant
       Protocol.robust_post Protocol.robust_right Protocol.robust_left
       Protocol.position_uncertainty Protocol.use_treat_settings].
  split; [|split; [|split; [|split]]].
  - intros ->. repeat split; eapply when_off; eassumption.
  - intros ->. eapply when_off; eassumption.
  - intros ->. repeat split; eapply when_off; eassumption.
  - intros Hf. eapply boolean_default; eassumption.
  - intros Hf. eapply boolean_default; eassumption.
Qed.

Lemma read_config_conditionals_witness :
  exists c,
    Protocol.read_config Samples.sample_int Samples.sample_float
      Samples.complete_config = Protocol.Ok c /\
    Protocol.mod_target c = None /\ Protocol.use_treat_settings c = true.
Proof.
  assert (Hrun : exists c,
             Protocol.read_config Samples.sample_int Samples.sample_float
               Samples.complete_config = Protocol.Ok c)
    by (eexists; vm_compute; reflexivity).
  destruct Hrun as [c Hc]. exists c. split; [exact Hc|].
  destruct (@read_config_conditionals Samples.sample_int Samples.sample_float
              Samples.complete_config c Hc) as [_ [H2 [_ [H4 _]]]].
  split.
  - apply H2. vm_compute in Hc. injection Hc as <-. reflexivity.
  - apply H4. reflexivity.
Defined.

(** ** Jaw limits *)

Lemma narrow_fold segs :
  forall ax ay loc ax' ay' loc',
    fold_left JawCheck.narrow segs (ax, ay, loc) = (ax', ay', loc') ->
    (ax' = ax \/ exists s, In s segs /\ ax' = x_opening s) /\
    (ay' = ay \/ exists s, In s segs /\ ay' = y_opening s).
Proof.
  induction segs as [|s tl IH]; intros ax ay loc ax' ay' loc'; cbn [fold_left].
  - intros H. injection H as <- <- <-. split; left; reflexivity.
  - destruct s as [[[x1 x2] y1] y2]. cbn [JawCheck.narrow].
    destruct (Qle_bool (x2 - x1) ax) eqn:Ex;
      destruct (Qle_bool (y2 - y1) ay) eqn:Ey;
      intros H; destruct (IH _ _ _ _ _ _ H) as [[Hx|[s [Hs Hx]]] [Hy|[s' [Hs' Hy]]]];
      split;
      try (left; assumption);
      try (right; exists (x1, x2, y1, y2); split; [left; reflexivity|assumption]);
      try (right; exists s; split; [right; assumption|assumption]);
      try (right; exists s'; split; [right; assumption|assumption]).
Qed.

Lemma check_beam_edit min_dim loc b loc' j :
  JawCheck.check_beam min_dim loc b = JawCheck.Done (loc', Some j) ->
  JawCheck.plan_is_optimized b = true /\
  ((exists s, In s (JawCheck.Segments b) /\
              (x_opening s <= min_dim \/ y_opening s <= min_dim)) \/
   (40 # 1) <= min_dim).
Proof.
  unfold JawCheck.check_beam.
  destruct (JawCheck.plan_is_optimized b); [|discriminate].
  destruct (fold_left JawCheck.narrow (JawCheck.Segments b) (40 # 1, 40 # 1, loc))
    as [[ax ay] loc1] eqn:E.
  destruct (narrow_fold _ _ _ _ E) as [Hx Hy].
  destruct (if Qle_bool ax (min_dim * (1 + JawCheck.epsilon)) then _ else _)
    as [[x1 x2]|e]; [|discriminate].
  destruct (if Qle_bool ay (min_dim * (1 + JawCheck.epsilon)) then _ else _)
    as [[y1 y2]|e]; [|discriminate].
  destruct (Qle_bool ax min_dim) eqn:Eax.
  - intros _. split; [reflexivity|]. apply Qle_bool_iff in Eax.
    destruct Hx as [->|[s [Hs ->]]]; [right; exact Eax|].
    left. exists s. split; [exact Hs|left; exact Eax].
  - destruct (Qle_bool ay min_dim) eqn:Eay; [|discriminate].
    intros _. split; [reflexivity|]. apply Qle_bool_iff in Eay.
    destruct Hy as [->|[s [Hs ->]]]; [right; exact Eay|].
    left. exists s. split; [exact Hs|right; exact Eay].
Qed.

Lemma check_beams_edits min_dim beams :
  forall loc edits,
    JawCheck.check_beams min_dim loc beams = JawCheck.Done edits ->
    forall name j,
      In (name, j) edits ->
      exists b, In b beams /\ JawCheck.BeamName b = name /\
                JawCheck.plan_is_optimized b = true /\
                ((exists s, In s (JawCheck.Segments b) /\
                            (x_opening s <= min_dim \/ y_opening s <= min_dim)) \/
                 (40 # 1) <= min_dim).
Proof.
  induction beams as [|b tl IH]; intros loc edits; cbn [JawCheck.check_beams].
  - intros H. injection H as <-. intros name j [].
  - destruct (JawCheck.check_beam min_dim loc b) as [[loc' edit]|e] eqn:Eb;
      [|discriminate].
    destruct (JawCheck.check_beams min_dim loc' tl) as [rest|e] eqn:Er;
      [|discriminate].
    assert (Htl : forall name j, In (name, j) rest ->
              exists b0, In b0 (b :: tl) /\ JawCheck.BeamName b0 = name /\
                JawCheck.plan_is_optimized b0 = true /\
                ((exists s, In s (JawCheck.Segments b0) /\
                            (x_opening s <= min_dim \/ y_opening s <= min_dim)) \/
                 (40 # 1) <= min_dim)).
    { intros name j Hin. destruct (IH _ _ Er name j Hin) as [b0 [Hb0 Hrest]].
      exists b0. split; [right; exact Hb0|exact Hrest]. }
    destruct edit as [j0|]; intros H; injection H as <-.
    + intros name j [Heq|Hin]; [|apply (Htl name j Hin)].
      injection Heq as <- <-. destruct (@check_beam_edit _ _ _ _ _ Eb) as [Ho Hn].
      exists b. split; [left; reflexivity|]. split; [reflexivity|].
      split; assumption.
    + exact Htl.
Qed.

(** X22.  [check_min_jaws] asks for jaw limits (and then resets the
    optimization and returns [True]) only on beams that are optimized and
    have a segment whose opening, along X or along Y, is at most [min_dim]
    (or when [min_dim] itself is 40 cm or more); it returns [True] exactly
    when it has asked for jaw limits on some beam. *)
Theorem jaw_limits_only_for_narrow_beams (setups : list (list JawCheck.JawBeam))
        (min_dim : Q) (change : bool) (edits : list (string * JawCheck.Jaw)) :
  JawCheck.check_min_jaws setups min_dim = JawCheck.Done (change, edits) ->
  (change = true <-> edits <> []) /\
  forall name j,
    In (name, j) edits ->
    exists b, In b (List.concat setups) /\ JawCheck.BeamName b = name /\
              JawCheck.plan_is_optimized b = true /\
              ((exists s, In s (JawCheck.Segments b) /\
                          (x_opening s <= min_dim \/ y_opening s <= min_dim)) \/
               (40 # 1) <= min_dim).
Proof.
  unfold JawCheck.check_min_jaws.
  destruct (JawCheck.check_beams min_dim JawCheck.unbound (List.concat setups))
    as [es|e] eqn:E; [|discriminate].
  intros H. injection H as <- <-. split.
  - destruct es; split; try discriminate; try reflexivity.
    intros H. exfalso. apply H. reflexivity.
  - apply (@check_beams_edits _ _ _ _ E).
Qed.

Lemma jaw_limits_only_for_narrow_beams_witness :
  exists edits,
    JawCheck.check_min_jaws [[Samples.narrow_beam; Samples.wide_beam]] (2 # 1)
    = JawCheck.Done (true, edits) /\
    edits <> [] /\
    forall name j,
      In (name, j) edits ->
      exists b, In b [Samples.narrow_beam; Samples.wide_beam] /\
                JawCheck.BeamName b = name /\
                JawCheck.plan_is_optimized b = true.
Proof.
  assert (Hrun : exists edits,
             JawCheck.check_min_jaws [[Samples.narrow_beam; Samples.wide_beam]] (2 # 1)
             = JawCheck.Done (true, edits)).
  { eexists. vm_compute. reflexivity. }
  destruct Hrun as [edits Hrun].
  destruct (@jaw_limits_only_for_narrow_beams _ _ _ _ Hrun) as [Hiff Hsound].
  exists edits. split; [exact Hrun|]. split; [apply Hiff; reflexivity|].
  intros name j Hin. destruct (Hsound name j Hin) as [b [Hb [Hname [Hopt _]]]].
  exists b. split; [exact Hb|]. split; assumption.
Defined.

Lemma check_beams_unoptimized min_dim beams :
  (forall b, In b beams -> JawCheck.plan_is_optimized b = false) ->
  forall loc, JawCheck.check_beams min_dim loc beams = JawCheck.Done [].
Proof.
  induction beams as [|b tl IH]; intros H loc; cbn [JawCheck.check_beams];
    [reflexivity|].
  unfold JawCheck.check_beam. rewrite (H b (or_introl eq_refl)).
  rewrite IH; [reflexivity|]. intros b' Hb'. apply H. right. exact Hb'.
Qed.

(** X23.  On a plan none of whose beams is optimized (no segments on a
    static-MLC beam, no valid segments on an arc, any other technique)
    [check_min_jaws] changes nothing: it returns [False], asks for no jaw
    limits and does not reset the optimization, whatever [min_dim] is. *)
Theorem unoptimized_plan_is_left_alone (setups : list (list JawCheck.JawBeam))
        (min_dim : Q) :
  (forall b, In b (List.concat setups) -> JawCheck.plan_is_optimized b = false) ->
  JawCheck.check_min_jaws setups min_dim = JawCheck.Done (false, []).
Proof.
  intros H. unfold JawCheck.check_min_jaws.
  rewrite (@check_beams_unoptimized min_dim _ H). reflexivity.
Qed.

Lemma unoptimized_plan_is_left_alone_witness :
  JawCheck.check_min_jaws [[Samples.unoptimized_beam]; [Samples.helical_beam]] (2 # 1)
  = JawCheck.Done (false, []).
Proof.
  apply unoptimized_plan_is_left_alone.
  intros b [<-|[<-|[]]]; vm_compute; reflexivity.
Defined.
